(** * The feeder backend of [app.py]: registry, reachability, event recorder

    A shallow embedding of the request handlers of [src/app.py] that keep
    the feeder registry, probe the devices and record feeding events,
    together with the properties the specification states about them, and
    of the handlers around them (schedules, the dispense amount, the views
    of the log) and the helpers of [src/ip_management.py], with the
    properties the code itself shows.

    The SQLite file is modelled as a record of tables, each table a list of
    rows in rowid order.  Device calls and clock readings are inputs of the
    handlers; the device calls a handler makes are returned as a trace. *)

From Stdlib Require Import ZArith List String Ascii Bool Lia Sorted Permutation.
From Stdlib Require Import DecimalString Relations.
Import ListNotations.

Local Open Scope string_scope.
Local Open Scope Z_scope.
Local Open Scope list_scope.

(* ================================================================== *)
(** ** Python built-ins used by [add_feeder] *)
(* ================================================================== *)

(** Text is [string] over the code points U+0000..U+00FF. *)
Module Py.

(** The exceptions the handlers meet: [int] on a text that is no integer
    literal and unpacking a list of the wrong length ([ValueError]), a
    statement naming a column the table lacks ([OperationalError]), an
    integer that does not fit the 64 bits [sqlite3] binds ([OverflowError]),
    and the plain [Exception] that [trigger_feeding_by_feeder] raises
    itself. *)
Inductive exn : Type :=
| ValueError
| OperationalError
| OverflowError
| Exception.

Inductive result (A : Type) : Type :=
| Ok (a : A)
| Raise (e : exn).
Arguments Ok {A} a.
Arguments Raise {A} e.

Definition ord (c : ascii) : Z := Z.of_nat (nat_of_ascii c).

(** [sep in s] *)
Fixpoint contains (sep : ascii) (s : string) : bool :=
  match s with
  | EmptyString => false
  | String c rest => Ascii.eqb c sep || contains sep rest
  end.

(** [s.split(sep)] for a one-character separator: never an empty list. *)
Fixpoint split (sep : ascii) (s : string) : list string :=
  match s with
  | EmptyString => [EmptyString]
  | String c rest =>
      if Ascii.eqb c sep then EmptyString :: split sep rest
      else match split sep rest with
           | p :: ps => String c p :: ps
           | [] => [String c EmptyString]
           end
  end.

Fixpoint all_chars (p : ascii -> bool) (s : string) : bool :=
  match s with
  | EmptyString => true
  | String c rest => p c && all_chars p rest
  end.

(** The decimal digits [0]..[9]. *)
Definition is_decimal (c : ascii) : bool := (48 <=? ord c) && (ord c <=? 57).

Definition digit_value (c : ascii) : Z := ord c - 48.

(** [str.isdigit] also accepts the superscripts U+00B2, U+00B3, U+00B9,
    which [int] refuses. *)
Definition is_superscript (c : ascii) : bool :=
  (ord c =? 178) || (ord c =? 179) || (ord c =? 185).

Definition isdigit_char (c : ascii) : bool := is_decimal c || is_superscript c.

(** [s.isdigit()]: false on the empty text. *)
Definition isdigit (s : string) : bool :=
  match s with
  | EmptyString => false
  | _ => all_chars isdigit_char s
  end.

(** White space as [str.isspace] has it: what [str.strip] strips and what
    [\s] matches. *)
Definition is_space (c : ascii) : bool :=
  ((9 <=? ord c) && (ord c <=? 13)) || ((28 <=? ord c) && (ord c <=? 32))
  || (ord c =? 133) || (ord c =? 160).

Fixpoint lstrip (s : string) : string :=
  match s with
  | EmptyString => EmptyString
  | String c rest => if is_space c then lstrip rest else s
  end.



(** White space as [int] skips it at both ends of its argument: that of
    [str.isspace] without the separators U+001C..U+001F. *)
Definition is_int_space (c : ascii) : bool :=
  ((9 <=? ord c) && (ord c <=? 13)) || (ord c =? 32)
  || (ord c =? 133) || (ord c =? 160).

Fixpoint int_lstrip (s : string) : string :=
  match s with
  | EmptyString => EmptyString
  | String c rest => if is_int_space c then int_lstrip rest else s
  end.

Fixpoint int_rstrip (s : string) : string :=
  match s with
  | EmptyString => EmptyString
  | String c rest =>
      match int_rstrip rest with
      | EmptyString => if is_int_space c then EmptyString else String c EmptyString
      | r => String c r
      end
  end.

Definition int_strip (s : string) : string := int_rstrip (int_lstrip s).

(** The digits of an integer literal: decimal digits, single underscores
    allowed between two digits.  [after_digit] says the previous character
    was a digit. *)
Fixpoint int_digits (acc : Z) (after_digit : bool) (s : string) : option Z :=
  match s with
  | EmptyString => if after_digit then Some acc else None
  | String c rest =>
      if is_decimal c then int_digits (10 * acc + digit_value c) true rest
      else if Ascii.eqb c "_" && after_digit then int_digits acc false rest
      else None
  end.

(** [int(s)]: [None] stands for [ValueError]. *)
Definition int (s : string) : option Z :=
  match int_strip s with
  | String "+" rest => int_digits 0 false rest
  | String "-" rest => option_map Z.opp (int_digits 0 false rest)
  | body => int_digits 0 false body
  end.

(** Truth value of an optional text: [None] and [''] are false. *)
Definition truthy (s : option string) : bool :=
  match s with
  | None => false
  | Some EmptyString => false
  | Some _ => true
  end.

End Py.

Import Py.

(* ================================================================== *)
(** ** The stored tables *)
(* ================================================================== *)

(** A point in time at the one-second resolution of
    [strftime('%Y-%m-%d %H:%M:%S')], counted in seconds; the text form
    orders as the number does.  A calendar date is counted in days. *)
Definition datetime := Z.
Definition isodate := Z.

(** SQLite's [DATE(timestamp)]. *)
Definition DATE (t : datetime) : isodate := t / 86400.

(** A row of [feeders], columns as [setup_database.py] declares them. *)
Record feeder : Type := mk_feeder {
  feeder_id : Z;
  feeder_name : string;
  esp32_ip : string;
  esp32_port : Z;
  esp_cam_ip : option string;
  esp_cam_port : Z;
  location : string;
  max_capacity_g : Z;
  current_weight_g : Z;
  is_active : bool;
  is_online : bool;
  last_online : option datetime;
  last_offline : option datetime;
  wifi_strength : Z;
  created_at : datetime;
  updated_at : datetime
}.

(** A row of [logs], columns as [init_db] of [app.py] declares them. *)
Record log : Type := mk_log {
  id : Z;
  log_feeder_id : Z;
  timestamp : datetime;
  source : string;
  weight : option Z;
  amount : Z;
  event_type : string;
  image_path : option string;
  feed_type : option string;
  feeding_id : option string
}.

(** [daily_stats] is declared twice in the repository: by [init_db] of
    [app.py] with [date TEXT PRIMARY KEY] and no feeder column, and by
    [setup_database.py] with [feeder_id INTEGER DEFAULT 1] and
    [UNIQUE(feeder_id, date)].  Both scripts say [CREATE TABLE IF NOT EXISTS],
    so the layout of the table is that of whichever ran first: it is part of
    the stored state. *)
Inductive stats_layout : Type :=
| DateKey
| FeederDateKey.

(** A row of [daily_stats]; [stat_feeder_id] is [None] in the [DateKey]
    layout, which has no such column. *)
Record stat : Type := mk_stat {
  stat_feeder_id : option Z;
  date : isodate;
  total_feedings : Z
}.

(** The database file.  [feeders_seq] and [logs_seq] are the
    [sqlite_sequence] counters of the two AUTOINCREMENT keys.  [feeders] is
    declared by [setup_database.py] alone and [logs] carries the columns
    that the statements of [app.py] name; of the differences between the
    two declarations of the tables only the key of [daily_stats] is kept,
    as [layout]. *)
Record db : Type := mk_db {
  layout : stats_layout;
  feeders : list feeder;
  feeders_seq : Z;
  logs : list log;
  logs_seq : Z;
  daily_stats : list stat
}.

Definition with_feeders (d : db) (fs : list feeder) (seq : Z) : db :=
  mk_db (layout d) fs seq (logs d) (logs_seq d) (daily_stats d).

Definition with_logs (d : db) (ls : list log) (seq : Z) : db :=
  mk_db (layout d) (feeders d) (feeders_seq d) ls seq (daily_stats d).

Definition with_daily_stats (d : db) (ss : list stat) : db :=
  mk_db (layout d) (feeders d) (feeders_seq d) (logs d) (logs_seq d) ss.

(** [UPDATE t SET ... WHERE p] and [DELETE FROM t WHERE p]. *)
Definition update_where {A : Type} (p : A -> bool) (set : A -> A)
    (rows : list A) : list A :=
  map (fun r => if p r then set r else r) rows.

Definition delete_where {A : Type} (p : A -> bool) (rows : list A) : list A :=
  filter (fun r => negb (p r)) rows.

(** [ORDER BY feeder_id ASC]. *)
Fixpoint insert_by_feeder_id (f : feeder) (fs : list feeder) : list feeder :=
  match fs with
  | [] => [f]
  | g :: rest =>
      if feeder_id f <=? feeder_id g then f :: fs
      else g :: insert_by_feeder_id f rest
  end.

Definition order_by_feeder_id (fs : list feeder) : list feeder :=
  fold_right insert_by_feeder_id [] fs.

(* ================================================================== *)
(** ** The world outside: devices and clock *)
(* ================================================================== *)

(** An outbound HTTP call to a device, with its timeout in seconds. *)
Inductive device_call : Type :=
| GetStatus (host : string) (port : Z) (timeout : Z)
| PostDispense (host : string) (port : Z) (amount : Z) (timeout : Z).

(** What [requests] gives back: a response with its status code, or a
    [requests.exceptions.RequestException] (time-out, refused connection). *)
Inductive http_reply : Type :=
| Response (status_code : Z)
| RequestException.

Definition network := device_call -> http_reply.

(** The clock readings a handler takes: [datetime.now()] and, where a
    statement reads it twice, the second reading; [date.today()]; and the
    UTC time behind SQLite's [CURRENT_TIMESTAMP] and [DATE('now')]. *)
Record clock : Type := mk_clock {
  now : datetime;
  now_again : datetime;
  today : isodate;
  utc_now : datetime
}.

(* ================================================================== *)
(** ** Responses *)
(* ================================================================== *)

(** The [feeders_list] entry of [get_feeders]: the columns of the row as
    selected, and the verdict of the probe under ['is_online']. *)
Record feeder_json : Type := mk_feeder_json {
  row : feeder;
  json_is_online : bool
}.

Inductive body : Type :=
| Error (msg : string)
| ErrorOf (e : exn)
| FeederAdded (new_id : Z)
| FeederDeleted (name : string)
| FeedingTriggered (fid : Z) (grams : Z)
| Feeders (l : list feeder_json)
| DailyStats (feedings : Z) (dispensed : Z)
| Text (msg : string).

(** What a handler leaves behind: the HTTP status and body of its answer,
    the database after it, and the device calls it made, in order. *)
Record outcome : Type := mk_outcome {
  status : Z;
  answer : body;
  state : db;
  calls : list device_call
}.

(* ================================================================== *)
(** ** SQLite helpers *)
(* ================================================================== *)

(** [SELECT MAX(id)]: NULL on an empty table. *)
Fixpoint MAX (ids : list Z) : option Z :=
  match ids with
  | [] => None
  | i :: rest =>
      match MAX rest with
      | None => Some i
      | Some m => Some (Z.max i m)
      end
  end.

(** The key an AUTOINCREMENT column gives a new row: one more than the
    largest key the table holds or ever held. *)
Definition autoincrement (seq : Z) (ids : list Z) : Z :=
  match MAX ids with
  | None => seq + 1
  | Some m => Z.max seq m + 1
  end.

Definition option_Z_eqb (a b : option Z) : bool :=
  match a, b with
  | Some x, Some y => x =? y
  | None, None => true
  | _, _ => false
  end.

Definition option_string_eqb (a b : option string) : bool :=
  match a, b with
  | Some x, Some y => String.eqb x y
  | None, None => true
  | _, _ => false
  end.

(** Whether a stored row of [daily_stats] collides with a new row for
    [feeder] and [dt] on the table's unique key. *)
Definition stat_conflict (l : stats_layout) (feeder : option Z) (dt : isodate)
    (s : stat) : bool :=
  match l with
  | DateKey => date s =? dt
  | FeederDateKey => option_Z_eqb (stat_feeder_id s) feeder && (date s =? dt)
  end.

(** [INSERT OR REPLACE INTO daily_stats]: the colliding row goes, the new
    one is added at the end. *)
Definition insert_or_replace (l : stats_layout) (new : stat)
    (rows : list stat) : list stat :=
  delete_where (stat_conflict l (stat_feeder_id new) (date new)) rows ++ [new].

(** [COALESCE((SELECT total_feedings FROM daily_stats WHERE p), 0)]. *)
Definition coalesce_total (p : stat -> bool) (rows : list stat) : Z :=
  match find p rows with
  | Some s => total_feedings s
  | None => 0
  end.

(** [COALESCE(SUM(amount), 0)] over the selected rows. *)
Definition SUM_amount (rows : list log) : Z :=
  fold_right (fun l acc => amount l + acc) 0 rows.

(* ================================================================== *)
(** ** Reachability *)
(* ================================================================== *)

Definition check_feeder_online (net : network) (ip : string) (port : Z)
    (timeout : Z) : bool :=
  match net (GetStatus ip port timeout) with
  | Response status_code => status_code =? 200
  | RequestException => false
  end.

Definition stamp_online (c : clock) (f : feeder) : feeder :=
  mk_feeder (feeder_id f) (feeder_name f) (esp32_ip f) (esp32_port f)
    (esp_cam_ip f) (esp_cam_port f) (location f) (max_capacity_g f)
    (current_weight_g f) (is_active f)
    true (Some (now c)) (last_offline f)
    (wifi_strength f) (created_at f) (now_again c).

Definition stamp_offline (c : clock) (f : feeder) : feeder :=
  mk_feeder (feeder_id f) (feeder_name f) (esp32_ip f) (esp32_port f)
    (esp_cam_ip f) (esp_cam_port f) (location f) (max_capacity_g f)
    (current_weight_g f) (is_active f)
    false (last_online f) (Some (now c))
    (wifi_strength f) (created_at f) (now_again c).

(** [update_feeder_status(feeder_id, is_online)]. *)
Definition update_feeder_status (d : db) (fid : Z) (online : bool)
    (c : clock) : db :=
  with_feeders d
    (update_where (fun f => feeder_id f =? fid)
       (if online then stamp_online c else stamp_offline c) (feeders d))
    (feeders_seq d).

(* ================================================================== *)
(** ** Feeder registry *)
(* ================================================================== *)

(** One turn of the loop of [get_feeders] over the selected rows: probe,
    write the verdict when it differs from the selected flag, report. *)
Definition get_feeders_step (net : network) (clock_at : Z -> clock)
    (acc : db * list feeder_json * list device_call) (f : feeder)
    : db * list feeder_json * list device_call :=
  let '(d, feeders_list, trace) := acc in
  let online := check_feeder_online net (esp32_ip f) (esp32_port f) 2 in
  let d' :=
    if Bool.eqb online (is_online f) then d
    else update_feeder_status d (feeder_id f) online (clock_at (feeder_id f)) in
  (d', feeders_list ++ [mk_feeder_json f online],
   trace ++ [GetStatus (esp32_ip f) (esp32_port f) 2]).

(** [get_feeders()]; [clock_at fid] is the clock at the moment the status
    of feeder [fid] is written. *)
Definition get_feeders (d : db) (net : network) (clock_at : Z -> clock)
    : outcome :=
  let selected := order_by_feeder_id (filter is_active (feeders d)) in
  let '(d', feeders_list, trace) :=
    fold_left (get_feeders_step net clock_at) selected (d, [], []) in
  mk_outcome 200 (Feeders feeders_list) d' trace.

(** The JSON body of [add_feeder]. *)
Record add_feeder_json : Type := mk_add_feeder_json {
  name : option string;
  ip_address : option string;
  json_location : option string;
  json_max_capacity_g : option Z
}.

(** ["Parse IP and port (default port 80)"]. *)
Definition parse_address (ip_address : string) : result (string * Z) :=
  if contains ":" ip_address then
    match split ":" ip_address with
    | [ip; port] =>
        match int port with
        | Some p => Ok (ip, p)
        | None => Raise ValueError
        end
    | _ => Raise ValueError
    end
  else Ok (ip_address, 80).

(** [all(part.isdigit() and 0 <= int(part) <= 255 for part in parts)]. *)
Fixpoint all_octets (parts : list string) : result bool :=
  match parts with
  | [] => Ok true
  | part :: rest =>
      if isdigit part then
        match int part with
        | None => Raise ValueError
        | Some n => if (0 <=? n) && (n <=? 255) then all_octets rest else Ok false
        end
      else Ok false
  end.

(** [len(parts) != 4 or not all(...)]. *)
Definition invalid_ip (ip : string) : result bool :=
  let parts := split "." ip in
  if negb (Z.of_nat (List.length parts) =? 4) then Ok true
  else match all_octets parts with
       | Ok b => Ok (negb b)
       | Raise e => Raise e
       end.

Definition or_default {A : Type} (dflt : A) (o : option A) : A :=
  match o with
  | Some a => a
  | None => dflt
  end.

(** What the [sqlite3] module binds as an INTEGER: a signed 64-bit value;
    a larger Python int makes [execute] raise OverflowError. *)
Definition sqlite_integer (n : Z) : bool :=
  (- 9223372036854775808 <=? n) && (n <=? 9223372036854775807).

(** [add_feeder()].  The INSERT binds the port and the capacity, each of
    which must fit 64 bits. *)
Definition add_feeder (d : db) (data : add_feeder_json) (c : clock) : outcome :=
  if negb (truthy (name data)) || negb (truthy (ip_address data)) then
    mk_outcome 400 (Error "Missing required fields") d []
  else
    match parse_address (or_default "" (ip_address data)) with
    | Raise e => mk_outcome 500 (ErrorOf e) d []
    | Ok (ip, port) =>
        match invalid_ip ip with
        | Raise e => mk_outcome 500 (ErrorOf e) d []
        | Ok true => mk_outcome 400 (Error "Invalid IP address format") d []
        | Ok false =>
            if existsb (fun f => String.eqb (esp32_ip f) ip && is_active f)
                 (feeders d)
            then mk_outcome 400 (Error "A feeder with this IP already exists") d []
            else if negb (sqlite_integer port
                          && sqlite_integer
                               (or_default 5000 (json_max_capacity_g data)))
            then mk_outcome 500 (ErrorOf OverflowError) d []
            else
              let new_id :=
                autoincrement (feeders_seq d) (map feeder_id (feeders d)) in
              let f :=
                mk_feeder new_id (or_default "" (name data)) ip port
                  None 80
                  (or_default "Main Area" (json_location data))
                  (or_default 5000 (json_max_capacity_g data))
                  0 true false (Some (utc_now c)) None 0
                  (now c) (utc_now c) in
              mk_outcome 200 (FeederAdded new_id)
                (with_feeders d (feeders d ++ [f]) new_id) []
        end
    end.

Definition deactivate (c : clock) (f : feeder) : feeder :=
  mk_feeder (feeder_id f) (feeder_name f) (esp32_ip f) (esp32_port f)
    (esp_cam_ip f) (esp_cam_port f) (location f) (max_capacity_g f)
    (current_weight_g f)
    false (is_online f) (last_online f) (last_offline f)
    (wifi_strength f) (created_at f) (now c).

(** [delete_feeder(feeder_id)]: the soft delete. *)
Definition delete_feeder (d : db) (fid : Z) (c : clock) : outcome :=
  match find (fun f => feeder_id f =? fid) (feeders d) with
  | None => mk_outcome 404 (Error "Feeder not found") d []
  | Some f =>
      mk_outcome 200 (FeederDeleted (feeder_name f))
        (with_feeders d
           (update_where (fun g => feeder_id g =? fid) (deactivate c) (feeders d))
           (feeders_seq d)) []
  end.

(* ================================================================== *)
(** ** Feeding event recorder *)
(* ================================================================== *)

(** [event_type in ['MANUAL_FEED', 'SCHEDULED_FEED', 'BUTTON_FEED']]. *)
Definition countable (event_type : string) : bool :=
  existsb (String.eqb event_type) ["MANUAL_FEED"; "SCHEDULED_FEED"; "BUTTON_FEED"].

(** The upsert of [log_data] (and of the older [trigger_feeding]): the
    statement names [date] and [total_feedings] only, so the count it reads
    is that of the first row of the date, and the row it writes has the
    default feeder where the table has a feeder column. *)
Definition upsert_by_date (l : stats_layout) (dt : isodate)
    (rows : list stat) : list stat :=
  let n := coalesce_total (fun s => date s =? dt) rows + 1 in
  match l with
  | DateKey => insert_or_replace l (mk_stat None dt n) rows
  | FeederDateKey => insert_or_replace l (mk_stat (Some 1) dt n) rows
  end.

(** The upsert of [trigger_feeding_by_feeder]: it names the column
    [feeder_id], which the [DateKey] layout lacks. *)
Definition upsert_by_feeder (l : stats_layout) (fid : Z) (dt : isodate)
    (rows : list stat) : result (list stat) :=
  match l with
  | DateKey => Raise OperationalError
  | FeederDateKey =>
      let n :=
        coalesce_total
          (fun s => option_Z_eqb (stat_feeder_id s) (Some fid) && (date s =? dt))
          rows + 1 in
      Ok (insert_or_replace l (mk_stat (Some fid) dt n) rows)
  end.

(** [trigger_feeding_by_feeder(feeder_id)]; [form_amount] is the form field
    [amount].  The INSERT names neither [weight] nor the image, the feed
    type or the token.  The row stays only where the upsert that follows
    goes through, which is on the tables of [setup_database.py], whose
    [logs] declares [weight INTEGER DEFAULT 0]. *)
Definition trigger_feeding_by_feeder (d : db) (fid : Z) (form_amount : option Z)
    (net : network) (c : clock) : outcome :=
  match find (fun f => (feeder_id f =? fid) && is_active f) (feeders d) with
  | None => mk_outcome 404 (Error "Feeder not found or inactive") d []
  | Some feeder =>
      let amount := or_default 50 form_amount in
      let call := PostDispense (esp32_ip feeder) (esp32_port feeder) amount 5 in
      match net call with
      | Response status_code =>
          if status_code =? 200 then
            let new_id := autoincrement (logs_seq d) (map id (logs d)) in
            let entry :=
              mk_log new_id fid (now c)
                (String.append "Manual - " (feeder_name feeder))
                (Some 0) amount "MANUAL_FEED" None None None in
            match upsert_by_feeder (layout d) fid (today c) (daily_stats d) with
            | Raise e => mk_outcome 500 (ErrorOf e) d [call]
            | Ok stats =>
                mk_outcome 200 (FeedingTriggered fid amount)
                  (with_daily_stats (with_logs d (logs d ++ [entry]) new_id) stats)
                  [call]
            end
          else mk_outcome 500 (ErrorOf Exception) d [call]
      | RequestException =>
          mk_outcome 503
            (Error (String.append "Cannot connect to feeder "
                      (String.append (feeder_name feeder) ". It may be offline.")))
            (update_feeder_status d fid false c) [call]
      end
  end.

(** The form of [log_data]. *)
Record log_form : Type := mk_log_form {
  form_weight : option Z;
  form_source : option string;
  form_amount : option Z;
  form_event : option string;
  form_feed_type : option string;
  form_feeding_id : option string
}.

(** [log_data()]. *)
Definition log_data (d : db) (form : log_form) (c : clock) : outcome :=
  let source := or_default "ESP32" (form_source form) in
  let amount := or_default 0 (form_amount form) in
  let event_type := or_default "UNKNOWN" (form_event form) in
  let feed_type := or_default "Manual" (form_feed_type form) in
  let feeding_id := or_default "" (form_feeding_id form) in
  let new_id := autoincrement (logs_seq d) (map id (logs d)) in
  let entry :=
    mk_log new_id 1 (now c) source (form_weight form) amount event_type
      None (Some feed_type) (Some feeding_id) in
  let d1 := with_logs d (logs d ++ [entry]) new_id in
  let d2 :=
    if countable event_type then
      with_daily_stats d1 (upsert_by_date (layout d) (today c) (daily_stats d))
    else d1 in
  mk_outcome 200 (Text "Logged") d2 [].

(** [trigger_feeding()], the older route that feeds the one device behind
    the module-level [ESP32_IP], here its host and port.  The capture
    request it leaves to a detached thread is not part of the handler. *)
Definition trigger_feeding (d : db) (ESP32_IP : string * Z)
    (form_source : option string) (form_amount : option Z)
    (net : network) (c : clock) : outcome :=
  let source := or_default "Dashboard" form_source in
  let amount := or_default 50 form_amount in
  let call := PostDispense (fst ESP32_IP) (snd ESP32_IP) amount 5 in
  match net call with
  | Response status_code =>
      if status_code =? 200 then
        let new_id := autoincrement (logs_seq d) (map id (logs d)) in
        let entry :=
          mk_log new_id 1 (now c) source (Some 0) amount "MANUAL_FEED"
            None None None in
        mk_outcome 200 (Text "Feeding triggered")
          (with_daily_stats (with_logs d (logs d ++ [entry]) new_id)
             (upsert_by_date (layout d) (today c) (daily_stats d)))
          [call]
      else mk_outcome 500 (Text "Failed to trigger feeding") d [call]
  | RequestException => mk_outcome 500 (ErrorOf Exception) d [call]
  end.

(** [get_daily_stats()]: the count of the local date, the sum over the rows
    whose date is SQLite's [DATE('now')]. *)
Definition get_daily_stats (d : db) (c : clock) : outcome :=
  let total_feedings :=
    match find (fun s => date s =? today c) (daily_stats d) with
    | Some s => total_feedings s
    | None => 0
    end in
  let total_dispensed :=
    SUM_amount
      (filter (fun l => (DATE (timestamp l) =? DATE (utc_now c))
                        && countable (event_type l)) (logs d)) in
  mk_outcome 200 (DailyStats total_feedings total_dispensed) d [].

(** [delete_log(log_id)]. *)
Definition delete_log (d : db) (log_id : Z) : outcome :=
  mk_outcome 200 (Text "Log deleted")
    (with_logs d (delete_where (fun l => id l =? log_id) (logs d)) (logs_seq d)) [].

(** [delete_all_logs()]. *)
Definition delete_all_logs (d : db) : outcome :=
  mk_outcome 200 (Text "All logs deleted") (with_logs d [] (logs_seq d)) [].

Definition set_image_path (path : string) (l : log) : log :=
  mk_log (id l) (log_feeder_id l) (timestamp l) (source l) (weight l)
    (amount l) (event_type l) (Some path) (feed_type l) (feeding_id l).

(** [upload_photo()]: [x_feeding_id] and [x_capture_type] are the two
    headers, [stamp] is [datetime.now().strftime('%Y%m%d_%H%M%S')], and
    [stored] says whether writing the image file went through. *)
Definition upload_photo (d : db) (x_feeding_id x_capture_type : option string)
    (stamp : string) (stored : bool) : outcome :=
  let token := or_default "" x_feeding_id in
  let capture_type := or_default "1" x_capture_type in
  let filename :=
    if truthy (Some token)
    then String.append token
           (String.append "_capture" (String.append capture_type ".jpg"))
    else String.append stamp ".jpg" in
  if negb stored then mk_outcome 500 (Text "Error uploading photo") d []
  else
    let path := String.append "/static/uploads/" filename in
    let rows :=
      if truthy (Some token) then
        update_where (fun l => option_string_eqb (feeding_id l) (Some token))
          (set_image_path path) (logs d)
      else
        update_where (fun l => option_Z_eqb (Some (id l)) (MAX (map id (logs d))))
          (set_image_path path) (logs d) in
    mk_outcome 200 (Text "Image uploaded") (with_logs d rows (logs_seq d)) [].

(* ================================================================== *)
(** ** Invariants of the store and reachable states *)
(* ================================================================== *)

(** What AUTOINCREMENT maintains: keys grow along the table and none is
    above the counter. *)
Definition increasing_keys (seq : Z) (ids : list Z) : Prop :=
  StronglySorted Z.lt ids /\ Forall (fun i => i <= seq) ids.

Definition feeders_ok (d : db) : Prop :=
  increasing_keys (feeders_seq d) (map feeder_id (feeders d)).

Definition logs_ok (d : db) : Prop :=
  increasing_keys (logs_seq d) (map id (logs d)).

(** The unique key of [daily_stats] in either layout. *)
Definition stat_key (l : stats_layout) (s : stat) : option Z * isodate :=
  match l with
  | DateKey => (None, date s)
  | FeederDateKey => (stat_feeder_id s, date s)
  end.

Definition stats_ok (d : db) : Prop :=
  NoDup (map (stat_key (layout d)) (daily_stats d)).

(** "At most one active module per network address", on the host text. *)
Definition active_hosts (d : db) : list string :=
  map esp32_ip (filter is_active (feeders d)).

Definition active_hosts_distinct (d : db) : Prop := NoDup (active_hosts d).

(** The part of the invariant that concerns the registry. *)
Definition registry_ok (d : db) : Prop := feeders_ok d /\ active_hosts_distinct d.

(** A database right after its tables were created. *)
Definition empty_db (l : stats_layout) : db := mk_db l [] 0 [] 0 [].

(** One request served by [app.py], among the handlers that write the
    three tables. *)
Inductive app_step : db -> db -> Prop :=
| step_get_feeders d net clock_at :
    app_step d (state (get_feeders d net clock_at))
| step_add_feeder d data c :
    app_step d (state (add_feeder d data c))
| step_delete_feeder d fid c :
    app_step d (state (delete_feeder d fid c))
| step_trigger_feeding_by_feeder d fid form_amount net c :
    app_step d (state (trigger_feeding_by_feeder d fid form_amount net c))
| step_trigger_feeding d ESP32_IP form_source form_amount net c :
    app_step d (state (trigger_feeding d ESP32_IP form_source form_amount net c))
| step_log_data d form c :
    app_step d (state (log_data d form c))
| step_get_daily_stats d c :
    app_step d (state (get_daily_stats d c))
| step_delete_log d log_id :
    app_step d (state (delete_log d log_id))
| step_delete_all_logs d :
    app_step d (state (delete_all_logs d))
| step_upload_photo d x_feeding_id x_capture_type stamp stored :
    app_step d (state (upload_photo d x_feeding_id x_capture_type stamp stored)).

Inductive reachable : db -> Prop :=
| reachable_empty l : reachable (empty_db l)
| reachable_step d d' : reachable d -> app_step d d' -> reachable d'.

(** The stored aggregate of a date: the row [get_daily_stats] reads. *)
Definition stat_of_date (dt : isodate) (rows : list stat) : option Z :=
  option_map total_feedings (find (fun s => date s =? dt) rows).

(** The stored aggregate of a feeder and a date. *)
Definition stat_of_pair (fid : Z) (dt : isodate) (rows : list stat) : option Z :=
  option_map total_feedings
    (find (fun s => option_Z_eqb (stat_feeder_id s) (Some fid) && (date s =? dt))
       rows).

(** The amounts of the countable events of a date. *)
Definition dispensed_on (dt : isodate) (rows : list log) : Z :=
  SUM_amount
    (filter (fun l => (DATE (timestamp l) =? dt) && countable (event_type l)) rows).

(* ================================================================== *)
(** ** The address format, in the words of the specification *)
(* ================================================================== *)

(** A non-empty run of the digits [0]..[9]. *)
Definition decimal_text (s : string) : bool :=
  match s with
  | EmptyString => false
  | _ => all_chars is_decimal s
  end.

Fixpoint decimal_value (acc : Z) (s : string) : Z :=
  match s with
  | EmptyString => acc
  | String c rest => decimal_value (10 * acc + digit_value c) rest
  end.







(** Serving a sequence of [log_data] requests, each with the clock at its
    arrival. *)
Definition log_all (d : db) (requests : list (log_form * clock)) : db :=
  fold_left (fun acc r => state (log_data acc (fst r) (snd r))) requests d.

(** A [log_data] form that reports a feeding of [grams] of the given kind. *)
Definition feed_form (kind : string) (grams : Z) : log_form :=
  mk_log_form None None (Some grams) (Some kind) None None.

(** The amounts a sequence of [log_data] requests reports. *)
Definition reported_amount (requests : list (log_form * clock)) : Z :=
  fold_right (fun r acc => or_default 0 (form_amount (fst r)) + acc) 0 requests.

(** A countable event that arrives on the date [dt]. *)
Definition countable_on (dt : isodate) (r : log_form * clock) : Prop :=
  countable (or_default "UNKNOWN" (form_event (fst r))) = true
  /\ today (snd r) = dt /\ DATE (now (snd r)) = dt.

(** The verdict [get_feeders] obtains for a row, and what it does to the
    database with it. *)
Definition verdict (net : network) (f : feeder) : bool :=
  check_feeder_online net (esp32_ip f) (esp32_port f) 2.

Definition reconcile (net : network) (clock_at : Z -> clock) (d : db)
    (f : feeder) : db :=
  if Bool.eqb (verdict net f) (is_online f) then d
  else update_feeder_status d (feeder_id f) (verdict net f) (clock_at (feeder_id f)).

(** The stored row of a feeder after [get_feeders]: stamped with the
    verdict when the feeder is active and the verdict differs from the
    stored flag, untouched otherwise. *)
Definition settled (net : network) (clock_at : Z -> clock) (f : feeder) : feeder :=
  if is_active f && negb (Bool.eqb (verdict net f) (is_online f)) then
    (if verdict net f then stamp_online (clock_at (feeder_id f)) f
     else stamp_offline (clock_at (feeder_id f)) f)
  else f.

(* ================================================================== *)
(** ** Sample states and requests *)
(* ================================================================== *)

(** 2024-01-01 counted in days, and two readings of a clock in UTC on that
    day: 12:00:00 and 12:00:01. *)
Definition day_2024_01_01 : isodate := 19723.

Definition noon : clock :=
  mk_clock (19723 * 86400 + 43200) (19723 * 86400 + 43200) 19723
    (19723 * 86400 + 43200).

Definition second_after_noon : clock :=
  mk_clock (19723 * 86400 + 43201) (19723 * 86400 + 43201) 19723
    (19723 * 86400 + 43201).

(** The feeder that [add_feeder] stores for ("Module 1", "192.168.1.10:80")
    in an empty registry at noon. *)
Definition module_1 : feeder :=
  mk_feeder 1 "Module 1" "192.168.1.10" 80 None 80 "Main Area" 5000 0
    true false (Some (utc_now noon)) None 0 (now noon) (utc_now noon).

Definition one_feeder_db : db := mk_db FeederDateKey [module_1] 1 [] 0 [].

(** [one_feeder_db] after a probe found the feeder reachable at noon. *)
Definition online_feeder_db : db := update_feeder_status one_feeder_db 1 true noon.

(** A device that answers every call with the given status code, and one
    that cannot be reached. *)
Definition answering (status_code : Z) : network := fun _ => Response status_code.

Definition unreachable : network := fun _ => RequestException.

(** The registration of the scenario: ("Module 1", "192.168.1.10:80"). *)
Definition register_module_1 : add_feeder_json :=
  mk_add_feeder_json (Some "Module 1") (Some "192.168.1.10:80") None None.

(** A registration with a given name and address and no other field. *)
Definition register (nm address : string) : add_feeder_json :=
  mk_add_feeder_json (Some nm) (Some address) None None.

(** Two modules registered in tables laid out by [setup_database.py], and
    one feeding triggered on the second of them. *)
Definition two_feeders_db : db :=
  state (add_feeder (state (add_feeder (empty_db FeederDateKey) register_module_1 noon))
           (register "Module 2" "192.168.1.11") noon).


Definition second_fed_db : db :=
  state (trigger_feeding_by_feeder two_feeders_db 2 None (answering 200) noon).

(** Two logged feedings, the first with the correlation token "abc123". *)
Definition photo_db : db :=
  log_all (empty_db DateKey)
    [(mk_log_form None None (Some 50) (Some "MANUAL_FEED") None (Some "abc123"), noon);
     (feed_form "MANUAL_FEED" 50, second_after_noon)].

(** 01:00:00 on 2024-01-01 by the clock of a host eight hours ahead of UTC:
    the local date is 2024-01-01 while the UTC time is 17:00:00 of the day
    before. *)
Definition one_am_utc_plus_8 : clock :=
  mk_clock (19723 * 86400 + 3600) (19723 * 86400 + 3600) 19723
    (19722 * 86400 + 61200).

(* ================================================================== *)
(** ** Further handlers of [app.py] *)
(* ================================================================== *)

(** [str(n)] for an integer. *)
Definition str (n : Z) : string := NilZero.string_of_int (Z.to_int n).

(** [f"{n:02d}"]: at least two characters, zeros in front. *)
Definition format_02d (n : Z) : string :=
  if (String.length (str n) <? 2)%nat then String.append "0" (str n) else str n.

(** The longest prefix of characters that satisfy [p], and the rest. *)
Fixpoint span (p : ascii -> bool) (s : string) : string * string :=
  match s with
  | EmptyString => (EmptyString, EmptyString)
  | String c rest =>
      if p c then (String c (fst (span p rest)), snd (span p rest))
      else (EmptyString, s)
  end.

(** [re.match(r'(\d+):(\d+)\s*(AM|PM)', time_str)]: the three groups.  The
    match is anchored at the start only; what follows the period is
    ignored. *)
Definition match_time (time_str : string) : option (string * string * string) :=
  let (h, after_h) := span is_decimal time_str in
  match h, after_h with
  | String _ _, String ":" after_colon =>
      let (m, after_m) := span is_decimal after_colon in
      match m, lstrip after_m with
      | String _ _, String "A" (String "M" _) => Some (h, m, "AM")
      | String _ _, String "P" (String "M" _) => Some (h, m, "PM")
      | _, _ => None
      end
  | _, _ => None
  end.

(** ["Convert to 24-hour format"]. *)
Definition to_24_hour (hour : Z) (period : string) : Z :=
  if String.eqb period "PM" && negb (hour =? 12) then hour + 12
  else if String.eqb period "AM" && (hour =? 12) then 0
  else hour.

(** The JSON body of [set_schedule]. *)
Record schedule_json : Type := mk_schedule_json {
  json_feeder_id : option Z;
  grams : option Z;
  time : option string;
  days : option (list Z)
}.

(** A row of [feeding_schedules]: the key and the columns that the INSERT
    of [set_schedule] names. *)
Record schedule : Type := mk_schedule {
  schedule_id : Z;
  schedule_feeder_id : Z;
  schedule_name : string;
  hour : Z;
  minute : Z;
  amount_g : Z;
  days_of_week : string;
  is_enabled : bool
}.

(** The GET that [set_schedule] sends to the device: host, port, the query
    parameters and the timeout. *)
Record schedule_call : Type := mk_schedule_call {
  call_host : string;
  call_port : Z;
  call_index : Z;
  call_hour : Z;
  call_minute : Z;
  call_amount : option Z;
  call_enabled : Z;
  call_timeout : Z
}.

(** The ['error'] entry of an answer of [set_schedule]: none, a fixed
    text, or a text that ends in [str(e)] of the exception caught. *)
Inductive schedule_error : Type :=
| NoError
| Message (msg : string)
| MessageOf (prefix : string).

(** What [set_schedule] leaves behind: status, error, the table
    [feeding_schedules] and its counter, and the device calls. *)
Record schedule_outcome : Type := mk_schedule_outcome {
  schedule_status : Z;
  schedule_answer : schedule_error;
  schedules_after : list schedule;
  schedules_seq_after : Z;
  schedule_calls : list schedule_call
}.

(** [set_schedule()]; [reply] is what the device call gives back, if the
    handler gets as far as making it.  The body is a JSON object whose
    [feeder_id] and [grams] are integers, [time] a text and [days] a list of
    integers, each present or absent; the table [feeding_schedules] is the
    one [setup_database.py] declares, whose column [amount_g] is NOT NULL.
    An exception of the INSERT is raised inside the inner [try], whose
    [except Exception] answers 503. *)
Definition set_schedule (d : db) (schedules : list schedule) (schedules_seq : Z)
    (data : schedule_json) (reply : http_reply) : schedule_outcome :=
  let fid := or_default 1 (json_feeder_id data) in
  match time data with
  | None => mk_schedule_outcome 500 (MessageOf "") schedules schedules_seq []
  | Some time_str =>
      match match_time time_str with
      | None =>
          mk_schedule_outcome 400 (Message "Invalid time format")
            schedules schedules_seq []
      | Some (h, m, period) =>
          match int h, int m with
          | Some hour12, Some minute =>
              let hour := to_24_hour hour12 period in
              if negb (sqlite_integer fid) then
                mk_schedule_outcome 500 (MessageOf "") schedules schedules_seq []
              else
              match find (fun f => feeder_id f =? fid) (feeders d) with
              | None =>
                  mk_schedule_outcome 404 (Message "Feeder not found")
                    schedules schedules_seq []
              | Some feeder =>
                  let call :=
                    mk_schedule_call (esp32_ip feeder) (esp32_port feeder)
                      0 hour minute (grams data) 1 5 in
                  let failed :=
                    mk_schedule_outcome 503
                      (MessageOf "Could not connect to ESP32: ")
                      schedules schedules_seq [call] in
                  match reply with
                  | Response status_code =>
                      if status_code =? 200 then
                        match grams data with
                        | Some amount =>
                            if sqlite_integer hour && sqlite_integer minute
                               && sqlite_integer amount then
                              let new_id :=
                                autoincrement schedules_seq
                                  (map schedule_id schedules) in
                              let entry :=
                                mk_schedule new_id fid
                                  (String.append "Schedule "
                                     (String.append (str hour)
                                        (String.append ":" (format_02d minute))))
                                  hour minute amount
                                  (String.concat ","
                                     (map str (or_default [] (days data))))
                                  true in
                              mk_schedule_outcome 200 NoError
                                (schedules ++ [entry]) new_id [call]
                            else failed
                        | None => failed
                        end
                      else
                        mk_schedule_outcome 500 (Message "ESP32 returned error")
                          schedules schedules_seq [call]
                  | RequestException => failed
                  end
              end
          | _, _ =>
              mk_schedule_outcome 500 (MessageOf "") schedules schedules_seq []
          end
      end
  end.

(** A run of decimal digits that [int] reads: not empty, and within the
    4300 digits that Python 3.11 and later allow a decimal literal. *)
Definition digits (s : string) : Prop :=
  decimal_text s = true /\ (String.length s <= 4300)%nat.

(** A text of the form that [set_schedule] reads: hour, colon, minute,
    white space, period, anything. *)
Definition time_text (h m ws period rest : string) : string :=
  String.append h
    (String.append ":"
       (String.append m (String.append ws (String.append period rest)))).

(** The body that asks for [amount] grams on module [fid] at the time
    written as [time_str], every day the list names. *)
Definition schedule_request (fid : Z) (amount : option Z) (time_str : string)
    (on_days : list Z) : schedule_json :=
  mk_schedule_json (Some fid) amount (Some time_str) (Some on_days).



(** What [home] hands to its template. *)
Inductive home_view : Type :=
| NoData
| Latest (weight : option Z) (last_updated : datetime).

(** [home()]: [SELECT weight, timestamp FROM logs ORDER BY id DESC LIMIT 1]. *)
Definition home (d : db) : home_view :=
  match MAX (map id (logs d)) with
  | None => NoData
  | Some m =>
      match find (fun l => id l =? m) (logs d) with
      | Some l => Latest (weight l) (timestamp l)
      | None => NoData
      end
  end.

(** [ORDER BY timestamp DESC]; rows of equal timestamp are kept in the
    order of the table, a choice the statement leaves to SQLite. *)
Fixpoint insert_by_timestamp_desc (l : log) (rows : list log) : list log :=
  match rows with
  | [] => [l]
  | r :: rest =>
      if timestamp r <=? timestamp l then l :: rows
      else r :: insert_by_timestamp_desc l rest
  end.

Definition order_by_timestamp_desc (rows : list log) : list log :=
  fold_right insert_by_timestamp_desc [] rows.

(** [get_feeding_logs()]: the rows behind the entries of the answer. *)
Definition get_feeding_logs (d : db) : list log :=
  firstn 100 (order_by_timestamp_desc (logs d)).

(** The number of log rows of a date whose kind is countable. *)
Definition countable_rows_on (dt : isodate) (rows : list log) : Z :=
  Z.of_nat (List.length
              (filter (fun l => (DATE (timestamp l) =? dt) && countable (event_type l))
                 rows)).

(** A clock whose [date.today()] is the date of its [datetime.now()]. *)
Definition same_day (c : clock) : Prop := today c = DATE (now c).

(** The columns of a module that say which device it is. *)
Definition same_module (f f' : feeder) : Prop :=
  feeder_id f' = feeder_id f /\ feeder_name f' = feeder_name f
  /\ esp32_ip f' = esp32_ip f /\ esp32_port f' = esp32_port f
  /\ created_at f' = created_at f.

(** Every row of [feeders d] is still in its place in [feeders d'], the
    same module, and not active unless it was. *)
Definition modules_kept (d d' : db) : Prop :=
  forall i f,
    nth_error (feeders d) i = Some f ->
    exists f', nth_error (feeders d') i = Some f'
               /\ same_module f f'
               /\ (is_active f' = true -> is_active f = true).

(** Any number of requests served one after the other. *)
Definition app_steps : db -> db -> Prop := clos_refl_trans_n1 db app_step.

(* ================================================================== *)
(** ** The helpers of [ip_management.py] *)
(* ================================================================== *)

(** The dictionary that [get_feeder_ips] returns. *)
Record feeder_ips : Type := mk_feeder_ips {
  ips_esp32_ip : string;
  ips_esp32_port : Z;
  ips_esp_cam_ip : option string;
  ips_esp_cam_port : Z;
  esp32_url : string;
  esp_cam_url : string
}.

(** [f"http://{ip}:{port}"]; a NULL address is formatted as [None]. *)
Definition url_of (ip : option string) (port : Z) : string :=
  String.append "http://"
    (String.append (or_default "None" ip) (String.append ":" (str port))).

(** [get_feeder_ips(feeder_id)]: [None] when no row has the id. *)
Definition get_feeder_ips (d : db) (fid : Z) : option feeder_ips :=
  match find (fun f => feeder_id f =? fid) (feeders d) with
  | Some f =>
      Some (mk_feeder_ips (esp32_ip f) (esp32_port f) (esp_cam_ip f)
              (esp_cam_port f)
              (url_of (Some (esp32_ip f)) (esp32_port f))
              (url_of (esp_cam_ip f) (esp_cam_port f)))
  | None => None
  end.

Definition set_esp32_ip (ip : string) (at_time : datetime) (f : feeder) : feeder :=
  mk_feeder (feeder_id f) (feeder_name f) ip (esp32_port f)
    (esp_cam_ip f) (esp_cam_port f) (location f) (max_capacity_g f)
    (current_weight_g f) (is_active f) (is_online f) (last_online f)
    (last_offline f) (wifi_strength f) (created_at f) at_time.

Definition set_esp_cam_ip (ip : string) (at_time : datetime) (f : feeder) : feeder :=
  mk_feeder (feeder_id f) (feeder_name f) (esp32_ip f) (esp32_port f)
    (Some ip) (esp_cam_port f) (location f) (max_capacity_g f)
    (current_weight_g f) (is_active f) (is_online f) (last_online f)
    (last_offline f) (wifi_strength f) (created_at f) at_time.

(** [update_feeder_ip(feeder_id, esp32_ip, esp_cam_ip)]: the two UPDATEs of
    [feeders], each made when its argument is given and not empty.  The row
    it adds to [ip_history] is not part of the state modelled here. *)
Definition update_feeder_ip (d : db) (fid : Z) (new_esp32_ip new_esp_cam_ip : option string)
    (c : clock) : db :=
  let d1 :=
    if truthy new_esp32_ip then
      with_feeders d
        (update_where (fun f => feeder_id f =? fid)
           (set_esp32_ip (or_default "" new_esp32_ip) (now c)) (feeders d))
        (feeders_seq d)
    else d in
  if truthy new_esp_cam_ip then
    with_feeders d1
      (update_where (fun f => feeder_id f =? fid)
         (set_esp_cam_ip (or_default "" new_esp_cam_ip) (now_again c)) (feeders d1))
      (feeders_seq d1)
  else d1.

(** [add_new_feeder(name, esp32_ip, esp_cam_ip, location)]: the INSERT names
    four columns, the others take the defaults of the table; the result is
    [cursor.lastrowid] and the database. *)
Definition add_new_feeder (d : db) (name new_esp32_ip : string)
    (new_esp_cam_ip : option string) (new_location : string) (c : clock) : Z * db :=
  let new_id := autoincrement (feeders_seq d) (map feeder_id (feeders d)) in
  let f :=
    mk_feeder new_id name new_esp32_ip 80 new_esp_cam_ip 80 new_location 5000 0
      true false (Some (utc_now c)) None 0 (utc_now c) (utc_now c) in
  (new_id, with_feeders d (feeders d ++ [f]) new_id).

(** The addresses that [app.py] loads when it starts: [ESP32_IP], [ESP_CAM_IP]
    and [RPI_SERVER_URL].  [rpi_server_url] is what [get_rpi_server_url()]
    returns, [None] when it raises; any exception in the block gives the
    three fallback values. *)
Definition module_addresses (d : db) (rpi_server_url : option string)
    : string * option string * string :=
  match get_feeder_ips d 1, rpi_server_url with
  | Some ips, Some url => (ips_esp32_ip ips, ips_esp_cam_ip ips, url)
  | _, _ =>
      ("http://192.168.254.4:80", Some "http://192.168.254.2:80",
       "http://192.168.254.5:8080")
  end.

(** [f"{ESP32_IP}/trigger_dispensing"] and [f"{ESP32_IP}/get_status"], the
    URLs of [trigger_feeding] and [get_esp32_status]. *)
Definition device_url (ESP32_IP path : string) : string := String.append ESP32_IP path.

(* ================================================================== *)
(** * Properties *)
(* ================================================================== *)

Ltac inv H := inversion H; subst; clear H.

(* ------------------------------------------------------------------ *)
(** ** Tables under [UPDATE] and [DELETE] *)
(* ------------------------------------------------------------------ *)

Section Tables.
Context {A : Type}.
Variables (p : A -> bool) (set : A -> A).

Lemma update_where_length (rows : list A) :
  List.length (update_where p set rows) = List.length rows.
Proof. apply length_map. Qed.

Lemma update_where_nth (rows : list A) (i : nat) :
  nth_error (update_where p set rows) i
  = option_map (fun r => if p r then set r else r) (nth_error rows i).
Proof. apply nth_error_map. Qed.

Lemma update_where_In (rows : list A) (r' : A) :
  In r' (update_where p set rows)
  <-> exists r, In r rows /\ r' = (if p r then set r else r).
Proof.
  unfold update_where. rewrite in_map_iff. split.
  - intros [r [E I]]. exists r. split; [assumption | now symmetry].
  - intros [r [I E]]. exists r. split; [now symmetry | assumption].
Qed.

Lemma update_where_no_match (rows : list A) :
  (forall r, In r rows -> p r = false) -> update_where p set rows = rows.
Proof.
  induction rows as [| r rows IH]; intros H; simpl.
  - reflexivity.
  - rewrite (H r (or_introl eq_refl)). f_equal.
    apply IH. intros r0 I. apply H. now right.
Qed.

Lemma update_where_app (rows more : list A) :
  update_where p set (rows ++ more)
  = update_where p set rows ++ update_where p set more.
Proof. apply map_app. Qed.

Lemma delete_where_In (rows : list A) (r : A) :
  In r (delete_where p rows) <-> In r rows /\ p r = false.
Proof.
  unfold delete_where. rewrite filter_In, negb_true_iff. reflexivity.
Qed.

Lemma delete_where_app (rows more : list A) :
  delete_where p (rows ++ more) = delete_where p rows ++ delete_where p more.
Proof. apply filter_app. Qed.

Lemma delete_where_no_match (rows : list A) :
  (forall r, In r rows -> p r = false) -> delete_where p rows = rows.
Proof.
  induction rows as [| r rows IH]; intros H; simpl.
  - reflexivity.
  - rewrite (H r (or_introl eq_refl)). simpl. f_equal.
    apply IH. intros r0 I. apply H. now right.
Qed.
End Tables.

(* ------------------------------------------------------------------ *)
(** ** [update_feeder_status] *)
(* ------------------------------------------------------------------ *)

Lemma update_feeder_status_frame (d : db) (fid : Z) (online : bool) (c : clock) :
  let d' := update_feeder_status d fid online c in
  logs d' = logs d /\ logs_seq d' = logs_seq d
  /\ daily_stats d' = daily_stats d /\ layout d' = layout d
  /\ feeders_seq d' = feeders_seq d.
Proof. cbn. repeat split. Qed.

Lemma update_feeder_status_missing (d : db) (fid : Z) (online : bool) (c : clock) :
  (forall f, In f (feeders d) -> feeder_id f <> fid) ->
  update_feeder_status d fid online c = d.
Proof.
  intros H. unfold update_feeder_status, with_feeders.
  rewrite update_where_no_match.
  - now destruct d.
  - intros f I. apply Z.eqb_neq. now apply H.
Qed.

Lemma update_feeder_status_In (d : db) (fid : Z) (online : bool) (c : clock)
    (f' : feeder) :
  In f' (feeders (update_feeder_status d fid online c))
  <-> exists f, In f (feeders d)
        /\ f' = (if feeder_id f =? fid
                 then (if online then stamp_online c else stamp_offline c) f
                 else f).
Proof. cbn. apply update_where_In. Qed.

Lemma update_feeder_status_ids (d : db) (fid : Z) (online : bool) (c : clock) :
  map feeder_id (feeders (update_feeder_status d fid online c))
  = map feeder_id (feeders d).
Proof.
  cbn. unfold update_where. rewrite map_map. apply map_ext.
  intros f. destruct (feeder_id f =? fid); [destruct online |]; reflexivity.
Qed.

Lemma update_feeder_status_hosts (d : db) (fid : Z) (online : bool) (c : clock) :
  active_hosts (update_feeder_status d fid online c) = active_hosts d.
Proof.
  unfold active_hosts. cbn. induction (feeders d) as [| f fs IH]; simpl.
  - reflexivity.
  - destruct (feeder_id f =? fid); [destruct online |]; simpl;
      destruct (is_active f); simpl; now rewrite IH.
Qed.

(** C6 (as amended): a call of [update_feeder_status] writes, in the rows
    of the given feeder id, the online flag, exactly one of [last_online]
    (when the verdict is online) and [last_offline] (when it is offline),
    and [updated_at]; it leaves the other stamp, every other row and every
    other table as they were, and is the identity when no row has the id.
    Marking a feeder online and then offline leaves [last_online] and
    [last_offline] at the readings of the local clock, to the second, of
    the first and of the second call: [last_offline] is at or after
    [last_online] provided the clock was not set back between the two
    calls, and equal to it when both calls fall into the same second. *)
Theorem update_feeder_status_stamps :
  forall (d : db) (fid : Z) (c1 c2 : clock),
    (forall online c i f,
        nth_error (feeders d) i = Some f ->
        exists f',
          nth_error (feeders (update_feeder_status d fid online c)) i = Some f'
          /\ (feeder_id f <> fid -> f' = f)
          /\ (feeder_id f = fid ->
              is_online f' = online
              /\ updated_at f' = now_again c
              /\ (online = true ->
                  last_online f' = Some (now c) /\ last_offline f' = last_offline f)
              /\ (online = false ->
                  last_offline f' = Some (now c) /\ last_online f' = last_online f)))
    /\ (forall online c,
           (forall f, In f (feeders d) -> feeder_id f <> fid) ->
           update_feeder_status d fid online c = d)
    /\ (forall f,
           In f (feeders (update_feeder_status
                            (update_feeder_status d fid true c1) fid false c2)) ->
           feeder_id f = fid ->
           last_online f = Some (now c1) /\ last_offline f = Some (now c2)
           /\ (now c1 <= now c2 ->
               exists t_on t_off,
                 last_online f = Some t_on /\ last_offline f = Some t_off
                 /\ t_on <= t_off)
           /\ (now c1 = now c2 -> last_offline f = last_online f)).
Proof.
  intros d fid c1 c2. split; [| split].
  - intros online c i f Hi. cbn. rewrite update_where_nth, Hi. simpl.
    eexists. split; [reflexivity |]. split.
    + intros Hne. apply Z.eqb_neq in Hne. now rewrite Hne.
    + intros He. apply Z.eqb_eq in He. rewrite He.
      destruct online; cbn; repeat split; intros; try reflexivity; discriminate.
  - intros online c. apply update_feeder_status_missing.
  - intros f Hin Hid.
    apply update_feeder_status_In in Hin. destruct Hin as [g [Hg Ef]].
    apply update_feeder_status_In in Hg. destruct Hg as [h [Hh Eg]].
    assert (Hgid : feeder_id g = feeder_id h).
    { subst g. destruct (feeder_id h =? fid); reflexivity. }
    assert (Hfid : feeder_id f = feeder_id g).
    { subst f. destruct (feeder_id g =? fid); reflexivity. }
    assert (Hh1 : (feeder_id h =? fid) = true) by (apply Z.eqb_eq; congruence).
    assert (Hg1 : (feeder_id g =? fid) = true) by (apply Z.eqb_eq; congruence).
    rewrite Hh1 in Eg. rewrite Hg1 in Ef. subst f g. cbn.
    split; [reflexivity |]. split; [reflexivity |]. split.
    + intros Hclock. exists (now c1), (now c2). auto.
    + intros E. now rewrite E.
Qed.

(** The theorem at a registry of one feeder, marked online at 12:00:00 and
    offline one second later. *)
Lemma update_feeder_status_stamps_witness :
  last_online (stamp_offline second_after_noon (stamp_online noon module_1))
  = Some (now noon)
  /\ last_offline (stamp_offline second_after_noon (stamp_online noon module_1))
     = Some (now second_after_noon).
Proof.
  destruct (proj2 (proj2 (update_feeder_status_stamps one_feeder_db 1 noon
                            second_after_noon))
              (stamp_offline second_after_noon (stamp_online noon module_1)))
    as (Hon & Hoff & _).
  - cbn. left. reflexivity.
  - reflexivity.
  - split; [exact Hon | exact Hoff].
Defined.

(** C6, the claim as stated, fails: the stamps have a resolution of one
    second, so marking a feeder online and offline within the same second
    leaves [last_offline] equal to [last_online], not greater. *)
Lemma update_feeder_status_same_second :
  ~ (forall (d : db) (fid : Z) (c1 c2 : clock) (f : feeder),
        now c1 <= now c2 ->
        In f (feeders (update_feeder_status
                         (update_feeder_status d fid true c1) fid false c2)) ->
        feeder_id f = fid ->
        exists t_on t_off,
          last_online f = Some t_on /\ last_offline f = Some t_off
          /\ t_on < t_off).
Proof.
  intros H.
  destruct (H one_feeder_db 1 noon noon
              (stamp_offline noon (stamp_online noon module_1)))
    as [t_on [t_off [Hon [Hoff Hlt]]]].
  - lia.
  - cbn. left. reflexivity.
  - reflexivity.
  - cbn in Hon, Hoff. inv Hon. inv Hoff. lia.
Qed.

(* ------------------------------------------------------------------ *)
(** ** AUTOINCREMENT keys *)
(* ------------------------------------------------------------------ *)

Lemma MAX_bound (seq : Z) (ids : list Z) :
  Forall (fun i => i <= seq) ids ->
  match MAX ids with
  | Some m => m <= seq
  | None => True
  end.
Proof.
  induction 1 as [| i ids Hi _ IH]; simpl.
  - exact I.
  - destruct (MAX ids); lia.
Qed.

Lemma autoincrement_next (seq : Z) (ids : list Z) :
  increasing_keys seq ids -> autoincrement seq ids = seq + 1.
Proof.
  intros [_ Hb]. unfold autoincrement.
  pose proof (MAX_bound seq ids Hb) as Hm.
  destruct (MAX ids); lia.
Qed.

Lemma StronglySorted_snoc (ids : list Z) (x : Z) :
  StronglySorted Z.lt ids -> Forall (fun i => i < x) ids ->
  StronglySorted Z.lt (ids ++ [x]).
Proof.
  induction 1 as [| i ids Hs IH Hi]; intros Hx; simpl.
  - constructor; constructor.
  - inv Hx. constructor.
    + now apply IH.
    + apply Forall_app. split; [assumption | now constructor].
Qed.

Lemma increasing_keys_snoc (seq : Z) (ids : list Z) :
  increasing_keys seq ids -> increasing_keys (seq + 1) (ids ++ [seq + 1]).
Proof.
  intros [Hs Hb]. split.
  - apply StronglySorted_snoc; [assumption |].
    eapply Forall_impl; [| exact Hb]. simpl. intros; lia.
  - apply Forall_app. split.
    + eapply Forall_impl; [| exact Hb]. simpl. intros; lia.
    + constructor; [lia | constructor].
Qed.

Lemma increasing_keys_new (seq : Z) (ids : list Z) :
  increasing_keys seq ids -> ~ In (seq + 1) ids.
Proof.
  intros [_ Hb] Hin. rewrite Forall_forall in Hb. apply Hb in Hin. lia.
Qed.

Lemma StronglySorted_NoDup (ids : list Z) :
  StronglySorted Z.lt ids -> NoDup ids.
Proof.
  induction 1 as [| i ids Hs IH Hi]; constructor.
  - intros Hin. rewrite Forall_forall in Hi. apply Hi in Hin. lia.
  - assumption.
Qed.

Lemma StronglySorted_filter (keep : Z -> bool) (ids : list Z) :
  StronglySorted Z.lt ids -> StronglySorted Z.lt (filter keep ids).
Proof.
  induction 1 as [| i ids Hs IH Hi]; simpl.
  - constructor.
  - destruct (keep i); [constructor |]; try assumption.
    rewrite Forall_forall in *. intros x Hx. apply filter_In in Hx. now apply Hi.
Qed.

(** The largest key of a table in key order is that of its last row. *)
Lemma MAX_last (ids : list Z) (x : Z) :
  StronglySorted Z.lt (ids ++ [x]) -> MAX (ids ++ [x]) = Some x.
Proof.
  induction ids as [| i ids IH]; simpl; intros Hs.
  - reflexivity.
  - inv Hs. rewrite (IH H1). f_equal.
    rewrite Forall_forall in H2. specialize (H2 x).
    assert (i < x) by (apply H2; apply in_or_app; right; now left). lia.
Qed.

(* ------------------------------------------------------------------ *)
(** ** [upload_photo]: attaching an image *)
(* ------------------------------------------------------------------ *)

(** The image reference is the only column [set_image_path] touches. *)
Lemma set_image_path_columns (path : string) (l : log) :
  let l' := set_image_path path l in
  image_path l' = Some path
  /\ id l' = id l /\ log_feeder_id l' = log_feeder_id l
  /\ timestamp l' = timestamp l /\ source l' = source l
  /\ weight l' = weight l /\ amount l' = amount l
  /\ event_type l' = event_type l /\ feed_type l' = feed_type l
  /\ feeding_id l' = feeding_id l.
Proof. cbn. repeat split. Qed.

Lemma upload_photo_frame (d : db) (x_feeding_id x_capture_type : option string)
    (stamp : string) (stored : bool) :
  let d' := state (upload_photo d x_feeding_id x_capture_type stamp stored) in
  feeders d' = feeders d /\ feeders_seq d' = feeders_seq d
  /\ daily_stats d' = daily_stats d /\ layout d' = layout d
  /\ logs_seq d' = logs_seq d /\ map id (logs d') = map id (logs d).
Proof.
  assert (Hids : forall (p : log -> bool) path rows,
             map id (update_where p (set_image_path path) rows) = map id rows).
  { intros p path rows. unfold update_where. rewrite map_map.
    apply map_ext. intros l. now destruct (p l). }
  unfold upload_photo. destruct stored; cbn [negb state].
  - destruct (truthy (Some (or_default "" x_feeding_id)));
      cbn [with_logs feeders feeders_seq daily_stats layout logs_seq logs];
      repeat split; apply Hids.
  - repeat split.
Qed.

Lemma option_string_eqb_eq (a b : option string) :
  option_string_eqb a b = true <-> a = b.
Proof.
  destruct a as [x |], b as [y |]; simpl; try (split; congruence).
  rewrite String.eqb_eq. split; congruence.
Qed.

Lemma truthy_Some (s : string) : s <> "" -> truthy (Some s) = true.
Proof. destruct s; [congruence | reflexivity]. Qed.

(** C7: once the image file is stored, [upload_photo] answers 200 and
    (1) with a correlation token it sets the image reference of exactly
    the log rows whose [feeding_id] is that token to the path of the file
    just stored, [/static/uploads/<token>_capture<type>.jpg], every other
    column of these rows and every other row staying as it was; (2) with no
    token (header absent or empty) it sets the image reference of the
    last-inserted row only, to [/static/uploads/<stamp>.jpg]; (3) when no
    row carries the token, or the table is empty, the database is left as
    it was.  Nothing but [logs] is written. *)
Theorem upload_photo_patches_matching_rows :
  forall (d : db) (x_capture_type : option string) (stamp : string),
    logs_ok d ->
    (forall token, token <> "" ->
       let o := upload_photo d (Some token) x_capture_type stamp true in
       let path :=
         String.append "/static/uploads/"
           (String.append token
              (String.append "_capture"
                 (String.append (or_default "1" x_capture_type) ".jpg"))) in
       status o = 200
       /\ daily_stats (state o) = daily_stats d
       /\ feeders (state o) = feeders d
       /\ (forall i l,
              nth_error (logs d) i = Some l ->
              nth_error (logs (state o)) i
              = Some (if option_string_eqb (feeding_id l) (Some token)
                      then mk_log (id l) (log_feeder_id l) (timestamp l)
                             (source l) (weight l) (amount l) (event_type l)
                             (Some path) (feed_type l) (feeding_id l)
                      else l))
       /\ (forall l', In l' (logs (state o)) ->
              feeding_id l' = Some token -> image_path l' = Some path)
       /\ List.length (logs (state o)) = List.length (logs d)
       /\ ((forall l, In l (logs d) -> feeding_id l <> Some token) ->
           state o = d))
    /\ (forall x_feeding_id, x_feeding_id = None \/ x_feeding_id = Some "" ->
          let o := upload_photo d x_feeding_id x_capture_type stamp true in
          let path :=
            String.append "/static/uploads/" (String.append stamp ".jpg") in
          status o = 200
          /\ daily_stats (state o) = daily_stats d
          /\ feeders (state o) = feeders d
          /\ (logs d = [] -> state o = d)
          /\ (forall older l, logs d = older ++ [l] ->
                logs (state o)
                = older ++ [mk_log (id l) (log_feeder_id l) (timestamp l)
                              (source l) (weight l) (amount l) (event_type l)
                              (Some path) (feed_type l) (feeding_id l)])).
Proof.
  intros d x_capture_type stamp [Hsorted Hbound]. split.
  - intros token Htok o path. subst o path. unfold upload_photo.
    cbn [or_default negb]. rewrite (truthy_Some token Htok).
    cbn [status state daily_stats feeders logs with_logs].
    split; [reflexivity |]. split; [reflexivity |]. split; [reflexivity |].
    split; [| split; [| split]].
    + intros i l Hi. rewrite update_where_nth, Hi. reflexivity.
    + intros l' Hin Htoken. apply update_where_In in Hin.
      destruct Hin as [l [_ E]].
      destruct (option_string_eqb (feeding_id l) (Some token)) eqn:Hm.
      * subst l'. reflexivity.
      * subst l'. apply option_string_eqb_eq in Htoken. congruence.
    + apply update_where_length.
    + intros Hnone. unfold with_logs. rewrite update_where_no_match.
      * now destruct d.
      * intros l Hl. specialize (Hnone l Hl).
        destruct (option_string_eqb (feeding_id l) (Some token)) eqn:E;
          [| reflexivity].
        apply option_string_eqb_eq in E. contradiction.
  - intros x_feeding_id Hx o path. subst o path. unfold upload_photo.
    assert (Ht : truthy (Some (or_default "" x_feeding_id)) = false)
      by (destruct Hx; subst; reflexivity).
    rewrite Ht. cbn [negb status state daily_stats feeders logs with_logs].
    split; [reflexivity |]. split; [reflexivity |]. split; [reflexivity |]. split.
    + intros Hempty. rewrite Hempty. cbn. unfold with_logs. rewrite <- Hempty.
      now destruct d.
    + intros older l Hlogs. rewrite Hlogs in *.
      rewrite map_app in *. cbn [map] in *.
      rewrite (MAX_last _ _ Hsorted).
      rewrite update_where_app. cbn. rewrite Z.eqb_refl.
      rewrite update_where_no_match; [reflexivity |].
      intros r Hr. apply Z.eqb_neq.
      apply StronglySorted_NoDup in Hsorted.
      apply NoDup_remove_2 in Hsorted. rewrite app_nil_r in Hsorted.
      intros E. apply Hsorted. rewrite <- E. now apply in_map.
Qed.

(* ------------------------------------------------------------------ *)
(** ** [log_data]: the log row and the daily aggregate *)
(* ------------------------------------------------------------------ *)

Section FindFacts.
Context {A : Type}.

Lemma find_app_miss (p : A -> bool) (rows : list A) (r : A) :
  p r = false -> find p (rows ++ [r]) = find p rows.
Proof.
  intros Hr. induction rows as [| x rows IH]; simpl.
  - now rewrite Hr.
  - destruct (p x); [reflexivity | exact IH].
Qed.

Lemma find_filter_kept (p keep : A -> bool) (rows : list A) :
  (forall r, p r = true -> keep r = true) ->
  find p (filter keep rows) = find p rows.
Proof.
  intros H. induction rows as [| x rows IH]; simpl.
  - reflexivity.
  - destruct (keep x) eqn:K; simpl.
    + destruct (p x); [reflexivity | exact IH].
    + destruct (p x) eqn:P; [| exact IH].
      apply H in P. congruence.
Qed.

Lemma find_filter_gone (p keep : A -> bool) (rows : list A) :
  (forall r, p r = true -> keep r = false) ->
  find p (filter keep rows) = None.
Proof.
  intros H. induction rows as [| x rows IH]; simpl.
  - reflexivity.
  - destruct (keep x) eqn:K; simpl; [| exact IH].
    destruct (p x) eqn:P; [| exact IH].
    apply H in P. congruence.
Qed.

Lemma find_app_hit (p : A -> bool) (rows : list A) (r : A) :
  find p rows = None -> p r = true -> find p (rows ++ [r]) = Some r.
Proof.
  intros Hn Hr. induction rows as [| x rows IH]; simpl in *.
  - now rewrite Hr.
  - destruct (p x); [discriminate | now apply IH].
Qed.
End FindFacts.

Lemma NoDup_snoc {A : Type} (l : list A) (x : A) :
  NoDup l -> ~ In x l -> NoDup (l ++ [x]).
Proof.
  induction l as [| a l IH]; simpl; intros Hnd Hx.
  - constructor; [intros [] | constructor].
  - inv Hnd. constructor.
    + rewrite in_app_iff. simpl. intuition congruence.
    + apply IH; [assumption | tauto].
Qed.

(** The upsert on the date key: the date's count goes from absent to 1 or
    up by one, and no other date is touched. *)
Lemma upsert_by_date_count (dt : isodate) (rows : list stat) :
  stat_of_date dt (upsert_by_date DateKey dt rows)
  = Some (or_default 0 (stat_of_date dt rows) + 1).
Proof.
  unfold stat_of_date, upsert_by_date, insert_or_replace, delete_where,
    coalesce_total. cbn [stat_feeder_id date stat_conflict].
  rewrite find_app_hit.
  - cbn. destruct (find (fun s => date s =? dt) rows); reflexivity.
  - apply find_filter_gone. intros r Hr. now rewrite Hr.
  - cbn. apply Z.eqb_refl.
Qed.

Lemma upsert_by_date_other (dt other : isodate) (rows : list stat) :
  other <> dt ->
  stat_of_date other (upsert_by_date DateKey dt rows) = stat_of_date other rows.
Proof.
  intros Hne.
  unfold stat_of_date, upsert_by_date, insert_or_replace, delete_where.
  cbn [stat_feeder_id date stat_conflict].
  rewrite find_app_miss.
  - rewrite find_filter_kept; [reflexivity |].
    intros r Hr. apply Z.eqb_eq in Hr. apply negb_true_iff, Z.eqb_neq. lia.
  - cbn. apply Z.eqb_neq. lia.
Qed.

(** The date stays a key of the table. *)
Lemma upsert_by_date_keys (dt : isodate) (rows : list stat) :
  NoDup (map (stat_key DateKey) rows) ->
  NoDup (map (stat_key DateKey) (upsert_by_date DateKey dt rows)).
Proof.
  intros Hnd.
  unfold upsert_by_date, insert_or_replace, delete_where.
  cbn [stat_feeder_id date stat_conflict].
  rewrite map_app. cbn [map stat_key date].
  assert (Hsub : NoDup (map (stat_key DateKey)
                          (filter (fun r => negb (date r =? dt)) rows))).
  { clear - Hnd. induction rows as [| r rows IH]; simpl in *.
    - constructor.
    - inv Hnd. destruct (date r =? dt); simpl; [now apply IH |].
      constructor; [| now apply IH].
      intros Hin. apply H1. apply in_map_iff in Hin.
      destruct Hin as [x [Ex Hx]]. apply filter_In in Hx.
      apply in_map_iff. exists x. tauto. }
  apply NoDup_snoc; [exact Hsub |].
  intros Hin. apply in_map_iff in Hin. destruct Hin as [x [Ex Hx]].
  apply filter_In in Hx. destruct Hx as [_ Hx].
  apply negb_true_iff, Z.eqb_neq in Hx. cbn in Ex. congruence.
Qed.

Lemma log_data_unfold (d : db) (form : log_form) (c : clock) :
  logs_ok d ->
  let d' := state (log_data d form c) in
  let entry :=
    mk_log (logs_seq d + 1) 1 (now c) (or_default "ESP32" (form_source form))
      (form_weight form) (or_default 0 (form_amount form))
      (or_default "UNKNOWN" (form_event form)) None
      (Some (or_default "Manual" (form_feed_type form)))
      (Some (or_default "" (form_feeding_id form))) in
  logs d' = logs d ++ [entry]
  /\ logs_seq d' = logs_seq d + 1
  /\ feeders d' = feeders d /\ feeders_seq d' = feeders_seq d
  /\ layout d' = layout d
  /\ daily_stats d'
     = (if countable (or_default "UNKNOWN" (form_event form))
        then upsert_by_date (layout d) (today c) (daily_stats d)
        else daily_stats d).
Proof.
  intros Hok. unfold log_data. rewrite (autoincrement_next _ _ Hok).
  destruct (countable (or_default "UNKNOWN" (form_event form)));
    cbn; repeat split.
Qed.

Lemma log_data_logs_ok (d : db) (form : log_form) (c : clock) :
  logs_ok d -> logs_ok (state (log_data d form c)).
Proof.
  intros Hok. destruct (log_data_unfold d form c Hok) as (Hl & Hs & _).
  unfold logs_ok. rewrite Hl, Hs, map_app. cbn.
  now apply increasing_keys_snoc.
Qed.

(** An event of an unclassified kind leaves [daily_stats] alone, in either
    layout of the table. *)
Lemma log_data_unclassified (d : db) (form : log_form) (c : clock) :
  countable (or_default "UNKNOWN" (form_event form)) = false ->
  daily_stats (state (log_data d form c)) = daily_stats d.
Proof. intros H. unfold log_data. rewrite H. reflexivity. Qed.

Lemma log_data_countable (d : db) (form : log_form) (c : clock) :
  countable (or_default "UNKNOWN" (form_event form)) = true ->
  daily_stats (state (log_data d form c))
  = upsert_by_date (layout d) (today c) (daily_stats d).
Proof. intros H. unfold log_data. rewrite H. reflexivity. Qed.

Lemma log_data_layout (d : db) (form : log_form) (c : clock) :
  layout (state (log_data d form c)) = layout d.
Proof.
  unfold log_data.
  destruct (countable (or_default "UNKNOWN" (form_event form))); reflexivity.
Qed.

(** C1 (as amended): [log_data] takes no feeder id, and in the table that
    [app.py] declares the daily aggregate is identified by its date alone.
    There, an event of a countable kind upserts the aggregate of the
    current date: the count is 1 when the date had no row and one more than
    before otherwise, no other date changes and the date remains a key; so
    two MANUAL_FEED events on a date that had no row leave a count of
    exactly 2.  An event of an unclassified kind leaves every aggregate as
    it was. *)
Theorem log_data_upserts_date_aggregate :
  forall (d : db) (form : log_form) (c : clock),
    layout d = DateKey ->
    let d' := state (log_data d form c) in
    status (log_data d form c) = 200
    /\ (countable (or_default "UNKNOWN" (form_event form)) = true ->
        stat_of_date (today c) (daily_stats d')
        = Some (or_default 0 (stat_of_date (today c) (daily_stats d)) + 1)
        /\ (forall other, other <> today c ->
              stat_of_date other (daily_stats d')
              = stat_of_date other (daily_stats d))
        /\ (stats_ok d -> stats_ok d'))
    /\ (countable (or_default "UNKNOWN" (form_event form)) = false ->
        daily_stats d' = daily_stats d)
    /\ (forall form2 c2,
          form_event form = Some "MANUAL_FEED" ->
          form_event form2 = Some "MANUAL_FEED" ->
          today c2 = today c ->
          stat_of_date (today c) (daily_stats d) = None ->
          stat_of_date (today c) (daily_stats (state (log_data d' form2 c2)))
          = Some 2).
Proof.
  intros d form c Hlay d'. subst d'. split; [reflexivity |]. split; [| split].
  - intros Hk. rewrite (log_data_countable _ _ _ Hk), Hlay. split; [| split].
    + apply upsert_by_date_count.
    + intros other Hne. now apply upsert_by_date_other.
    + unfold stats_ok. rewrite log_data_layout, (log_data_countable _ _ _ Hk), Hlay.
      apply upsert_by_date_keys.
  - apply log_data_unclassified.
  - intros form2 c2 E1 E2 Hday Hnone.
    assert (K1 : countable (or_default "UNKNOWN" (form_event form)) = true)
      by (rewrite E1; reflexivity).
    assert (K2 : countable (or_default "UNKNOWN" (form_event form2)) = true)
      by (rewrite E2; reflexivity).
    rewrite (log_data_countable _ _ _ K2), log_data_layout, Hlay, Hday.
    rewrite upsert_by_date_count.
    rewrite (log_data_countable _ _ _ K1), Hlay, upsert_by_date_count, Hnone.
    reflexivity.
Qed.

(** The theorem at the empty database of [app.py], a MANUAL_FEED of 50 g
    at noon of 2024-01-01. *)
Lemma log_data_upserts_date_aggregate_witness :
  layout (empty_db DateKey) = DateKey
  /\ status (log_data (empty_db DateKey) (feed_form "MANUAL_FEED" 50) noon) = 200.
Proof.
  split; [reflexivity |].
  exact (proj1 (log_data_upserts_date_aggregate (empty_db DateKey)
                  (feed_form "MANUAL_FEED" 50) noon eq_refl)).
Defined.

(* ------------------------------------------------------------------ *)
(** ** [get_daily_stats], [delete_log], [delete_all_logs] *)
(* ------------------------------------------------------------------ *)

Lemma log_data_logs (d : db) (form : log_form) (c : clock) :
  exists entry,
    logs (state (log_data d form c)) = logs d ++ [entry]
    /\ timestamp entry = now c
    /\ amount entry = or_default 0 (form_amount form)
    /\ event_type entry = or_default "UNKNOWN" (form_event form)
    /\ log_feeder_id entry = 1.
Proof.
  unfold log_data. eexists.
  destruct (countable (or_default "UNKNOWN" (form_event form))); cbn;
    (split; [reflexivity | cbn; repeat split]).
Qed.

Lemma dispensed_on_snoc (dt : isodate) (rows : list log) (entry : log) :
  dispensed_on dt (rows ++ [entry])
  = dispensed_on dt rows
    + (if (DATE (timestamp entry) =? dt) && countable (event_type entry)
       then amount entry else 0).
Proof.
  unfold dispensed_on. rewrite filter_app. cbn [filter].
  induction (filter (fun l => (DATE (timestamp l) =? dt) && countable (event_type l)) rows)
    as [| x xs IH]; cbn [app SUM_amount fold_right].
  - destruct ((DATE (timestamp entry) =? dt) && countable (event_type entry));
      cbn; lia.
  - fold (SUM_amount (xs ++ if (DATE (timestamp entry) =? dt)
                               && countable (event_type entry)
                            then [entry] else [])).
    fold (SUM_amount xs). unfold SUM_amount in *. lia.
Qed.

(** Countable events recorded on a date raise its stored count by their
    number and its dispensed amount by what they report. *)
Lemma log_all_totals (dt : isodate) (requests : list (log_form * clock)) :
  forall d,
    layout d = DateKey ->
    Forall (countable_on dt) requests ->
    layout (log_all d requests) = DateKey
    /\ or_default 0 (stat_of_date dt (daily_stats (log_all d requests)))
       = or_default 0 (stat_of_date dt (daily_stats d))
         + Z.of_nat (List.length requests)
    /\ dispensed_on dt (logs (log_all d requests))
       = dispensed_on dt (logs d) + reported_amount requests.
Proof.
  induction requests as [| [form c] requests IH]; intros d Hlay Hall.
  - cbn. repeat split; [assumption | lia | lia].
  - inv Hall. destruct H1 as (Hk & Hday & Hdate). cbn [fst snd] in *.
    change (log_all d ((form, c) :: requests))
      with (log_all (state (log_data d form c)) requests).
    assert (Hlay' : layout (state (log_data d form c)) = DateKey)
      by (now rewrite log_data_layout).
    destruct (IH _ Hlay' H2) as (L & S & D). split; [exact L |]. split.
    + rewrite S, (log_data_countable _ _ _ Hk), Hlay, Hday.
      rewrite upsert_by_date_count. cbn [or_default List.length].
      lia.
    + rewrite D. destruct (log_data_logs d form c) as (e & El & Et & Ea & Ee & _).
      rewrite El, dispensed_on_snoc, Et, Ee, Ea, Hdate, Z.eqb_refl, Hk.
      cbn [andb reported_amount fold_right fst]. fold (reported_amount requests).
      lia.
Qed.

(** What [get_daily_stats] answers in general: the stored count of the
    local date and the amounts of the countable rows of the UTC date. *)
Lemma get_daily_stats_answer (d : db) (c : clock) :
  answer (get_daily_stats d c)
  = DailyStats (or_default 0 (stat_of_date (today c) (daily_stats d)))
      (dispensed_on (DATE (utc_now c)) (logs d)).
Proof.
  unfold get_daily_stats, stat_of_date, dispensed_on. cbn [answer].
  destruct (find (fun s => date s =? today c) (daily_stats d)); reflexivity.
Qed.

(** Daily totals when the two clocks agree: called on a date [dt] (the
    local date of [date.today()] and the date of SQLite's [DATE('now')],
    which is in UTC, both being [dt]), [get_daily_stats]
    answers with the stored feeding count of [dt] (0 when the date has no
    row) and with the sum of [amount] over the log rows of [dt] whose kind
    is countable; that sum is computed from [logs] and does not depend on
    what [daily_stats] holds; the handler writes nothing.  After three
    countable events with amounts 50, 50 and 100 recorded on a date that
    had no aggregate and no countable event, it answers count 3, sum 200. *)
Theorem get_daily_stats_totals :
  forall (d : db) (c : clock) (dt : isodate),
    today c = dt ->
    DATE (utc_now c) = dt ->
    status (get_daily_stats d c) = 200
    /\ state (get_daily_stats d c) = d
    /\ answer (get_daily_stats d c)
       = DailyStats (or_default 0 (stat_of_date dt (daily_stats d)))
           (dispensed_on dt (logs d))
    /\ (forall cached,
           exists n,
             answer (get_daily_stats (with_daily_stats d cached) c)
             = DailyStats n (dispensed_on dt (logs d)))
    /\ (forall d0 k1 k2 k3 c1 c2 c3,
           layout d0 = DateKey ->
           stat_of_date dt (daily_stats d0) = None ->
           dispensed_on dt (logs d0) = 0 ->
           Forall (countable_on dt)
             [(feed_form k1 50, c1); (feed_form k2 50, c2); (feed_form k3 100, c3)] ->
           answer (get_daily_stats
                     (log_all d0 [(feed_form k1 50, c1); (feed_form k2 50, c2);
                                  (feed_form k3 100, c3)]) c)
           = DailyStats 3 200).
Proof.
  intros d c dt Hday Hutc.
  assert (Hanswer : forall x,
             answer (get_daily_stats x c)
             = DailyStats (or_default 0 (stat_of_date dt (daily_stats x)))
                 (dispensed_on dt (logs x))).
  { intros x. now rewrite get_daily_stats_answer, Hday, Hutc. }
  split; [reflexivity |]. split; [reflexivity |]. split; [apply Hanswer |].
  split.
  - intros cached. eexists. rewrite Hanswer. reflexivity.
  - intros d0 k1 k2 k3 c1 c2 c3 Hlay Hnone Hzero Hall.
    rewrite Hanswer.
    destruct (log_all_totals dt _ d0 Hlay Hall) as (_ & S & D).
    rewrite S, D, Hnone, Hzero. reflexivity.
Qed.

(** The theorem at noon of 2024-01-01, on the empty database of [app.py]
    after three events of 50, 50 and 100 g. *)
Lemma get_daily_stats_totals_witness :
  today noon = day_2024_01_01
  /\ DATE (utc_now noon) = day_2024_01_01
  /\ answer (get_daily_stats
               (log_all (empty_db DateKey)
                  [(feed_form "MANUAL_FEED" 50, noon);
                   (feed_form "SCHEDULED_FEED" 50, noon);
                   (feed_form "BUTTON_FEED" 100, second_after_noon)]) noon)
     = DailyStats 3 200.
Proof.
  assert (H1 : today noon = day_2024_01_01) by reflexivity.
  assert (H2 : DATE (utc_now noon) = day_2024_01_01) by reflexivity.
  split; [exact H1 |]. split; [exact H2 |].
  refine (proj2 (proj2 (proj2 (proj2
            (get_daily_stats_totals (empty_db DateKey) noon day_2024_01_01 H1 H2))))
            (empty_db DateKey) "MANUAL_FEED" "SCHEDULED_FEED" "BUTTON_FEED"
            noon noon second_after_noon eq_refl eq_refl eq_refl _).
  repeat constructor.
Defined.

Lemma delete_log_logs (d : db) (log_id : Z) (l : log) :
  In l (logs (state (delete_log d log_id))) <-> In l (logs d) /\ id l <> log_id.
Proof.
  cbn. rewrite delete_where_In, Z.eqb_neq. reflexivity.
Qed.

(** C9: [delete_log] removes exactly the log rows with the given id and
    [delete_all_logs] removes every log row; neither writes [daily_stats]
    or [feeders].  So after three countable events recorded on a date that
    had no aggregate, deleting a log row (one of the three or any other)
    leaves the stored count of the date at 3, also where the row deleted
    was the first of the three and only two of them remain. *)
Theorem delete_leaves_daily_stats :
  forall (d : db) (log_id : Z),
    status (delete_log d log_id) = 200
    /\ daily_stats (state (delete_log d log_id)) = daily_stats d
    /\ feeders (state (delete_log d log_id)) = feeders d
    /\ (forall l, In l (logs (state (delete_log d log_id)))
                  <-> In l (logs d) /\ id l <> log_id)
    /\ status (delete_all_logs d) = 200
    /\ daily_stats (state (delete_all_logs d)) = daily_stats d
    /\ feeders (state (delete_all_logs d)) = feeders d
    /\ logs (state (delete_all_logs d)) = []
    /\ (forall dt r1 r2 r3,
           layout d = DateKey ->
           stat_of_date dt (daily_stats d) = None ->
           Forall (countable_on dt) [r1; r2; r3] ->
           stat_of_date dt
             (daily_stats (state (delete_log (log_all d [r1; r2; r3]) log_id)))
           = Some 3
           /\ stat_of_date dt
                (daily_stats (state (delete_all_logs (log_all d [r1; r2; r3]))))
              = Some 3
           /\ (logs_ok d -> log_id = logs_seq d + 1 ->
               exists e2 e3,
                 logs (state (delete_log (log_all d [r1; r2; r3]) log_id))
                 = logs d ++ [e2; e3])).
Proof.
  intros d log_id.
  split; [reflexivity |]. split; [reflexivity |]. split; [reflexivity |].
  split; [apply delete_log_logs |].
  split; [reflexivity |]. split; [reflexivity |]. split; [reflexivity |].
  split; [reflexivity |].
  intros dt r1 r2 r3 Hlay Hnone Hall.
  destruct (log_all_totals dt _ d Hlay Hall) as (_ & S & _).
  rewrite Hnone in S. cbn [or_default List.length] in S.
  assert (Hthree : stat_of_date dt (daily_stats (log_all d [r1; r2; r3])) = Some 3).
  { destruct (stat_of_date dt (daily_stats (log_all d [r1; r2; r3])));
      cbn [or_default] in S; [f_equal; lia | lia]. }
  split; [exact Hthree |]. split; [exact Hthree |].
  intros Hok Hid.
  destruct r1 as [f1 c1], r2 as [f2 c2], r3 as [f3 c3].
  unfold log_all. cbn [fold_left fst snd].
  pose proof (log_data_logs_ok d f1 c1 Hok) as Hok1.
  pose proof (log_data_logs_ok _ f2 c2 Hok1) as Hok2.
  destruct (log_data_unfold d f1 c1 Hok) as (L1 & S1 & _).
  destruct (log_data_unfold _ f2 c2 Hok1) as (L2 & S2 & _).
  destruct (log_data_unfold _ f3 c3 Hok2) as (L3 & S3 & _).
  cbn [state delete_log with_logs logs]. rewrite L3, L2, L1, S2, S1.
  do 2 eexists. rewrite <- !app_assoc. cbn [app].
  rewrite delete_where_app, delete_where_no_match.
  - unfold delete_where. cbn [filter id]. subst log_id.
    rewrite Z.eqb_refl.
    replace (logs_seq d + 1 + 1 =? logs_seq d + 1) with false
      by (symmetry; apply Z.eqb_neq; lia).
    replace (logs_seq d + 1 + 1 + 1 =? logs_seq d + 1) with false
      by (symmetry; apply Z.eqb_neq; lia).
    reflexivity.
  - destruct Hok as [_ Hb]. rewrite Forall_forall in Hb. intros l Hl.
    apply Z.eqb_neq.
    specialize (Hb (id l) (in_map id _ _ Hl)). cbn in Hb. lia.
Qed.

(* ------------------------------------------------------------------ *)
(** ** [trigger_feeding_by_feeder] *)
(* ------------------------------------------------------------------ *)

(** C2 (as amended): when the dispense call to an active feeder does not
    come back with status 200, no log row is recorded and no daily
    aggregate is changed.  If the call fails in transport
    ([RequestException]) the answer is 503 and the feeder is written
    offline with [last_offline] stamped; if the device answers with a
    status other than 200 the answer is 500 and the registry is left as it
    was. *)
Theorem trigger_failure_records_nothing :
  forall (d : db) (fid : Z) (form_amount : option Z) (net : network) (c : clock)
         (feeder : feeder),
    find (fun f => (feeder_id f =? fid) && is_active f) (feeders d) = Some feeder ->
    net (PostDispense (esp32_ip feeder) (esp32_port feeder)
           (or_default 50 form_amount) 5) <> Response 200 ->
    let o := trigger_feeding_by_feeder d fid form_amount net c in
    logs (state o) = logs d
    /\ logs_seq (state o) = logs_seq d
    /\ daily_stats (state o) = daily_stats d
    /\ (net (PostDispense (esp32_ip feeder) (esp32_port feeder)
               (or_default 50 form_amount) 5) = RequestException ->
        status o = 503
        /\ state o = update_feeder_status d fid false c
        /\ (exists f, In f (feeders (state o)) /\ feeder_id f = fid)
        /\ (forall f, In f (feeders (state o)) -> feeder_id f = fid ->
              is_online f = false /\ last_offline f = Some (now c)))
    /\ (forall status_code,
          net (PostDispense (esp32_ip feeder) (esp32_port feeder)
                 (or_default 50 form_amount) 5) = Response status_code ->
          status o = 500 /\ state o = d).
Proof.
  intros d fid form_amount net c feeder Hfind Hfail o. subst o.
  unfold trigger_feeding_by_feeder. rewrite Hfind.
  destruct (net (PostDispense (esp32_ip feeder) (esp32_port feeder)
                   (or_default 50 form_amount) 5)) as [code |] eqn:Hnet.
  - assert (Hcode : (code =? 200) = false).
    { apply Z.eqb_neq. intros E. apply Hfail. now subst. }
    rewrite Hcode. cbn. repeat split; try discriminate.
  - cbn [state status logs logs_seq daily_stats update_feeder_status with_feeders].
    split; [reflexivity |]. split; [reflexivity |]. split; [reflexivity |].
    split; [| discriminate].
    intros _. split; [reflexivity |]. split; [reflexivity |]. split.
    + apply find_some in Hfind. destruct Hfind as [Hin Hid].
      apply andb_true_iff in Hid. destruct Hid as [Hid _].
      exists (stamp_offline c feeder). split; [| apply Z.eqb_eq in Hid; exact Hid].
      apply update_where_In. exists feeder. split; [assumption |].
      now rewrite Hid.
    + intros f Hin Hf. apply update_where_In in Hin. destruct Hin as [g [_ Eg]].
      subst f. destruct (feeder_id g =? fid) eqn:E; [split; reflexivity |].
      apply Z.eqb_neq in E. contradiction.
Qed.

(** The theorem at the registry of one online feeder whose device cannot
    be reached. *)
Lemma trigger_failure_records_nothing_witness :
  find (fun f => (feeder_id f =? 1) && is_active f) (feeders online_feeder_db)
  = Some (stamp_online noon module_1)
  /\ unreachable (PostDispense "192.168.1.10" 80 50 5) <> Response 200
  /\ status (trigger_feeding_by_feeder online_feeder_db 1 None unreachable
               second_after_noon) = 503.
Proof.
  assert (H1 : find (fun f => (feeder_id f =? 1) && is_active f)
                 (feeders online_feeder_db) = Some (stamp_online noon module_1))
    by reflexivity.
  assert (H2 : unreachable (PostDispense "192.168.1.10" 80 50 5) <> Response 200)
    by discriminate.
  split; [exact H1 |]. split; [exact H2 |].
  exact (proj1 (proj1 (proj2 (proj2 (proj2
           (trigger_failure_records_nothing online_feeder_db 1 None unreachable
              second_after_noon _ H1 H2)))) eq_refl)).
Defined.

(** C2, the claim as stated, fails: when the device answers the dispense
    call with status 500 the handler raises a plain [Exception], which its
    [except requests.exceptions.RequestException] clause does not catch,
    so [update_feeder_status] is not called: the feeder stays online and
    [last_offline] is not stamped. *)
Lemma trigger_non_200_keeps_online :
  ~ (forall (d : db) (fid : Z) (form_amount : option Z) (net : network)
            (c : clock) (feeder : feeder),
        find (fun f => (feeder_id f =? fid) && is_active f) (feeders d)
        = Some feeder ->
        net (PostDispense (esp32_ip feeder) (esp32_port feeder)
               (or_default 50 form_amount) 5) <> Response 200 ->
        forall f,
          In f (feeders (state (trigger_feeding_by_feeder d fid form_amount net c))) ->
          feeder_id f = fid ->
          is_online f = false /\ last_offline f = Some (now c)).
Proof.
  intros H.
  destruct (H online_feeder_db 1 None (answering 500) second_after_noon
              (stamp_online noon module_1) eq_refl ltac:(discriminate)
              (stamp_online noon module_1)) as [Hon _].
  - cbn. left. reflexivity.
  - reflexivity.
  - discriminate.
Qed.

Lemma trigger_calls (d : db) (fid : Z) (form_amount : option Z) (net : network)
    (c : clock) (feeder : feeder) :
  find (fun f => (feeder_id f =? fid) && is_active f) (feeders d) = Some feeder ->
  calls (trigger_feeding_by_feeder d fid form_amount net c)
  = [PostDispense (esp32_ip feeder) (esp32_port feeder)
       (or_default 50 form_amount) 5].
Proof.
  intros H. unfold trigger_feeding_by_feeder. rewrite H.
  destruct (net _) as [code |]; [| reflexivity].
  destruct (code =? 200); [| reflexivity].
  destruct (upsert_by_feeder _ _ _ _); reflexivity.
Qed.

(** C4 (as amended): [trigger_feeding_by_feeder] makes no reachability
    probe.  For an active feeder its only device call is the dispense
    command itself, sent with a 5-second timeout whatever the stored online
    flag says; for an unknown or inactive feeder it makes no device call
    and answers 404. *)
Theorem trigger_sends_dispense_without_probe :
  forall (d : db) (fid : Z) (form_amount : option Z) (net : network) (c : clock),
    let o := trigger_feeding_by_feeder d fid form_amount net c in
    (forall feeder,
        find (fun f => (feeder_id f =? fid) && is_active f) (feeders d)
        = Some feeder ->
        calls o = [PostDispense (esp32_ip feeder) (esp32_port feeder)
                     (or_default 50 form_amount) 5])
    /\ (find (fun f => (feeder_id f =? fid) && is_active f) (feeders d) = None ->
        calls o = [] /\ status o = 404 /\ state o = d)
    /\ (forall host port timeout, ~ In (GetStatus host port timeout) (calls o)).
Proof.
  intros d fid form_amount net c o. subst o.
  destruct (find (fun f => (feeder_id f =? fid) && is_active f) (feeders d))
    as [feeder |] eqn:Hfind.
  - pose proof (trigger_calls d fid form_amount net c feeder Hfind) as Hcalls.
    split; [| split].
    + intros f E. inv E. exact Hcalls.
    + discriminate.
    + intros host port timeout Hin. rewrite Hcalls in Hin.
      destruct Hin as [E | []]. discriminate.
  - unfold trigger_feeding_by_feeder. rewrite Hfind.
    split; [discriminate |]. split; [now intros _ |].
    intros host port timeout [].
Qed.

(** C4, the claim as stated, fails: for the registered feeder the dispense
    command is the first and only device call; no probe precedes it. *)
Lemma trigger_dispenses_unprobed :
  ~ (forall (d : db) (fid : Z) (form_amount : option Z) (net : network)
            (c : clock) (before after : list device_call)
            (host : string) (port amount timeout : Z),
        calls (trigger_feeding_by_feeder d fid form_amount net c)
        = before ++ PostDispense host port amount timeout :: after ->
        exists probe_timeout, In (GetStatus host port probe_timeout) before).
Proof.
  intros H.
  destruct (H one_feeder_db 1 None (answering 200) noon [] []
              "192.168.1.10" 80 50 5 eq_refl) as [t []].
Qed.

(* ------------------------------------------------------------------ *)
(** ** [get_feeders] *)
(* ------------------------------------------------------------------ *)

Lemma insert_by_feeder_id_perm (f : feeder) (fs : list feeder) :
  Permutation (insert_by_feeder_id f fs) (f :: fs).
Proof.
  induction fs as [| g fs IH]; simpl.
  - apply Permutation_refl.
  - destruct (feeder_id f <=? feeder_id g).
    + apply Permutation_refl.
    + eapply perm_trans; [apply perm_skip, IH | apply perm_swap].
Qed.

Lemma order_by_feeder_id_perm (fs : list feeder) :
  Permutation (order_by_feeder_id fs) fs.
Proof.
  induction fs as [| f fs IH]; simpl.
  - apply Permutation_refl.
  - eapply perm_trans; [apply insert_by_feeder_id_perm | now apply perm_skip].
Qed.

(** On a table in key order the [ORDER BY] changes nothing. *)
Lemma order_by_feeder_id_sorted (fs : list feeder) :
  StronglySorted Z.lt (map feeder_id fs) -> order_by_feeder_id fs = fs.
Proof.
  induction fs as [| f fs IH]; simpl; intros Hs.
  - reflexivity.
  - inv Hs. rewrite (IH H1). destruct fs as [| g fs]; simpl.
    + reflexivity.
    + inv H2. replace (feeder_id f <=? feeder_id g) with true; [reflexivity |].
      symmetry. apply Z.leb_le. lia.
Qed.

Lemma get_feeders_fold (net : network) (clock_at : Z -> clock)
    (selected : list feeder) :
  forall d feeders_list trace,
    fold_left (get_feeders_step net clock_at) selected (d, feeders_list, trace)
    = (fold_left (reconcile net clock_at) selected d,
       feeders_list ++ map (fun f => mk_feeder_json f (verdict net f)) selected,
       trace ++ map (fun f => GetStatus (esp32_ip f) (esp32_port f) 2) selected).
Proof.
  induction selected as [| f selected IH]; intros d feeders_list trace; simpl.
  - now rewrite !app_nil_r.
  - rewrite IH, <- !app_assoc. reflexivity.
Qed.

Lemma find_by_id_absent (fid : Z) (fs : list feeder) :
  ~ In fid (map feeder_id fs) -> find (fun f => feeder_id f =? fid) fs = None.
Proof.
  induction fs as [| f fs IH]; simpl; intros H.
  - reflexivity.
  - destruct (feeder_id f =? fid) eqn:E.
    + apply Z.eqb_eq in E. tauto.
    + apply IH. tauto.
Qed.

Lemma find_by_id_present (g : feeder) (fs : list feeder) :
  NoDup (map feeder_id fs) -> In g fs ->
  find (fun f => feeder_id f =? feeder_id g) fs = Some g.
Proof.
  induction fs as [| f fs IH]; simpl; intros Hnd Hin.
  - contradiction.
  - inv Hnd. destruct Hin as [E | Hin].
    + subst f. now rewrite Z.eqb_refl.
    + destruct (feeder_id f =? feeder_id g) eqn:E.
      * apply Z.eqb_eq in E. exfalso. apply H1. rewrite E. now apply in_map.
      * now apply IH.
Qed.

Lemma stamp_keeps_id (online : bool) (c : clock) (g : feeder) :
  feeder_id ((if online then stamp_online c else stamp_offline c) g) = feeder_id g.
Proof. now destruct online. Qed.

Lemma reconcile_frame (net : network) (clock_at : Z -> clock) (d : db) (f : feeder) :
  let d' := reconcile net clock_at d f in
  logs d' = logs d /\ logs_seq d' = logs_seq d /\ daily_stats d' = daily_stats d
  /\ layout d' = layout d /\ feeders_seq d' = feeders_seq d.
Proof.
  unfold reconcile. destruct (Bool.eqb (verdict net f) (is_online f)); cbn;
    repeat split.
Qed.

Lemma reconcile_all_frame (net : network) (clock_at : Z -> clock)
    (selected : list feeder) :
  forall d,
    let d' := fold_left (reconcile net clock_at) selected d in
    logs d' = logs d /\ logs_seq d' = logs_seq d /\ daily_stats d' = daily_stats d
    /\ layout d' = layout d /\ feeders_seq d' = feeders_seq d.
Proof.
  induction selected as [| f selected IH]; intros d; simpl.
  - repeat split.
  - destruct (IH (reconcile net clock_at d f)) as (A & B & C & D & E).
    destruct (reconcile_frame net clock_at d f) as (A' & B' & C' & D' & E').
    repeat split; congruence.
Qed.

(** The rows after the loop: each is stamped by the selected row of its
    id, if there is one and its verdict differs from its flag. *)
Lemma reconcile_all_feeders (net : network) (clock_at : Z -> clock)
    (selected : list feeder) :
  NoDup (map feeder_id selected) ->
  forall d,
    feeders (fold_left (reconcile net clock_at) selected d)
    = map (fun g =>
             match find (fun f => feeder_id f =? feeder_id g) selected with
             | Some f =>
                 if Bool.eqb (verdict net f) (is_online f) then g
                 else (if verdict net f
                       then stamp_online (clock_at (feeder_id f))
                       else stamp_offline (clock_at (feeder_id f))) g
             | None => g
             end) (feeders d).
Proof.
  induction selected as [| f selected IH]; intros Hnd d; simpl.
  - symmetry. apply map_id.
  - inv Hnd. rewrite (IH H2). unfold reconcile at 1.
    destruct (Bool.eqb (verdict net f) (is_online f)) eqn:Hsame.
    + apply map_ext. intros g.
      destruct (feeder_id f =? feeder_id g) eqn:E; [| reflexivity].
      apply Z.eqb_eq in E. rewrite <- E.
      now rewrite (find_by_id_absent _ _ H1), Hsame.
    + cbn [update_feeder_status feeders with_feeders]. unfold update_where.
      rewrite map_map. apply map_ext. intros g.
      rewrite (Z.eqb_sym (feeder_id f) (feeder_id g)).
      destruct (feeder_id g =? feeder_id f) eqn:E; [| reflexivity].
      apply Z.eqb_eq in E. rewrite stamp_keeps_id, E.
      now rewrite (find_by_id_absent _ _ H1), Hsame.
Qed.

Lemma increasing_keys_NoDup (seq : Z) (ids : list Z) :
  increasing_keys seq ids -> NoDup ids.
Proof. intros [Hs _]. now apply StronglySorted_NoDup. Qed.

Lemma NoDup_map_filter {A B : Type} (key : A -> B) (keep : A -> bool) (l : list A) :
  NoDup (map key l) -> NoDup (map key (filter keep l)).
Proof.
  induction l as [| x l IH]; simpl; intros Hnd.
  - constructor.
  - inv Hnd. destruct (keep x); simpl; [constructor |]; try now apply IH.
    intros Hin. apply H1. apply in_map_iff in Hin.
    destruct Hin as [y [Ey Hy]]. apply filter_In in Hy.
    apply in_map_iff. exists y. tauto.
Qed.

Lemma get_feeders_unfold (d : db) (net : network) (clock_at : Z -> clock) :
  let selected := order_by_feeder_id (filter is_active (feeders d)) in
  get_feeders d net clock_at
  = mk_outcome 200
      (Feeders (map (fun f => mk_feeder_json f (verdict net f)) selected))
      (fold_left (reconcile net clock_at) selected d)
      (map (fun f => GetStatus (esp32_ip f) (esp32_port f) 2) selected).
Proof.
  unfold get_feeders. rewrite get_feeders_fold. reflexivity.
Qed.

Lemma get_feeders_rows (d : db) (net : network) (clock_at : Z -> clock) :
  NoDup (map feeder_id (feeders d)) ->
  feeders (state (get_feeders d net clock_at))
  = map (settled net clock_at) (feeders d).
Proof.
  intros Hnd. rewrite get_feeders_unfold. cbn [state].
  assert (Hsel : NoDup (map feeder_id
                          (order_by_feeder_id (filter is_active (feeders d))))).
  { eapply Permutation_NoDup.
    - apply Permutation_map, Permutation_sym, order_by_feeder_id_perm.
    - now apply NoDup_map_filter. }
  rewrite (reconcile_all_feeders net clock_at _ Hsel).
  apply map_ext_in. intros g Hg. unfold settled.
  destruct (is_active g) eqn:Hact.
  - rewrite (find_by_id_present g).
    + cbn [andb].
      destruct (Bool.eqb (verdict net g) (is_online g)); cbn [negb];
        [reflexivity | now destruct (verdict net g)].
    + exact Hsel.
    + eapply Permutation_in; [apply Permutation_sym, order_by_feeder_id_perm |].
      apply filter_In. split; assumption.
  - cbn [andb]. rewrite find_by_id_absent; [reflexivity |].
    intros Hin. apply in_map_iff in Hin. destruct Hin as [f [Ef Hf]].
    apply (Permutation_in _ (order_by_feeder_id_perm _)) in Hf.
    apply filter_In in Hf. destruct Hf as [Hf Hfa].
    assert (f = g).
    { clear - Hnd Hg Hf Ef. induction (feeders d) as [| x l IH]; simpl in *.
      - contradiction.
      - inv Hnd. destruct Hg as [-> | Hg], Hf as [-> | Hf]; auto.
        + exfalso. apply H1. rewrite <- Ef. now apply in_map.
        + exfalso. apply H1. rewrite Ef. now apply in_map. }
    congruence.
Qed.

(** C5 (as amended): [get_feeders] probes every active feeder, in the
    order of their ids and with a 2-second timeout, before it answers; it
    reports each with the verdict of its probe; and where the verdict
    differs from the stored online flag the row is written before the
    answer (flag, [last_online] or [last_offline], [updated_at]), so that
    afterwards every active row stores the verdict.  A row whose verdict
    equals its stored flag, and every inactive row, is left untouched: a
    failed probe of a feeder already stored offline stamps nothing. *)
Theorem get_feeders_reconciles :
  forall (d : db) (net : network) (clock_at : Z -> clock),
    feeders_ok d ->
    let o := get_feeders d net clock_at in
    let selected := filter is_active (feeders d) in
    status o = 200
    /\ calls o = map (fun f => GetStatus (esp32_ip f) (esp32_port f) 2) selected
    /\ answer o = Feeders (map (fun f => mk_feeder_json f (verdict net f)) selected)
    /\ feeders (state o) = map (settled net clock_at) (feeders d)
    /\ (forall f, In f (feeders d) -> is_active f = true ->
          is_online (settled net clock_at f) = verdict net f)
    /\ (forall f, is_active f = true -> verdict net f <> is_online f ->
          updated_at (settled net clock_at f) = now_again (clock_at (feeder_id f))
          /\ (verdict net f = true ->
              last_online (settled net clock_at f) = Some (now (clock_at (feeder_id f))))
          /\ (verdict net f = false ->
              last_offline (settled net clock_at f) = Some (now (clock_at (feeder_id f)))))
    /\ (forall f, is_active f = false \/ verdict net f = is_online f ->
          settled net clock_at f = f)
    /\ logs (state o) = logs d /\ daily_stats (state o) = daily_stats d.
Proof.
  intros d net clock_at Hok o selected. subst o selected.
  pose proof (increasing_keys_NoDup _ _ Hok) as Hnd.
  assert (Hsorted : order_by_feeder_id (filter is_active (feeders d))
                    = filter is_active (feeders d)).
  { apply order_by_feeder_id_sorted. destruct Hok as [Hs _].
    clear - Hs. induction (feeders d) as [| f fs IH]; simpl in *.
    - constructor.
    - inv Hs. destruct (is_active f); simpl; [constructor |]; try now apply IH.
      rewrite Forall_forall in *. intros x Hx. apply H2.
      apply in_map_iff in Hx. destruct Hx as [y [Ey Hy]].
      apply filter_In in Hy. apply in_map_iff. exists y. tauto. }
  rewrite (get_feeders_rows d net clock_at Hnd).
  rewrite get_feeders_unfold. cbn [status calls answer state].
  rewrite Hsorted.
  destruct (reconcile_all_frame net clock_at (filter is_active (feeders d)) d)
    as (Hl & _ & Hs & _).
  split; [reflexivity |]. split; [reflexivity |]. split; [reflexivity |].
  split; [reflexivity |]. split; [| split; [| split; [| split; assumption]]].
  - intros f _ Hact. unfold settled. rewrite Hact. cbn [andb].
    destruct (verdict net f) eqn:V, (is_online f) eqn:O; cbn; congruence.
  - intros f Hact Hdiff. unfold settled. rewrite Hact. cbn [andb].
    destruct (verdict net f) eqn:V, (is_online f) eqn:O; cbn;
      try congruence; repeat split; congruence.
  - intros f [Hina | Hsame]; unfold settled.
    + now rewrite Hina.
    + rewrite Hsame, Bool.eqb_reflx, andb_false_r. reflexivity.
Qed.

(** The theorem at the registry of one feeder stored online whose device
    has become unreachable: the probe fails and the row is stamped offline. *)
Lemma get_feeders_reconciles_witness :
  feeders_ok online_feeder_db
  /\ feeders (state (get_feeders online_feeder_db unreachable
                       (fun _ => second_after_noon)))
     = [stamp_offline second_after_noon (stamp_online noon module_1)].
Proof.
  assert (Hok : feeders_ok online_feeder_db).
  { split; cbn; repeat constructor. lia. }
  split; [exact Hok |].
  exact (proj1 (proj2 (proj2 (proj2
           (get_feeders_reconciles online_feeder_db unreachable
              (fun _ => second_after_noon) Hok))))).
Defined.

(** C5, the claim as stated, fails in its scenario: [add_feeder] stores the
    new module with [is_online = 0]; the failed probe gives [False], which
    equals the stored 0, so [get_feeders] does not call
    [update_feeder_status]: the module is reported offline, but the row is
    exactly as registered and its [last_offline] is still NULL. *)
Lemma get_feeders_offline_not_stamped :
  let d := state (add_feeder (empty_db FeederDateKey) register_module_1 noon) in
  let o := get_feeders d unreachable (fun _ => second_after_noon) in
  feeders d = [module_1]
  /\ answer o = Feeders [mk_feeder_json module_1 false]
  /\ calls o = [GetStatus "192.168.1.10" 80 2]
  /\ state o = d
  /\ ~ (exists f, In f (feeders (state o))
                  /\ last_offline f = Some (now second_after_noon))
  /\ (forall f, In f (feeders (state o)) -> last_offline f = None).
Proof.
  cbv zeta. split; [reflexivity |]. split; [reflexivity |].
  split; [reflexivity |]. split; [reflexivity |]. split.
  - intros [f [[E | []] Hf]]. subst f. discriminate.
  - intros f [E | []]. subst f. reflexivity.
Qed.

(* ------------------------------------------------------------------ *)
(** ** Python text functions on digit runs *)
(* ------------------------------------------------------------------ *)

(** A character [isdigit] accepts is no white space, sign or underscore;
    it is a decimal digit unless it is a superscript. *)
Lemma isdigit_char_facts (c : ascii) :
  isdigit_char c = true ->
  is_space c = false
  /\ Ascii.eqb c "+" = false /\ Ascii.eqb c "-" = false
  /\ Ascii.eqb c "_" = false
  /\ is_decimal c = negb (is_superscript c).
Proof.
  destruct c as [[] [] [] [] [] [] [] []]; vm_compute; intros H;
    first [discriminate H | repeat split].
Qed.

Lemma is_decimal_isdigit_char (c : ascii) :
  is_decimal c = true -> isdigit_char c = true.
Proof. unfold isdigit_char. now intros ->. Qed.



Lemma all_chars_impl (p q : ascii -> bool) (s : string) :
  (forall c, p c = true -> q c = true) ->
  all_chars p s = true -> all_chars q s = true.
Proof.
  intros Hpq. induction s as [| c s IH]; simpl; intros H.
  - reflexivity.
  - apply andb_true_iff in H. destruct H as [Hc Hs].
    now rewrite (Hpq c Hc), (IH Hs).
Qed.


Lemma is_int_space_is_space (c : ascii) :
  is_space c = false -> is_int_space c = false.
Proof.
  destruct c as [[] [] [] [] [] [] [] []]; vm_compute; intros H;
    first [discriminate H | reflexivity].
Qed.

Lemma int_rstrip_no_space (s : string) :
  all_chars (fun c => negb (is_int_space c)) s = true -> int_rstrip s = s.
Proof.
  induction s as [| c s IH]; simpl; intros H.
  - reflexivity.
  - apply andb_true_iff in H. destruct H as [Hc Hs].
    rewrite (IH Hs). apply negb_true_iff in Hc. rewrite Hc.
    now destruct s.
Qed.

(** [int] strips nothing from a text of [isdigit] characters. *)
Lemma int_strip_isdigit (s : string) :
  all_chars isdigit_char s = true -> int_strip s = s.
Proof.
  intros H. unfold int_strip.
  assert (Hns : all_chars (fun c => negb (is_int_space c)) s = true).
  { eapply all_chars_impl; [| exact H].
    intros c Hc. apply isdigit_char_facts in Hc. destruct Hc as [Hc _].
    now rewrite (is_int_space_is_space c Hc). }
  destruct s as [| c s]; [reflexivity |].
  simpl in H. apply andb_true_iff in H. destruct H as [Hc _].
  apply isdigit_char_facts in Hc. destruct Hc as [Hc _].
  cbn [int_lstrip]. rewrite (is_int_space_is_space c Hc).
  now apply int_rstrip_no_space.
Qed.

(** With no sign in front, [int] reads the digits of the stripped text. *)
Lemma int_unsigned (c : ascii) (s : string) :
  Ascii.eqb c "+" = false -> Ascii.eqb c "-" = false ->
  int_strip (String c s) = String c s ->
  int (String c s) = int_digits 0 false (String c s).
Proof.
  intros Hplus Hminus Hstrip. unfold int. rewrite Hstrip.
  destruct c as [[] [] [] [] [] [] [] []]; try reflexivity;
    vm_compute in Hplus, Hminus; discriminate.
Qed.

Lemma int_digits_decimal (s : string) :
  forall acc after_digit,
    all_chars is_decimal s = true ->
    s <> EmptyString \/ after_digit = true ->
    int_digits acc after_digit s = Some (decimal_value acc s).
Proof.
  induction s as [| c s IH]; intros acc after_digit H Hne; simpl.
  - destruct Hne as [Hne | ->]; [congruence | reflexivity].
  - simpl in H. apply andb_true_iff in H. destruct H as [Hc Hs].
    rewrite Hc. apply IH; [assumption | now right].
Qed.

(** On a run of decimal digits [int] gives its value. *)
Lemma int_decimal_text (s : string) :
  decimal_text s = true -> int s = Some (decimal_value 0 s).
Proof.
  intros H. destruct s as [| c s]; [discriminate |].
  unfold decimal_text in H.
  assert (Hd : all_chars isdigit_char (String c s) = true)
    by (eapply all_chars_impl; [apply is_decimal_isdigit_char | exact H]).
  pose proof H as H'. simpl in H'. apply andb_true_iff in H'. destruct H' as [Hc _].
  destruct (isdigit_char_facts c (is_decimal_isdigit_char c Hc))
    as (_ & Hplus & Hminus & _).
  rewrite (int_unsigned c s Hplus Hminus (int_strip_isdigit _ Hd)).
  apply int_digits_decimal; [exact H | left; discriminate].
Qed.




Lemma decimal_value_nonneg (s : string) :
  forall acc, 0 <= acc -> all_chars is_decimal s = true -> 0 <= decimal_value acc s.
Proof.
  induction s as [| c s IH]; intros acc Hacc H;
    cbn [decimal_value all_chars] in *.
  - assumption.
  - apply andb_true_iff in H. destruct H as [Hc Hs]. apply IH; [| assumption].
    unfold is_decimal in Hc. apply andb_true_iff in Hc. destruct Hc as [Hlo _].
    apply Z.leb_le in Hlo. unfold digit_value. lia.
Qed.


(* ------------------------------------------------------------------ *)
(** ** [add_feeder]: parsing and validating the address *)
(* ------------------------------------------------------------------ *)



Lemma split_nonempty (sep : ascii) (s : string) : split sep s <> [].
Proof.
  destruct s as [| c s]; simpl; [discriminate |].
  destruct (Ascii.eqb c sep); [discriminate |].
  destruct (split sep s); discriminate.
Qed.











Lemma truthy_text (s : string) : s <> "" -> truthy (Some s) = true.
Proof. destruct s; [congruence | reflexivity]. Qed.

Section AddFeederBranches.
Variables (d : db) (data : add_feeder_json) (c : clock).
Variables (nm address : string).
Hypothesis Hname : name data = Some nm.
Hypothesis Hnm : nm <> "".
Hypothesis Haddress : ip_address data = Some address.
Hypothesis Haddr : address <> "".

Lemma add_feeder_unparsed (e : exn) :
  parse_address address = Raise e ->
  add_feeder d data c = mk_outcome 500 (ErrorOf e) d [].
Proof.
  intros Hp. unfold add_feeder.
  rewrite Hname, Haddress, !truthy_text by assumption.
  cbn [negb orb or_default]. now rewrite Hp.
Qed.

Variables (host : string) (port : Z).
Hypothesis Hparse : parse_address address = Ok (host, port).

Lemma add_feeder_invalid :
  invalid_ip host = Ok true ->
  add_feeder d data c = mk_outcome 400 (Error "Invalid IP address format") d [].
Proof.
  intros Hi. unfold add_feeder.
  rewrite Hname, Haddress, !truthy_text by assumption.
  cbn [negb orb or_default]. now rewrite Hparse, Hi.
Qed.

Lemma add_feeder_invalid_raise (e : exn) :
  invalid_ip host = Raise e ->
  add_feeder d data c = mk_outcome 500 (ErrorOf e) d [].
Proof.
  intros Hi. unfold add_feeder.
  rewrite Hname, Haddress, !truthy_text by assumption.
  cbn [negb orb or_default]. now rewrite Hparse, Hi.
Qed.

Lemma add_feeder_duplicate :
  invalid_ip host = Ok false ->
  existsb (fun f => String.eqb (esp32_ip f) host && is_active f) (feeders d) = true ->
  add_feeder d data c
  = mk_outcome 400 (Error "A feeder with this IP already exists") d [].
Proof.
  intros Hi Hdup. unfold add_feeder.
  rewrite Hname, Haddress, !truthy_text by assumption.
  cbn [negb orb or_default]. now rewrite Hparse, Hi, Hdup.
Qed.

Lemma add_feeder_overflow :
  invalid_ip host = Ok false ->
  existsb (fun f => String.eqb (esp32_ip f) host && is_active f) (feeders d) = false ->
  sqlite_integer port && sqlite_integer (or_default 5000 (json_max_capacity_g data))
  = false ->
  add_feeder d data c = mk_outcome 500 (ErrorOf OverflowError) d [].
Proof.
  intros Hi Hdup Hfit. unfold add_feeder.
  rewrite Hname, Haddress, !truthy_text by assumption.
  cbn [negb orb or_default]. now rewrite Hparse, Hi, Hdup, Hfit.
Qed.

Lemma add_feeder_fresh :
  invalid_ip host = Ok false ->
  existsb (fun f => String.eqb (esp32_ip f) host && is_active f) (feeders d) = false ->
  sqlite_integer port && sqlite_integer (or_default 5000 (json_max_capacity_g data))
  = true ->
  let new_id := autoincrement (feeders_seq d) (map feeder_id (feeders d)) in
  add_feeder d data c
  = mk_outcome 200 (FeederAdded new_id)
      (with_feeders d
         (feeders d ++
          [mk_feeder new_id nm host port None 80
             (or_default "Main Area" (json_location data))
             (or_default 5000 (json_max_capacity_g data))
             0 true false (Some (utc_now c)) None 0 (now c) (utc_now c)])
         new_id) [].
Proof.
  intros Hi Hdup Hfit. unfold add_feeder.
  rewrite Hname, Haddress, !truthy_text by assumption.
  cbn [negb orb or_default]. now rewrite Hparse, Hi, Hdup, Hfit.
Qed.
End AddFeederBranches.

Lemma add_feeder_missing (d : db) (data : add_feeder_json) (c : clock) :
  truthy (name data) = false \/ truthy (ip_address data) = false ->
  add_feeder d data c = mk_outcome 400 (Error "Missing required fields") d [].
Proof.
  intros H. unfold add_feeder.
  destruct H as [-> | ->]; cbn [negb orb]; [| rewrite orb_true_r]; reflexivity.
Qed.

Lemma truthy_cases (o : option string) :
  truthy o = false \/ exists s, o = Some s /\ s <> "".
Proof.
  destruct o as [[| ch s] |]; [now left | right | now left].
  eexists. split; [reflexivity | discriminate].
Qed.

(** Whatever the request, [add_feeder] answers 200, 400 or 500, and only
    the 200 writes. *)
Lemma add_feeder_statuses (d : db) (data : add_feeder_json) (c : clock) :
  (status (add_feeder d data c) = 200
   \/ status (add_feeder d data c) = 400
   \/ status (add_feeder d data c) = 500)
  /\ (status (add_feeder d data c) <> 200 -> state (add_feeder d data c) = d).
Proof.
  destruct (truthy_cases (name data)) as [Hn | [nm [Hname Hnm]]].
  { rewrite add_feeder_missing by (now left). cbn. tauto. }
  destruct (truthy_cases (ip_address data)) as [Ha | [address [Haddress Haddr]]].
  { rewrite add_feeder_missing by (now right). cbn. tauto. }
  destruct (parse_address address) as [[host port] | e] eqn:Hp.
  2: { rewrite (add_feeder_unparsed d data c nm address Hname Hnm Haddress Haddr e Hp).
       cbn. tauto. }
  destruct (invalid_ip host) as [[] | e] eqn:Hi.
  - rewrite (add_feeder_invalid d data c nm address Hname Hnm Haddress Haddr
               host port Hp Hi). cbn. tauto.
  - destruct (existsb (fun f => String.eqb (esp32_ip f) host && is_active f)
                (feeders d)) eqn:Hdup.
    + rewrite (add_feeder_duplicate d data c nm address Hname Hnm Haddress Haddr
                 host port Hp Hi Hdup). cbn. tauto.
    + destruct (sqlite_integer port
                && sqlite_integer (or_default 5000 (json_max_capacity_g data)))
        eqn:Hfit.
      * rewrite (add_feeder_fresh d data c nm address Hname Hnm Haddress Haddr
                   host port Hp Hi Hdup Hfit). cbn. split; [now left | congruence].
      * rewrite (add_feeder_overflow d data c nm address Hname Hnm Haddress Haddr
                   host port Hp Hi Hdup Hfit). cbn. tauto.
  - rewrite (add_feeder_invalid_raise d data c nm address Hname Hnm Haddress Haddr
               host port Hp e Hi). cbn. tauto.
Qed.

Lemma existsb_active_host (host : string) (fs : list feeder) :
  existsb (fun f => String.eqb (esp32_ip f) host && is_active f) fs = true
  <-> exists f, In f fs /\ is_active f = true /\ esp32_ip f = host.
Proof.
  rewrite existsb_exists. split; intros [f [Hin H]]; exists f.
  - apply andb_true_iff in H. destruct H as [He Ha].
    apply String.eqb_eq in He. tauto.
  - destruct H as [Ha He]. split; [assumption |].
    apply andb_true_iff. split; [now apply String.eqb_eq | assumption].
Qed.

Lemma existsb_active_host_false (host : string) (fs : list feeder) :
  existsb (fun f => String.eqb (esp32_ip f) host && is_active f) fs = false
  <-> ~ In host (map esp32_ip (filter is_active fs)).
Proof.
  rewrite <- not_true_iff_false, existsb_active_host, in_map_iff.
  split; intros H [f Hf]; apply H; exists f.
  - destruct Hf as [He Hin]. apply filter_In in Hin. tauto.
  - rewrite filter_In. tauto.
Qed.




(* ------------------------------------------------------------------ *)
(** ** What every request preserves *)
(* ------------------------------------------------------------------ *)

Lemma option_Z_eqb_eq (a b : option Z) : option_Z_eqb a b = true <-> a = b.
Proof.
  destruct a as [x |], b as [y |]; simpl; try (split; congruence).
  rewrite Z.eqb_eq. split; congruence.
Qed.

(** A stored row collides with a new one exactly when they agree on the
    key of the layout. *)
Lemma stat_conflict_key (l : stats_layout) (new s : stat) :
  stat_conflict l (stat_feeder_id new) (date new) s = true
  <-> stat_key l s = stat_key l new.
Proof.
  destruct l; cbn.
  - rewrite Z.eqb_eq. split; congruence.
  - rewrite andb_true_iff, option_Z_eqb_eq, Z.eqb_eq. split.
    + intros [-> ->]. reflexivity.
    + intros E. inv E. tauto.
Qed.

Lemma insert_or_replace_keys (l : stats_layout) (new : stat) (rows : list stat) :
  NoDup (map (stat_key l) rows) ->
  NoDup (map (stat_key l) (insert_or_replace l new rows)).
Proof.
  intros Hnd. unfold insert_or_replace, delete_where. rewrite map_app.
  apply NoDup_snoc.
  - now apply NoDup_map_filter.
  - intros Hin. apply in_map_iff in Hin. destruct Hin as [s [Es Hs]].
    apply filter_In in Hs. destruct Hs as [_ Hs].
    apply negb_true_iff in Hs. apply stat_conflict_key in Es. congruence.
Qed.

Lemma upsert_by_date_stats_ok (l : stats_layout) (dt : isodate) (rows : list stat) :
  NoDup (map (stat_key l) rows) ->
  NoDup (map (stat_key l) (upsert_by_date l dt rows)).
Proof. destruct l; apply insert_or_replace_keys. Qed.

Lemma upsert_by_feeder_stats_ok (l : stats_layout) (fid : Z) (dt : isodate)
    (rows rows' : list stat) :
  upsert_by_feeder l fid dt rows = Ok rows' ->
  NoDup (map (stat_key l) rows) -> NoDup (map (stat_key l) rows').
Proof.
  destruct l; cbn; intros E; inv E. apply insert_or_replace_keys.
Qed.

(** Deactivating rows leaves the hosts of the active rows distinct. *)
Lemma deactivate_hosts (p : feeder -> bool) (c : clock) (fs : list feeder) :
  NoDup (map esp32_ip (filter is_active fs)) ->
  NoDup (map esp32_ip (filter is_active (update_where p (deactivate c) fs))).
Proof.
  assert (Hsub : forall l host,
             In host (map esp32_ip (filter is_active (update_where p (deactivate c) l))) ->
             In host (map esp32_ip (filter is_active l))).
  { induction l as [| f l IH]; simpl; intros host Hin.
    - contradiction.
    - destruct (p f); simpl in Hin.
      + destruct (is_active f); simpl; auto.
      + destruct (is_active f); simpl in *; [destruct Hin |]; auto. }
  induction fs as [| f fs IH]; simpl; intros Hnd.
  - constructor.
  - destruct (p f); simpl.
    + apply IH. destruct (is_active f); simpl in Hnd; [now inv Hnd | assumption].
    + destruct (is_active f); simpl in *; [| now apply IH].
      inv Hnd. constructor; [| now apply IH].
      intros Hin. apply H1. now apply Hsub.
Qed.

Lemma reconcile_all_hosts (net : network) (clock_at : Z -> clock)
    (selected : list feeder) :
  forall d,
    active_hosts (fold_left (reconcile net clock_at) selected d) = active_hosts d
    /\ map feeder_id (feeders (fold_left (reconcile net clock_at) selected d))
       = map feeder_id (feeders d).
Proof.
  induction selected as [| f selected IH]; intros d; simpl.
  - split; reflexivity.
  - destruct (IH (reconcile net clock_at d f)) as [Hh Hi]. rewrite Hh, Hi.
    unfold reconcile. destruct (Bool.eqb (verdict net f) (is_online f)).
    + split; reflexivity.
    + split; [apply update_feeder_status_hosts | apply update_feeder_status_ids].
Qed.

Lemma registry_ok_same (d d' : db) :
  feeders d' = feeders d -> feeders_seq d' = feeders_seq d ->
  registry_ok d -> registry_ok d'.
Proof.
  unfold registry_ok, feeders_ok, active_hosts_distinct, active_hosts.
  now intros -> ->.
Qed.

Lemma registry_ok_restamped (d d' : db) :
  map feeder_id (feeders d') = map feeder_id (feeders d) ->
  feeders_seq d' = feeders_seq d ->
  active_hosts d' = active_hosts d ->
  registry_ok d -> registry_ok d'.
Proof.
  unfold registry_ok, feeders_ok, active_hosts_distinct.
  now intros -> -> ->.
Qed.

Lemma get_feeders_registry_ok (d : db) (net : network) (clock_at : Z -> clock) :
  registry_ok d -> registry_ok (state (get_feeders d net clock_at)).
Proof.
  rewrite get_feeders_unfold. cbn [state].
  destruct (reconcile_all_hosts net clock_at
              (order_by_feeder_id (filter is_active (feeders d))) d) as [Hh Hi].
  destruct (reconcile_all_frame net clock_at
              (order_by_feeder_id (filter is_active (feeders d))) d)
    as (_ & _ & _ & _ & Hs).
  now apply registry_ok_restamped.
Qed.

Lemma add_feeder_registry_ok (d : db) (data : add_feeder_json) (c : clock) :
  registry_ok d -> registry_ok (state (add_feeder d data c)).
Proof.
  intros [Hok Hhosts].
  destruct (truthy_cases (name data)) as [Hn | [nm [Hname Hnm]]].
  { rewrite add_feeder_missing by (now left). now split. }
  destruct (truthy_cases (ip_address data)) as [Ha | [address [Haddress Haddr]]].
  { rewrite add_feeder_missing by (now right). now split. }
  destruct (parse_address address) as [[host port] | e] eqn:Hp.
  2: { rewrite (add_feeder_unparsed d data c nm address Hname Hnm Haddress Haddr e Hp).
       now split. }
  destruct (invalid_ip host) as [[] | e] eqn:Hi.
  - rewrite (add_feeder_invalid d data c nm address Hname Hnm Haddress Haddr
               host port Hp Hi). now split.
  - destruct (existsb (fun f => String.eqb (esp32_ip f) host && is_active f)
                (feeders d)) eqn:Hdup.
    + rewrite (add_feeder_duplicate d data c nm address Hname Hnm Haddress Haddr
                 host port Hp Hi Hdup). now split.
    + destruct (sqlite_integer port
                && sqlite_integer (or_default 5000 (json_max_capacity_g data)))
        eqn:Hfit.
      2: { rewrite (add_feeder_overflow d data c nm address Hname Hnm Haddress Haddr
                      host port Hp Hi Hdup Hfit). now split. }
      rewrite (add_feeder_fresh d data c nm address Hname Hnm Haddress Haddr
                 host port Hp Hi Hdup Hfit).
      rewrite (autoincrement_next _ _ Hok). split.
      * unfold feeders_ok. cbn [state feeders feeders_seq with_feeders].
        rewrite map_app. now apply increasing_keys_snoc.
      * unfold active_hosts_distinct, active_hosts.
        cbn [state feeders with_feeders]. rewrite filter_app, map_app. cbn.
        apply NoDup_snoc; [exact Hhosts |].
        now apply existsb_active_host_false.
  - rewrite (add_feeder_invalid_raise d data c nm address Hname Hnm Haddress Haddr
               host port Hp e Hi). now split.
Qed.

Lemma delete_feeder_registry_ok (d : db) (fid : Z) (c : clock) :
  registry_ok d -> registry_ok (state (delete_feeder d fid c)).
Proof.
  intros [Hok Hhosts]. unfold delete_feeder.
  destruct (find (fun f => feeder_id f =? fid) (feeders d)); [| now split].
  split.
  - unfold feeders_ok. cbn [state feeders feeders_seq with_feeders].
    replace (map feeder_id (update_where (fun g => feeder_id g =? fid)
                              (deactivate c) (feeders d)))
      with (map feeder_id (feeders d)); [exact Hok |].
    unfold update_where. rewrite map_map. apply map_ext.
    intros g. now destruct (feeder_id g =? fid).
  - unfold active_hosts_distinct, active_hosts.
    cbn [state feeders with_feeders]. now apply deactivate_hosts.
Qed.

Lemma trigger_registry_ok (d : db) (fid : Z) (form_amount : option Z)
    (net : network) (c : clock) :
  registry_ok d ->
  registry_ok (state (trigger_feeding_by_feeder d fid form_amount net c)).
Proof.
  intros Hok. unfold trigger_feeding_by_feeder.
  destruct (find _ (feeders d)) as [feeder |]; [| exact Hok].
  destruct (net _) as [code |].
  - destruct (code =? 200); [| exact Hok].
    destruct (upsert_by_feeder _ _ _ _); [| exact Hok].
    now apply (registry_ok_same d).
  - apply (registry_ok_restamped d); try assumption.
    + apply update_feeder_status_ids.
    + reflexivity.
    + apply update_feeder_status_hosts.
Qed.

Lemma trigger_logs_ok (d : db) (fid : Z) (form_amount : option Z)
    (net : network) (c : clock) :
  logs_ok d -> logs_ok (state (trigger_feeding_by_feeder d fid form_amount net c)).
Proof.
  intros Hok. unfold trigger_feeding_by_feeder.
  destruct (find _ (feeders d)) as [feeder |]; [| exact Hok].
  destruct (net _) as [code |]; [| exact Hok].
  destruct (code =? 200); [| exact Hok].
  destruct (upsert_by_feeder _ _ _ _); [| exact Hok].
  unfold logs_ok. cbn [state logs logs_seq with_logs with_daily_stats].
  rewrite (autoincrement_next _ _ Hok), map_app. now apply increasing_keys_snoc.
Qed.

Lemma trigger_stats_ok (d : db) (fid : Z) (form_amount : option Z)
    (net : network) (c : clock) :
  stats_ok d -> stats_ok (state (trigger_feeding_by_feeder d fid form_amount net c)).
Proof.
  intros Hok. unfold trigger_feeding_by_feeder.
  destruct (find _ (feeders d)) as [feeder |]; [| exact Hok].
  destruct (net _) as [code |]; [| exact Hok].
  destruct (code =? 200); [| exact Hok].
  destruct (upsert_by_feeder _ _ _ _) as [rows' |] eqn:E; [| exact Hok].
  unfold stats_ok. cbn [state layout daily_stats with_logs with_daily_stats].
  exact (upsert_by_feeder_stats_ok _ _ _ _ _ E Hok).
Qed.

Lemma log_data_stats_ok (d : db) (form : log_form) (c : clock) :
  stats_ok d -> stats_ok (state (log_data d form c)).
Proof.
  intros Hok. unfold stats_ok. rewrite log_data_layout.
  destruct (countable (or_default "UNKNOWN" (form_event form))) eqn:K.
  - rewrite (log_data_countable _ _ _ K). now apply upsert_by_date_stats_ok.
  - now rewrite (log_data_unclassified _ _ _ K).
Qed.

Lemma delete_log_logs_ok (d : db) (log_id : Z) :
  logs_ok d -> logs_ok (state (delete_log d log_id)).
Proof.
  intros [Hs Hb]. unfold logs_ok. cbn [state delete_log logs logs_seq with_logs].
  unfold delete_where.
  assert (Hmap : forall rows,
             map id (filter (fun l => negb (id l =? log_id)) rows)
             = filter (fun i => negb (i =? log_id)) (map id rows)).
  { induction rows as [| r rows IH]; simpl; [reflexivity |].
    destruct (id r =? log_id); simpl; now rewrite IH. }
  rewrite Hmap. split.
  - now apply StronglySorted_filter.
  - rewrite Forall_forall in *. intros i Hi. apply filter_In in Hi. now apply Hb.
Qed.

Lemma upload_photo_logs_ok (d : db) (x_feeding_id x_capture_type : option string)
    (stamp : string) (stored : bool) :
  logs_ok d ->
  logs_ok (state (upload_photo d x_feeding_id x_capture_type stamp stored)).
Proof.
  destruct (upload_photo_frame d x_feeding_id x_capture_type stamp stored)
    as (_ & _ & _ & _ & Hs & Hi).
  unfold logs_ok. now rewrite Hs, Hi.
Qed.

(** Every state the handlers of [app.py] reach from freshly created tables
    keeps the keys of [feeders] and [logs] increasing, the key of
    [daily_stats] unique, and the hosts of the active modules distinct. *)
Lemma reachable_invariant (d : db) :
  reachable d -> registry_ok d /\ logs_ok d /\ stats_ok d.
Proof.
  induction 1 as [l | d d' Hreach [Hreg [Hlogs Hstats]] Hstep].
  - repeat split; cbn; constructor.
  - destruct Hstep.
    + split; [now apply get_feeders_registry_ok |].
      rewrite get_feeders_unfold. cbn [state].
      destruct (reconcile_all_frame net clock_at
                  (order_by_feeder_id (filter is_active (feeders d))) d)
        as (Hl & Hq & Hs & Hy & _).
      unfold logs_ok, stats_ok. now rewrite Hl, Hq, Hs, Hy.
    + split; [now apply add_feeder_registry_ok |].
      destruct (add_feeder_statuses d data c) as [[H2 | H45] Hfail].
      * destruct (truthy_cases (name data)) as [Hn | [nm [Hname Hnm]]].
        { rewrite add_feeder_missing by (now left). now split. }
        destruct (truthy_cases (ip_address data)) as [Ha | [address [Haddress Haddr]]].
        { rewrite add_feeder_missing by (now right). now split. }
        unfold add_feeder in *.
        rewrite Hname, Haddress, !truthy_text in * by assumption.
        cbn [negb orb or_default] in *.
        destruct (parse_address address) as [[host port] |]; [| now split].
        destruct (invalid_ip host) as [[] |]; try now split.
        destruct (existsb _ (feeders d)); [now split |].
        destruct (negb _); now split.
      * rewrite Hfail; [now split |]. destruct H45 as [-> | ->]; discriminate.
    + split; [now apply delete_feeder_registry_ok |].
      unfold delete_feeder. destruct (find _ (feeders d)); now split.
    + split; [now apply trigger_registry_ok |].
      split; [now apply trigger_logs_ok | now apply trigger_stats_ok].
    + unfold trigger_feeding. destruct (net _) as [code |];
        [| exact (conj Hreg (conj Hlogs Hstats))].
      destruct (code =? 200); [| exact (conj Hreg (conj Hlogs Hstats))].
      split; [now apply (registry_ok_same d) |]. split.
      * unfold logs_ok. cbn [state logs logs_seq with_logs with_daily_stats].
        rewrite (autoincrement_next _ _ Hlogs), map_app.
        now apply increasing_keys_snoc.
      * unfold stats_ok. cbn [state layout daily_stats with_logs with_daily_stats].
        now apply upsert_by_date_stats_ok.
    + split.
      * destruct (log_data_unfold d form c Hlogs) as (_ & _ & Hf & Hq & _).
        exact (registry_ok_same d _ Hf Hq Hreg).
      * split; [now apply log_data_logs_ok | now apply log_data_stats_ok].
    + exact (conj Hreg (conj Hlogs Hstats)).
    + split; [exact Hreg |]. split; [now apply delete_log_logs_ok | exact Hstats].
    + split; [exact Hreg |]. split; [| exact Hstats].
      destruct Hlogs as [_ Hb]. split; cbn; constructor.
    + destruct (upload_photo_frame d x_feeding_id x_capture_type stamp stored)
        as (Hf & Hq & Hs & Hy & _).
      split; [exact (registry_ok_same d _ Hf Hq Hreg) |].
      split; [now apply upload_photo_logs_ok |].
      unfold stats_ok. now rewrite Hs, Hy.
Qed.



(* ------------------------------------------------------------------ *)
(** ** Concrete runs *)
(* ------------------------------------------------------------------ *)

Lemma second_fed_db_reachable : reachable second_fed_db.
Proof.
  unfold second_fed_db, two_feeders_db.
  apply reachable_step with (d := two_feeders_db);
    [| apply step_trigger_feeding_by_feeder].
  unfold two_feeders_db.
  eapply reachable_step; [| apply step_add_feeder].
  eapply reachable_step; [| apply step_add_feeder].
  apply reachable_empty.
Qed.

(** C1, the claim as stated, fails on the tables that [app.py] creates:
    [log_data] takes no feeder id, and the row it stores for a countable
    event holds the date and the count and no feeder.  After a MANUAL_FEED
    logged into empty tables there is no aggregate of the pair (feeder 1,
    date), the feeder under which the event itself is logged; and the
    statement with which [trigger_feeding_by_feeder] addresses an aggregate
    by feeder and date is refused by this table, which has no such
    column. *)
Lemma log_data_counts_by_date_only :
  ~ (forall (d : db) (form : log_form) (c : clock),
        reachable d ->
        form_event form = Some "MANUAL_FEED" ->
        stat_of_pair 1 (today c) (daily_stats (state (log_data d form c)))
        = Some (or_default 0 (stat_of_pair 1 (today c) (daily_stats d)) + 1))
  /\ map log_feeder_id
       (logs (state (log_data (empty_db DateKey) (feed_form "MANUAL_FEED" 50) noon)))
     = [1]
  /\ daily_stats (state (log_data (empty_db DateKey) (feed_form "MANUAL_FEED" 50)
                           noon))
     = [mk_stat None day_2024_01_01 1]
  /\ upsert_by_feeder DateKey 1 day_2024_01_01 [mk_stat None day_2024_01_01 1]
     = Raise OperationalError.
Proof.
  split; [| repeat split].
  intros H.
  specialize (H (empty_db DateKey) (feed_form "MANUAL_FEED" 50) noon
                (reachable_empty DateKey) eq_refl).
  vm_compute in H. discriminate H.
Qed.

(** The theorem on the image references at a log of two feedings, the
    first of which carries the token "abc123". *)
Lemma upload_photo_patches_matching_rows_witness :
  logs_ok photo_db
  /\ status (upload_photo photo_db (Some "abc123") None "20240101_120005" true) = 200.
Proof.
  assert (Hok : logs_ok photo_db).
  { split; cbn; repeat constructor; lia. }
  split; [exact Hok |].
  exact (proj1 (proj1 (upload_photo_patches_matching_rows photo_db None
                         "20240101_120005" Hok) "abc123" ltac:(discriminate))).
Defined.

(** C8, at an input where the code departs from it: on a host eight hours
    ahead of UTC, three manual feedings of 50, 50 and 100 g are logged at
    01:00 on 2024-01-01 and the totals are asked for at once.  The count is
    read for [date.today()], 2024-01-01, and is 3; the sum is taken over
    the rows whose date is SQLite's [DATE('now')], which is the UTC date
    2023-12-31, and is 0 instead of 200, although all three rows carry the
    timestamp 2024-01-01 01:00:00. *)
Lemma get_daily_stats_utc_date :
  let d := log_all (empty_db DateKey)
             [(feed_form "MANUAL_FEED" 50, one_am_utc_plus_8);
              (feed_form "MANUAL_FEED" 50, one_am_utc_plus_8);
              (feed_form "MANUAL_FEED" 100, one_am_utc_plus_8)] in
  map (fun l => (DATE (timestamp l), amount l, event_type l)) (logs d)
  = [(day_2024_01_01, 50, "MANUAL_FEED"); (day_2024_01_01, 50, "MANUAL_FEED");
     (day_2024_01_01, 100, "MANUAL_FEED")]
  /\ today one_am_utc_plus_8 = day_2024_01_01
  /\ DATE (utc_now one_am_utc_plus_8) = day_2024_01_01 - 1
  /\ answer (get_daily_stats d one_am_utc_plus_8) = DailyStats 3 0.
Proof. cbv zeta. repeat split. Qed.



(* ================================================================== *)
(** * Further properties of the handlers *)
(* ================================================================== *)

(* ------------------------------------------------------------------ *)
(** ** [delete_feeder] and what follows it *)
(* ------------------------------------------------------------------ *)

Lemma db_ext (a b : db) :
  layout a = layout b -> feeders a = feeders b -> feeders_seq a = feeders_seq b ->
  logs a = logs b -> logs_seq a = logs_seq b -> daily_stats a = daily_stats b ->
  a = b.
Proof. destruct a, b; cbn; intros; subst; reflexivity. Qed.

Lemma NoDup_map_same_key {A B : Type} (key : A -> B) (l : list A) (x y : A) :
  NoDup (map key l) -> In x l -> In y l -> key x = key y -> x = y.
Proof.
  induction l as [| a l IH]; simpl; intros Hnd Hx Hy E.
  - contradiction.
  - inv Hnd. destruct Hx as [-> | Hx], Hy as [-> | Hy]; auto.
    + exfalso. apply H1. rewrite E. now apply in_map.
    + exfalso. apply H1. rewrite <- E. now apply in_map.
Qed.

Lemma delete_feeder_rows (d : db) (fid : Z) (c : clock) :
  feeders (state (delete_feeder d fid c))
  = update_where (fun g => feeder_id g =? fid) (deactivate c) (feeders d).
Proof.
  unfold delete_feeder.
  destruct (find (fun f => feeder_id f =? fid) (feeders d)) eqn:Hfind; cbn.
  - reflexivity.
  - symmetry. apply update_where_no_match. intros r Hr.
    exact (find_none _ _ Hfind r Hr).
Qed.

(** X1: [delete_feeder] is a soft delete.  It answers 404 and writes
    nothing when no row has the id; otherwise it answers 200 with the name
    of the module, also for a module that is inactive already.  Afterwards
    no row with that id is active, no row has left the table, rows with
    other ids are as they were, and neither [logs] nor [daily_stats] is
    touched. *)
Theorem delete_feeder_soft_deletes :
  forall (d : db) (fid : Z) (c : clock),
    let o := delete_feeder d fid c in
    ((forall f, In f (feeders d) -> feeder_id f <> fid) ->
     status o = 404 /\ state o = d)
    /\ (forall f, In f (feeders d) -> feeder_id f = fid ->
          status o = 200 /\ exists g, answer o = FeederDeleted (feeder_name g)
                                      /\ In g (feeders d) /\ feeder_id g = fid)
    /\ (forall f, In f (feeders (state o)) -> feeder_id f = fid -> is_active f = false)
    /\ map feeder_id (feeders (state o)) = map feeder_id (feeders d)
    /\ (forall i f, nth_error (feeders d) i = Some f -> feeder_id f <> fid ->
          nth_error (feeders (state o)) i = Some f)
    /\ logs (state o) = logs d /\ daily_stats (state o) = daily_stats d
    /\ calls o = [].
Proof.
  intros d fid c o. subst o. split; [| split; [| split; [| split; [| split]]]].
  - intros Hnone. unfold delete_feeder.
    rewrite find_by_id_absent; [now split |].
    intros Hin. apply in_map_iff in Hin. destruct Hin as [f [E Hf]].
    exact (Hnone f Hf E).
  - intros f Hf Hid. unfold delete_feeder.
    destruct (find (fun g => feeder_id g =? fid) (feeders d)) as [g |] eqn:Hfind.
    + split; [reflexivity |]. exists g. split; [reflexivity |].
      apply find_some in Hfind. destruct Hfind as [Hg Eg].
      apply Z.eqb_eq in Eg. now split.
    + exfalso. pose proof (find_none _ _ Hfind f Hf) as H. cbn in H.
      apply Z.eqb_neq in H. contradiction.
  - intros f Hf Hid. rewrite delete_feeder_rows in Hf.
    apply update_where_In in Hf. destruct Hf as [g [_ E]]. subst f.
    destruct (feeder_id g =? fid) eqn:Eg; [reflexivity |].
    apply Z.eqb_neq in Eg. contradiction.
  - rewrite delete_feeder_rows. unfold update_where. rewrite map_map.
    apply map_ext. intros g. now destruct (feeder_id g =? fid).
  - intros i f Hi Hne. rewrite delete_feeder_rows, update_where_nth, Hi. cbn.
    apply Z.eqb_neq in Hne. now rewrite Hne.
  - unfold delete_feeder.
    destruct (find (fun f => feeder_id f =? fid) (feeders d)); now repeat split.
Qed.

Lemma deleted_not_active (d : db) (fid : Z) (c : clock) (g : feeder) :
  In g (feeders (state (delete_feeder d fid c))) -> is_active g = true ->
  feeder_id g <> fid /\ In g (feeders d).
Proof.
  intros Hg Hact. rewrite delete_feeder_rows in Hg.
  apply update_where_In in Hg. destruct Hg as [h [Hh E]].
  destruct (feeder_id h =? fid) eqn:Eh.
  - subst g. discriminate Hact.
  - subst g. apply Z.eqb_neq in Eh. now split.
Qed.

(** X2: a module that was deleted is no longer addressed.  After
    [delete_feeder] of an id, a feeding triggered on that id answers 404,
    makes no device call and writes nothing, and every probe that
    [get_feeders] makes goes to a module that was active before and has
    another id. *)
Theorem deleted_feeder_is_not_addressed :
  forall (d : db) (fid : Z) (c : clock),
    let d' := state (delete_feeder d fid c) in
    (forall form_amount net c',
        status (trigger_feeding_by_feeder d' fid form_amount net c') = 404
        /\ calls (trigger_feeding_by_feeder d' fid form_amount net c') = []
        /\ state (trigger_feeding_by_feeder d' fid form_amount net c') = d')
    /\ (forall net clock_at call,
          In call (calls (get_feeders d' net clock_at)) ->
          exists g, In g (feeders d) /\ is_active g = true /\ feeder_id g <> fid
                    /\ call = GetStatus (esp32_ip g) (esp32_port g) 2)
    /\ (forall net clock_at l entry,
          answer (get_feeders d' net clock_at) = Feeders l -> In entry l ->
          feeder_id (row entry) <> fid).
Proof.
  intros d fid c d'. subst d'. split; [| split].
  - intros form_amount net c'. unfold trigger_feeding_by_feeder.
    replace (find (fun f => (feeder_id f =? fid) && is_active f)
               (feeders (state (delete_feeder d fid c)))) with (@None feeder);
      [now repeat split |].
    symmetry. destruct (find _ _) as [g |] eqn:Hfind; [| reflexivity].
    apply find_some in Hfind. destruct Hfind as [Hg Hp].
    apply andb_true_iff in Hp. destruct Hp as [Hid Hact].
    apply Z.eqb_eq in Hid.
    destruct (deleted_not_active d fid c g Hg Hact) as [Hne _]. contradiction.
  - intros net clock_at call Hin. rewrite get_feeders_unfold in Hin. cbn in Hin.
    apply in_map_iff in Hin. destruct Hin as [g [E Hg]].
    apply (Permutation_in _ (order_by_feeder_id_perm _)) in Hg.
    apply filter_In in Hg. destruct Hg as [Hg Hact].
    destruct (deleted_not_active d fid c g Hg Hact) as [Hne Hd].
    exists g. repeat split; auto.
  - intros net clock_at l entry Ha Hin. rewrite get_feeders_unfold in Ha.
    cbn in Ha. inv Ha. apply in_map_iff in Hin. destruct Hin as [g [E Hg]].
    subst entry. cbn.
    apply (Permutation_in _ (order_by_feeder_id_perm _)) in Hg.
    apply filter_In in Hg. destruct Hg as [Hg Hact].
    now destruct (deleted_not_active d fid c g Hg Hact).
Qed.



(* ------------------------------------------------------------------ *)
(** ** [get_feeders] run twice *)
(* ------------------------------------------------------------------ *)

Lemma verdict_settled (net : network) (clock_at : Z -> clock) (f : feeder) :
  verdict net (settled net clock_at f) = verdict net f
  /\ is_active (settled net clock_at f) = is_active f
  /\ feeder_id (settled net clock_at f) = feeder_id f.
Proof.
  unfold settled.
  destruct (is_active f && negb (Bool.eqb (verdict net f) (is_online f)));
    [destruct (verdict net f) eqn:V |]; repeat split; try assumption.
Qed.

Lemma settled_stores_verdict (net : network) (clock_at : Z -> clock) (f : feeder) :
  is_active f = true -> is_online (settled net clock_at f) = verdict net f.
Proof.
  intros Hact. unfold settled. rewrite Hact. cbn [andb].
  destruct (verdict net f) eqn:V, (is_online f) eqn:O; cbn; congruence.
Qed.

Lemma settled_twice (net : network) (clock_at clock_at' : Z -> clock) (f : feeder) :
  settled net clock_at' (settled net clock_at f) = settled net clock_at f.
Proof.
  destruct (verdict_settled net clock_at f) as (Hv & Ha & _).
  unfold settled at 1. rewrite Hv, Ha.
  destruct (is_active f) eqn:Hact; [| reflexivity].
  rewrite (settled_stores_verdict net clock_at f Hact), Bool.eqb_reflx.
  reflexivity.
Qed.

Lemma get_feeders_frame (d : db) (net : network) (clock_at : Z -> clock) :
  let d' := state (get_feeders d net clock_at) in
  logs d' = logs d /\ logs_seq d' = logs_seq d /\ daily_stats d' = daily_stats d
  /\ layout d' = layout d /\ feeders_seq d' = feeders_seq d
  /\ map feeder_id (feeders d') = map feeder_id (feeders d).
Proof.
  rewrite get_feeders_unfold. cbn [state].
  destruct (reconcile_all_frame net clock_at
              (order_by_feeder_id (filter is_active (feeders d))) d)
    as (A & B & C & D & E).
  destruct (reconcile_all_hosts net clock_at
              (order_by_feeder_id (filter is_active (feeders d))) d) as [_ Hi].
  repeat split; assumption.
Qed.

Lemma filter_keys_sorted (fs : list feeder) :
  StronglySorted Z.lt (map feeder_id fs) ->
  StronglySorted Z.lt (map feeder_id (filter is_active fs)).
Proof.
  induction fs as [| f fs IH]; simpl; intros Hs.
  - constructor.
  - inv Hs. destruct (is_active f); simpl; [constructor |]; try now apply IH.
    rewrite Forall_forall in *. intros x Hx. apply H2.
    apply in_map_iff in Hx. destruct Hx as [y [Ey Hy]].
    apply filter_In in Hy. apply in_map_iff. exists y. tauto.
Qed.

Lemma get_feeders_in_key_order (d : db) (net : network) (clock_at : Z -> clock) :
  feeders_ok d ->
  calls (get_feeders d net clock_at)
  = map (fun f => GetStatus (esp32_ip f) (esp32_port f) 2)
      (filter is_active (feeders d))
  /\ answer (get_feeders d net clock_at)
     = Feeders (map (fun f => mk_feeder_json f (verdict net f))
                  (filter is_active (feeders d))).
Proof.
  intros [Hs _]. rewrite get_feeders_unfold. cbn [calls answer].
  rewrite (order_by_feeder_id_sorted _ (filter_keys_sorted _ Hs)).
  now split.
Qed.

(** X4: [get_feeders] settles the registry.  With keys in order, a second
    listing against devices that answer as before makes the same probes,
    reports the same verdicts and writes nothing, whatever the clock: the
    stamps of the first listing stay. *)
Theorem get_feeders_twice_writes_nothing :
  forall (d : db) (net : network) (clock_at clock_at' : Z -> clock),
    feeders_ok d ->
    let o1 := get_feeders d net clock_at in
    let o2 := get_feeders (state o1) net clock_at' in
    state o2 = state o1
    /\ calls o2 = calls o1
    /\ (forall l1 l2, answer o1 = Feeders l1 -> answer o2 = Feeders l2 ->
          map json_is_online l2 = map json_is_online l1
          /\ map (fun e => feeder_id (row e)) l2 = map (fun e => feeder_id (row e)) l1)
    /\ (forall l2 entry, answer o2 = Feeders l2 -> In entry l2 ->
          is_online (row entry) = json_is_online entry).
Proof.
  intros d net clock_at clock_at' Hok o1 o2. subst o1 o2.
  destruct (get_feeders_frame d net clock_at) as (L1 & Q1 & S1 & Y1 & F1 & I1).
  assert (Hok1 : feeders_ok (state (get_feeders d net clock_at))).
  { unfold feeders_ok. now rewrite I1, F1. }
  pose proof (get_feeders_rows d net clock_at (increasing_keys_NoDup _ _ Hok)) as R1.
  pose proof (get_feeders_rows _ net clock_at' (increasing_keys_NoDup _ _ Hok1)) as R2.
  assert (Hrows : feeders (state (get_feeders (state (get_feeders d net clock_at))
                                    net clock_at'))
                  = feeders (state (get_feeders d net clock_at))).
  { rewrite R2, R1, map_map. apply map_ext. intros f. apply settled_twice. }
  destruct (get_feeders_frame (state (get_feeders d net clock_at)) net clock_at')
    as (L2 & Q2 & S2 & Y2 & F2 & _).
  destruct (get_feeders_in_key_order d net clock_at Hok) as [Hc1 Ha1].
  destruct (get_feeders_in_key_order _ net clock_at' Hok1) as [Hc2 Ha2].
  assert (Hsel : filter is_active (feeders (state (get_feeders d net clock_at)))
                 = map (settled net clock_at) (filter is_active (feeders d))).
  { rewrite R1. clear. induction (feeders d) as [| f fs IH]; simpl.
    - reflexivity.
    - destruct (verdict_settled net clock_at f) as (_ & -> & _).
      destruct (is_active f); simpl; now rewrite IH. }
  split; [now apply db_ext |]. split; [| split].
  - rewrite Hc2, Hc1, Hsel, map_map. apply map_ext. intros f.
    unfold settled.
    destruct (is_active f && negb (Bool.eqb (verdict net f) (is_online f)));
      [destruct (verdict net f) |]; reflexivity.
  - intros l1 l2 E1 E2. rewrite Ha1 in E1. rewrite Ha2 in E2. inv E1. inv E2.
    rewrite Hsel, !map_map. split; apply map_ext; intros f; cbn.
    + now destruct (verdict_settled net clock_at f) as (-> & _).
    + now destruct (verdict_settled net clock_at f) as (_ & _ & ->).
  - intros l2 entry E2 Hin. rewrite Ha2 in E2. inv E2.
    apply in_map_iff in Hin. destruct Hin as [g [E Hg]]. subst entry. cbn.
    rewrite Hsel in Hg. apply in_map_iff in Hg. destruct Hg as [f [E Hf]].
    subst g. apply filter_In in Hf. destruct Hf as [_ Hact].
    rewrite (settled_stores_verdict net clock_at f Hact).
    now destruct (verdict_settled net clock_at f) as (-> & _).
Qed.

(** The theorem at the registry of one module stored online whose device
    cannot be reached: the first listing stamps it offline, the second
    leaves that stamp. *)
Lemma get_feeders_twice_writes_nothing_witness :
  feeders_ok online_feeder_db
  /\ state (get_feeders (state (get_feeders online_feeder_db unreachable
                                  (fun _ => second_after_noon)))
              unreachable (fun _ => one_am_utc_plus_8))
     = state (get_feeders online_feeder_db unreachable (fun _ => second_after_noon)).
Proof.
  assert (Hok : feeders_ok online_feeder_db).
  { split; cbn; repeat constructor. lia. }
  split; [exact Hok |].
  exact (proj1 (get_feeders_twice_writes_nothing online_feeder_db unreachable
                  (fun _ => second_after_noon) (fun _ => one_am_utc_plus_8) Hok)).
Defined.

(* ------------------------------------------------------------------ *)
(** ** A feeding that the device confirms *)
(* ------------------------------------------------------------------ *)

Lemma insert_or_replace_pair (fid : Z) (dt : isodate) (n : Z) (rows : list stat) :
  stat_of_pair fid dt (insert_or_replace FeederDateKey (mk_stat (Some fid) dt n) rows)
  = Some n.
Proof.
  unfold stat_of_pair, insert_or_replace, delete_where.
  cbn [stat_feeder_id date stat_conflict].
  rewrite find_app_hit.
  - reflexivity.
  - apply find_filter_gone. intros r Hr. now rewrite Hr.
  - cbn. now rewrite !Z.eqb_refl.
Qed.

Lemma insert_or_replace_other_pair (fid other : Z) (dt other_dt : isodate) (n : Z)
    (rows : list stat) :
  other <> fid \/ other_dt <> dt ->
  stat_of_pair other other_dt
    (insert_or_replace FeederDateKey (mk_stat (Some fid) dt n) rows)
  = stat_of_pair other other_dt rows.
Proof.
  intros Hne. unfold stat_of_pair, insert_or_replace, delete_where.
  cbn [stat_feeder_id date stat_conflict].
  rewrite find_app_miss.
  - rewrite find_filter_kept; [reflexivity |].
    intros r Hr. apply andb_true_iff in Hr. destruct Hr as [Hf Hd].
    apply option_Z_eqb_eq in Hf. apply Z.eqb_eq in Hd.
    apply negb_true_iff. apply andb_false_iff.
    destruct Hne as [Hne | Hne].
    + left. apply not_true_iff_false. intros E. apply option_Z_eqb_eq in E.
      congruence.
    + right. apply Z.eqb_neq. congruence.
  - cbn. apply andb_false_iff. destruct Hne as [Hne | Hne].
    + left. apply Z.eqb_neq. congruence.
    + right. apply Z.eqb_neq. congruence.
Qed.

(** X5: a feeding that the device confirms is recorded once.  Where
    [daily_stats] is keyed by feeder and date, when the dispense call to an
    active feeder comes back with 200, [trigger_feeding_by_feeder] answers
    200, appends one MANUAL_FEED row for that feeder with the amount asked
    for (50 when the form names none), weight 0 and no correlation token,
    raises the aggregate of that feeder and date by one (1 when it was
    absent), leaves the aggregate of every other feeder or date alone and
    does not write the registry. *)
Theorem trigger_success_records_feeding :
  forall (d : db) (fid : Z) (form_amount : option Z) (net : network) (c : clock)
         (feeder : feeder),
    layout d = FeederDateKey ->
    logs_ok d ->
    find (fun f => (feeder_id f =? fid) && is_active f) (feeders d) = Some feeder ->
    net (PostDispense (esp32_ip feeder) (esp32_port feeder)
           (or_default 50 form_amount) 5) = Response 200 ->
    let o := trigger_feeding_by_feeder d fid form_amount net c in
    status o = 200
    /\ answer o = FeedingTriggered fid (or_default 50 form_amount)
    /\ feeders (state o) = feeders d
    /\ (exists entry,
           logs (state o) = logs d ++ [entry]
           /\ id entry = logs_seq d + 1
           /\ ~ In (id entry) (map id (logs d))
           /\ log_feeder_id entry = fid
           /\ timestamp entry = now c
           /\ amount entry = or_default 50 form_amount
           /\ event_type entry = "MANUAL_FEED"
           /\ weight entry = Some 0 /\ feeding_id entry = None
           /\ image_path entry = None)
    /\ stat_of_pair fid (today c) (daily_stats (state o))
       = Some (or_default 0 (stat_of_pair fid (today c) (daily_stats d)) + 1)
    /\ (forall other other_dt, other <> fid \/ other_dt <> today c ->
          stat_of_pair other other_dt (daily_stats (state o))
          = stat_of_pair other other_dt (daily_stats d)).
Proof.
  intros d fid form_amount net c feeder Hlay Hok Hfind Hnet o. subst o.
  unfold trigger_feeding_by_feeder. rewrite Hfind, Hnet, Hlay.
  cbn [Z.eqb Pos.eqb upsert_by_feeder status answer state feeders logs daily_stats
       with_logs with_daily_stats].
  rewrite (autoincrement_next _ _ Hok).
  split; [reflexivity |]. split; [reflexivity |]. split; [reflexivity |].
  split; [| split].
  - eexists. split; [reflexivity |]. cbn.
    split; [reflexivity |]. split; [now apply increasing_keys_new |].
    repeat split.
  - rewrite insert_or_replace_pair. unfold stat_of_pair, coalesce_total.
    destruct (find _ (daily_stats d)); reflexivity.
  - intros other other_dt Hne. now apply insert_or_replace_other_pair.
Qed.

(** The theorem at two registered modules, the second of which is fed. *)
Lemma trigger_success_records_feeding_witness :
  layout two_feeders_db = FeederDateKey
  /\ logs_ok two_feeders_db
  /\ status (trigger_feeding_by_feeder two_feeders_db 2 None (answering 200) noon)
     = 200.
Proof.
  assert (Hok : logs_ok two_feeders_db) by (split; cbn; constructor).
  split; [reflexivity |]. split; [exact Hok |].
  exact (proj1 (trigger_success_records_feeding two_feeders_db 2 None
                  (answering 200) noon _ eq_refl Hok eq_refl eq_refl)).
Defined.

(** X6: the older route [trigger_feeding] sends the dispense command to the
    one device of [ESP32_IP] with a 5-second timeout and no probe.  On a
    200 it appends one MANUAL_FEED row for the default feeder 1 with weight
    0 and the source given (or "Dashboard") and upserts the aggregate by
    the date, which where the date is the key raises the count of the date
    by one; on any other status or a transport error it answers 500 and
    writes nothing.  In no case does it write the registry: a device that
    cannot be reached is not marked offline. *)
Theorem trigger_feeding_records_for_default_feeder :
  forall (d : db) (ESP32_IP : string * Z) (form_source : option string)
         (form_amount : option Z) (net : network) (c : clock),
    let call := PostDispense (fst ESP32_IP) (snd ESP32_IP)
                  (or_default 50 form_amount) 5 in
    let o := trigger_feeding d ESP32_IP form_source form_amount net c in
    calls o = [call]
    /\ feeders (state o) = feeders d
    /\ (net call = Response 200 ->
        status o = 200
        /\ (exists entry,
               logs (state o) = logs d ++ [entry]
               /\ log_feeder_id entry = 1 /\ weight entry = Some 0
               /\ source entry = or_default "Dashboard" form_source
               /\ amount entry = or_default 50 form_amount
               /\ event_type entry = "MANUAL_FEED" /\ timestamp entry = now c
               /\ (logs_ok d -> id entry = logs_seq d + 1))
        /\ daily_stats (state o)
           = upsert_by_date (layout d) (today c) (daily_stats d)
        /\ (layout d = DateKey ->
            stat_of_date (today c) (daily_stats (state o))
            = Some (or_default 0 (stat_of_date (today c) (daily_stats d)) + 1)))
    /\ (net call <> Response 200 -> status o = 500 /\ state o = d).
Proof.
  intros d ESP32_IP form_source form_amount net c call o. subst call o.
  unfold trigger_feeding.
  destruct (net _) as [code |] eqn:Hnet.
  - destruct (code =? 200) eqn:Hcode.
    + apply Z.eqb_eq in Hcode. subst code.
      split; [reflexivity |]. split; [reflexivity |]. split; [| congruence].
      intros _. split; [reflexivity |]. split; [| split].
      * eexists. split; [reflexivity |]. cbn. do 6 (split; [reflexivity |]).
        intros Hok. now apply autoincrement_next.
      * reflexivity.
      * intros Hlay. cbn [state daily_stats with_daily_stats]. rewrite Hlay.
        apply upsert_by_date_count.
    + split; [reflexivity |]. split; [reflexivity |]. split.
      * intros E. inv E. discriminate.
      * now split.
  - split; [reflexivity |]. split; [reflexivity |]. split; [discriminate |].
    now split.
Qed.

(* ------------------------------------------------------------------ *)
(** ** The daily aggregate against the log *)
(* ------------------------------------------------------------------ *)

Lemma countable_rows_on_snoc (dt : isodate) (rows : list log) (entry : log) :
  countable_rows_on dt (rows ++ [entry])
  = countable_rows_on dt rows
    + (if (DATE (timestamp entry) =? dt) && countable (event_type entry)
       then 1 else 0).
Proof.
  unfold countable_rows_on. rewrite filter_app, length_app. cbn [filter].
  destruct ((DATE (timestamp entry) =? dt) && countable (event_type entry));
    cbn [List.length]; lia.
Qed.

Lemma countable_rows_on_nonneg (dt : isodate) (rows : list log) :
  0 <= countable_rows_on dt rows.
Proof. unfold countable_rows_on. lia. Qed.

Lemma countable_rows_on_delete (dt : isodate) (p : log -> bool) (rows : list log) :
  countable_rows_on dt (delete_where p rows) <= countable_rows_on dt rows.
Proof.
  unfold countable_rows_on, delete_where.
  induction rows as [| r rows IH]; simpl; [lia |].
  destruct (p r); simpl;
    destruct ((DATE (timestamp r) =? dt) && countable (event_type r));
    simpl in *; lia.
Qed.

Lemma log_data_keeps_agreement (d : db) (form : log_form) (c : clock) :
  layout d = DateKey -> same_day c ->
  (forall dt, or_default 0 (stat_of_date dt (daily_stats d))
              = countable_rows_on dt (logs d)) ->
  forall dt,
    or_default 0 (stat_of_date dt (daily_stats (state (log_data d form c))))
    = countable_rows_on dt (logs (state (log_data d form c))).
Proof.
  intros Hlay Hday Hagree dt.
  destruct (log_data_logs d form c) as (e & El & Et & _ & Ee & _).
  rewrite El, countable_rows_on_snoc, Et, Ee, <- Hagree.
  unfold same_day in Hday. rewrite <- Hday.
  destruct (countable (or_default "UNKNOWN" (form_event form))) eqn:K.
  - rewrite (log_data_countable _ _ _ K), Hlay.
    destruct (today c =? dt) eqn:E.
    + apply Z.eqb_eq in E. subst dt. rewrite upsert_by_date_count. reflexivity.
    + apply Z.eqb_neq in E. rewrite upsert_by_date_other by congruence.
      cbn [andb]. lia.
  - rewrite (log_data_unclassified _ _ _ K), andb_false_r. lia.
Qed.

Lemma log_all_keeps_agreement (requests : list (log_form * clock)) :
  forall d,
    layout d = DateKey ->
    Forall (fun r => same_day (snd r)) requests ->
    (forall dt, or_default 0 (stat_of_date dt (daily_stats d))
                = countable_rows_on dt (logs d)) ->
    forall dt,
      or_default 0 (stat_of_date dt (daily_stats (log_all d requests)))
      = countable_rows_on dt (logs (log_all d requests)).
Proof.
  induction requests as [| [form c] requests IH]; intros d Hlay Hall Hagree.
  - exact Hagree.
  - inv Hall. change (log_all d ((form, c) :: requests))
      with (log_all (state (log_data d form c)) requests).
    apply IH; [now rewrite log_data_layout | assumption |].
    now apply log_data_keeps_agreement.
Qed.

(** X7: without deletions the daily aggregate counts the log.  In the
    tables of [app.py], after any sequence of [log_data] requests served
    from empty tables, each while [date.today()] is the date of
    [datetime.now()], the stored count of every date equals the number of
    log rows of that date with a countable kind (0 standing for no row).
    Deleting log rows afterwards can only leave the stored count at or
    above the number of such rows, and after [delete_all_logs] it counts
    rows that are all gone. *)
Theorem daily_count_matches_log_rows :
  forall (requests : list (log_form * clock)),
    Forall (fun r => same_day (snd r)) requests ->
    let d := log_all (empty_db DateKey) requests in
    (forall dt, or_default 0 (stat_of_date dt (daily_stats d))
                = countable_rows_on dt (logs d))
    /\ (forall log_id dt,
          countable_rows_on dt (logs (state (delete_log d log_id)))
          <= or_default 0 (stat_of_date dt (daily_stats (state (delete_log d log_id)))))
    /\ (forall dt,
          countable_rows_on dt (logs (state (delete_all_logs d))) = 0
          /\ or_default 0 (stat_of_date dt (daily_stats (state (delete_all_logs d))))
             = countable_rows_on dt (logs d)).
Proof.
  intros requests Hall d.
  assert (Hagree : forall dt, or_default 0 (stat_of_date dt (daily_stats d))
                              = countable_rows_on dt (logs d)).
  { apply log_all_keeps_agreement; [reflexivity | exact Hall |].
    intros dt. reflexivity. }
  split; [exact Hagree |]. split.
  - intros log_id dt. cbn [state delete_log logs daily_stats with_logs].
    rewrite Hagree. apply countable_rows_on_delete.
  - intros dt. split; [reflexivity |]. apply Hagree.
Qed.

(** The theorem at three feedings and one sensor report logged on
    2024-01-01. *)
Lemma daily_count_matches_log_rows_witness :
  Forall (fun r => same_day (snd r))
    [(feed_form "MANUAL_FEED" 50, noon); (feed_form "WEIGHT" 0, noon);
     (feed_form "BUTTON_FEED" 100, second_after_noon)]
  /\ or_default 0
       (stat_of_date day_2024_01_01
          (daily_stats
             (log_all (empty_db DateKey)
                [(feed_form "MANUAL_FEED" 50, noon); (feed_form "WEIGHT" 0, noon);
                 (feed_form "BUTTON_FEED" 100, second_after_noon)])))
     = 2.
Proof.
  assert (H : Forall (fun r => same_day (snd r))
                [(feed_form "MANUAL_FEED" 50, noon); (feed_form "WEIGHT" 0, noon);
                 (feed_form "BUTTON_FEED" 100, second_after_noon)]).
  { repeat constructor. }
  split; [exact H |].
  exact (proj1 (daily_count_matches_log_rows _ H) day_2024_01_01).
Defined.

(* ------------------------------------------------------------------ *)
(** ** Keys and rows along a run *)
(* ------------------------------------------------------------------ *)

Lemma add_feeder_frame (d : db) (data : add_feeder_json) (c : clock) :
  let d' := state (add_feeder d data c) in
  logs d' = logs d /\ logs_seq d' = logs_seq d /\ daily_stats d' = daily_stats d
  /\ layout d' = layout d
  /\ (feeders d' = feeders d \/ exists f, feeders d' = feeders d ++ [f]).
Proof.
  destruct (truthy_cases (name data)) as [Hn | [nm [Hname Hnm]]].
  { rewrite add_feeder_missing by (now left). cbn. tauto. }
  destruct (truthy_cases (ip_address data)) as [Ha | [address [Haddress Haddr]]].
  { rewrite add_feeder_missing by (now right). cbn. tauto. }
  destruct (parse_address address) as [[host port] | e] eqn:Hp.
  2: { rewrite (add_feeder_unparsed d data c nm address Hname Hnm Haddress Haddr e Hp).
       cbn. tauto. }
  destruct (invalid_ip host) as [[] | e] eqn:Hi.
  - rewrite (add_feeder_invalid d data c nm address Hname Hnm Haddress Haddr
               host port Hp Hi). cbn. tauto.
  - destruct (existsb (fun f => String.eqb (esp32_ip f) host && is_active f)
                (feeders d)) eqn:Hdup.
    + rewrite (add_feeder_duplicate d data c nm address Hname Hnm Haddress Haddr
                 host port Hp Hi Hdup). cbn. tauto.
    + destruct (sqlite_integer port
                && sqlite_integer (or_default 5000 (json_max_capacity_g data)))
        eqn:Hfit.
      2: { rewrite (add_feeder_overflow d data c nm address Hname Hnm Haddress Haddr
                      host port Hp Hi Hdup Hfit). cbn. tauto. }
      rewrite (add_feeder_fresh d data c nm address Hname Hnm Haddress Haddr
                 host port Hp Hi Hdup Hfit). cbn.
      repeat split. right. eexists. reflexivity.
  - rewrite (add_feeder_invalid_raise d data c nm address Hname Hnm Haddress Haddr
               host port Hp e Hi). cbn. tauto.
Qed.

(** One request and the keys of [logs]: the counter does not go down, and
    a row of the table afterwards has the key of a row before or a key
    above the old counter. *)
Lemma app_step_log_keys (d d' : db) :
  logs_ok d -> app_step d d' ->
  logs_seq d <= logs_seq d'
  /\ (forall l, In l (logs d') ->
        In (id l) (map id (logs d)) \/ logs_seq d < id l).
Proof.
  intros Hok Hstep.
  assert (Hsame : forall x : db, logs x = logs d -> logs_seq x = logs_seq d ->
            logs_seq d <= logs_seq x
            /\ (forall l, In l (logs x) ->
                  In (id l) (map id (logs d)) \/ logs_seq d < id l)).
  { intros x El Es. rewrite El, Es. split; [lia |].
    intros l Hl. left. now apply in_map. }
  assert (Happend : forall (x : db) e, logs x = logs d ++ [e] ->
            id e = logs_seq d + 1 -> logs_seq x = logs_seq d + 1 ->
            logs_seq d <= logs_seq x
            /\ (forall l, In l (logs x) ->
                  In (id l) (map id (logs d)) \/ logs_seq d < id l)).
  { intros x e El Ee Es. rewrite El, Es. split; [lia |].
    intros l Hl. apply in_app_or in Hl. destruct Hl as [Hl | [<- | []]].
    - left. now apply in_map.
    - right. lia. }
  destruct Hstep.
  - destruct (get_feeders_frame d net clock_at) as (L & Q & _). now apply Hsame.
  - destruct (add_feeder_frame d data c) as (L & Q & _). now apply Hsame.
  - apply Hsame; unfold delete_feeder; destruct (find _ (feeders d)); reflexivity.
  - unfold trigger_feeding_by_feeder.
    destruct (find _ (feeders d)) as [feeder |]; [| now apply Hsame].
    destruct (net _) as [code |]; [| now apply Hsame].
    destruct (code =? 200); [| now apply Hsame].
    destruct (upsert_by_feeder _ _ _ _); [| now apply Hsame].
    eapply Happend; cbn [state logs logs_seq with_logs with_daily_stats id];
      [reflexivity | |]; now rewrite (autoincrement_next _ _ Hok).
  - unfold trigger_feeding. destruct (net _) as [code |]; [| now apply Hsame].
    destruct (code =? 200); [| now apply Hsame].
    eapply Happend; cbn [state logs logs_seq with_logs with_daily_stats id];
      [reflexivity | |]; now rewrite (autoincrement_next _ _ Hok).
  - destruct (log_data_unfold d form c Hok) as (L & Q & _).
    eapply Happend; [exact L | reflexivity | exact Q].
  - now apply Hsame.
  - cbn [state delete_log logs logs_seq with_logs]. split; [lia |].
    intros l Hl. apply delete_where_In in Hl. left. now apply in_map.
  - cbn [state delete_all_logs logs logs_seq with_logs]. split; [lia |].
    intros l [].
  - destruct (upload_photo_frame d x_feeding_id x_capture_type stamp stored)
      as (_ & _ & _ & _ & Q & I).
    rewrite Q. split; [lia |]. intros l Hl. left. rewrite <- I. now apply in_map.
Qed.

Lemma app_steps_reachable (d d' : db) :
  reachable d -> app_steps d d' -> reachable d'.
Proof.
  intros Hd Hsteps. induction Hsteps as [| y z Hstep Hsteps IH].
  - exact Hd.
  - now apply reachable_step with (d := y).
Qed.

(** X8: the key of a log row is never given out again.  From a state the
    handlers can reach, after any further requests the counter of [logs]
    is not lower, and every row then in the table whose key is at most the
    old counter has the key of a row that was in the table: a key that was
    deleted, or used and rolled over by [delete_all_logs], does not come
    back on a new row. *)
Theorem log_keys_are_not_reused :
  forall d d' : db,
    reachable d -> app_steps d d' ->
    logs_seq d <= logs_seq d'
    /\ (forall l, In l (logs d') -> id l <= logs_seq d ->
          In (id l) (map id (logs d)))
    /\ NoDup (map id (logs d')).
Proof.
  intros d d' Hd Hsteps.
  split; [| split].
  - induction Hsteps as [| y z Hstep Hsteps IH]; [lia |].
    destruct (reachable_invariant y (app_steps_reachable d y Hd Hsteps))
      as (_ & Hok & _).
    destruct (app_step_log_keys y z Hok Hstep) as [Hle _]. lia.
  - induction Hsteps as [| y z Hstep Hsteps IH].
    + intros l Hl _. now apply in_map.
    + assert (Hseq : logs_seq d <= logs_seq y).
      { clear IH Hstep. induction Hsteps as [| u v Huv Hsteps IH]; [lia |].
        destruct (reachable_invariant u (app_steps_reachable d u Hd Hsteps))
          as (_ & Hok & _).
        destruct (app_step_log_keys u v Hok Huv) as [Hle _]. lia. }
      destruct (reachable_invariant y (app_steps_reachable d y Hd Hsteps))
        as (_ & Hok & _).
      destruct (app_step_log_keys y z Hok Hstep) as [_ Hkeys].
      intros l Hl Hold. destruct (Hkeys l Hl) as [Hin | Hnew]; [| lia].
      apply in_map_iff in Hin. destruct Hin as [l0 [E Hl0]].
      rewrite <- E. apply IH; [exact Hl0 | lia].
  - destruct (reachable_invariant d' (app_steps_reachable d d' Hd Hsteps))
      as (_ & Hok & _).
    now apply increasing_keys_NoDup with (seq := logs_seq d').
Qed.

(** The theorem after two logged feedings, the first of which is deleted
    before a third is logged. *)
Lemma log_keys_are_not_reused_witness :
  reachable photo_db
  /\ logs_seq photo_db
     <= logs_seq (state (log_data (state (delete_log photo_db 1))
                           (feed_form "MANUAL_FEED" 50) second_after_noon)).
Proof.
  assert (Hreach : reachable photo_db).
  { unfold photo_db, log_all. cbn [fold_left fst snd].
    eapply reachable_step; [| apply step_log_data].
    eapply reachable_step; [| apply step_log_data].
    apply reachable_empty. }
  split; [exact Hreach |].
  refine (proj1 (log_keys_are_not_reused photo_db _ Hreach _)).
  eapply Relation_Operators.rtn1_trans; [apply step_log_data |].
  eapply Relation_Operators.rtn1_trans; [apply step_delete_log |].
  apply Relation_Operators.rtn1_refl.
Defined.

Lemma modules_kept_same (d d' : db) :
  feeders d' = feeders d -> modules_kept d d'.
Proof.
  intros E i f Hi. exists f. rewrite E. repeat split; auto.
Qed.

Lemma modules_kept_trans (a b c : db) :
  modules_kept a b -> modules_kept b c -> modules_kept a c.
Proof.
  intros Hab Hbc i f Hi.
  destruct (Hab i f Hi) as (g & Hg & (I1 & N1 & H1 & P1 & C1) & A1).
  destruct (Hbc i g Hg) as (h & Hh & (I2 & N2 & H2 & P2 & C2) & A2).
  exists h. split; [exact Hh |]. split.
  - repeat split; congruence.
  - auto.
Qed.

Lemma modules_kept_update (d d' : db) (p : feeder -> bool) (g : feeder -> feeder) :
  feeders d' = update_where p g (feeders d) ->
  (forall f, same_module f (g f) /\ (is_active (g f) = true -> is_active f = true)) ->
  modules_kept d d'.
Proof.
  intros E Hg i f Hi. rewrite E, update_where_nth, Hi. cbn.
  eexists. split; [reflexivity |].
  destruct (p f); [apply Hg |]. repeat split; auto.
Qed.

Lemma modules_kept_append (d d' : db) (f : feeder) :
  feeders d' = feeders d ++ [f] -> modules_kept d d'.
Proof.
  intros E i g Hi. exists g. rewrite E. split.
  - rewrite nth_error_app1; [exact Hi |].
    apply nth_error_Some. congruence.
  - repeat split; auto.
Qed.

Lemma stamp_same_module (online : bool) (c : clock) (f : feeder) :
  same_module f ((if online then stamp_online c else stamp_offline c) f)
  /\ (is_active ((if online then stamp_online c else stamp_offline c) f) = true ->
      is_active f = true).
Proof. destruct online; cbn; repeat split; auto. Qed.

Lemma reconcile_all_modules_kept (net : network) (clock_at : Z -> clock)
    (selected : list feeder) :
  forall d, modules_kept d (fold_left (reconcile net clock_at) selected d).
Proof.
  induction selected as [| f selected IH]; intros d; simpl.
  - now apply modules_kept_same.
  - eapply modules_kept_trans; [| apply IH].
    unfold reconcile. destruct (Bool.eqb (verdict net f) (is_online f)).
    + now apply modules_kept_same.
    + eapply modules_kept_update; [reflexivity |].
      intros g. apply stamp_same_module.
Qed.

Lemma app_step_modules_kept (d d' : db) : app_step d d' -> modules_kept d d'.
Proof.
  intros Hstep. destruct Hstep.
  - rewrite get_feeders_unfold. cbn [state]. apply reconcile_all_modules_kept.
  - destruct (add_feeder_frame d data c) as (_ & _ & _ & _ & [E | [f E]]).
    + now apply modules_kept_same.
    + now apply modules_kept_append with (f := f).
  - eapply modules_kept_update; [apply delete_feeder_rows |].
    intros f. cbn. repeat split; auto. discriminate.
  - unfold trigger_feeding_by_feeder.
    destruct (find _ (feeders d)) as [feeder |]; [| now apply modules_kept_same].
    destruct (net _) as [code |].
    + destruct (code =? 200); [| now apply modules_kept_same].
      destruct (upsert_by_feeder _ _ _ _); now apply modules_kept_same.
    + eapply modules_kept_update; [reflexivity |].
      intros g. apply (stamp_same_module false).
  - unfold trigger_feeding. destruct (net _) as [code |];
      [destruct (code =? 200) |]; now apply modules_kept_same.
  - apply modules_kept_same. unfold log_data.
    now destruct (countable (or_default "UNKNOWN" (form_event form))).
  - now apply modules_kept_same.
  - now apply modules_kept_same.
  - now apply modules_kept_same.
  - apply modules_kept_same.
    now destruct (upload_photo_frame d x_feeding_id x_capture_type stamp stored).
Qed.

(** X9: no handler of [app.py] takes a module out of the registry or
    changes which device it is.  After any requests, every row of [feeders] is still in
    its place with the id, name, host, port and creation time it had; and
    no request brings a deleted module back: a row that is active
    afterwards was active before. *)
Theorem modules_are_kept :
  forall d d' : db,
    app_steps d d' ->
    modules_kept d d'
    /\ (List.length (feeders d) <= List.length (feeders d'))%nat.
Proof.
  intros d d' Hsteps.
  assert (Hkept : modules_kept d d').
  { induction Hsteps as [| y z Hstep Hsteps IH].
    - now apply modules_kept_same.
    - eapply modules_kept_trans; [exact IH | now apply app_step_modules_kept]. }
  split; [exact Hkept |].
  destruct (feeders d) as [| f fs] eqn:E; [cbn; lia |].
  assert (Hlast : exists g, nth_error (feeders d) (List.length fs) = Some g).
  { rewrite E. destruct (nth_error (f :: fs) (List.length fs)) eqn:N; [eauto |].
    apply nth_error_None in N. cbn in N. lia. }
  destruct Hlast as [g Hg]. destruct (Hkept _ _ Hg) as (g' & Hg' & _).
  assert (List.length fs < List.length (feeders d'))%nat
    by (apply nth_error_Some; congruence).
  cbn. lia.
Qed.

(** The theorem at the registered module, deleted a second after noon. *)
Lemma modules_are_kept_witness :
  app_steps one_feeder_db (state (delete_feeder one_feeder_db 1 second_after_noon))
  /\ modules_kept one_feeder_db
       (state (delete_feeder one_feeder_db 1 second_after_noon)).
Proof.
  assert (Hsteps : app_steps one_feeder_db
                     (state (delete_feeder one_feeder_db 1 second_after_noon))).
  { eapply Relation_Operators.rtn1_trans; [apply step_delete_feeder |].
    apply Relation_Operators.rtn1_refl. }
  split; [exact Hsteps |].
  exact (proj1 (modules_are_kept _ _ Hsteps)).
Defined.

(** X10: keys stay unique.  In every state the handlers reach from freshly
    created tables no two modules share an id, no two log rows share an id,
    no key is above the counter of its table, and [daily_stats] holds at
    most one row per date, or per feeder and date where the table has the
    feeder column. *)
Theorem reachable_keys_unique :
  forall d : db,
    reachable d ->
    NoDup (map feeder_id (feeders d))
    /\ NoDup (map id (logs d))
    /\ (forall f, In f (feeders d) -> feeder_id f <= feeders_seq d)
    /\ (forall l, In l (logs d) -> id l <= logs_seq d)
    /\ (forall s s', In s (daily_stats d) -> In s' (daily_stats d) ->
          date s = date s' ->
          (layout d = FeederDateKey -> stat_feeder_id s = stat_feeder_id s') ->
          s = s').
Proof.
  intros d Hreach.
  destruct (reachable_invariant d Hreach) as ([Hf _] & Hl & Hs).
  split; [now apply increasing_keys_NoDup with (seq := feeders_seq d) |].
  split; [now apply increasing_keys_NoDup with (seq := logs_seq d) |].
  split; [| split].
  - intros f Hin. destruct Hf as [_ Hb]. rewrite Forall_forall in Hb.
    apply (Hb (feeder_id f)). now apply in_map.
  - intros l Hin. destruct Hl as [_ Hb]. rewrite Forall_forall in Hb.
    apply (Hb (id l)). now apply in_map.
  - intros s s' Hin Hin' Hdate Hfeeder.
    apply (NoDup_map_same_key (stat_key (layout d)) (daily_stats d));
      try assumption.
    destruct (layout d); cbn; [now rewrite Hdate |].
    now rewrite Hdate, Hfeeder.
Qed.

(** The theorem at the state with two modules and one feeding. *)
Lemma reachable_keys_unique_witness :
  reachable second_fed_db /\ NoDup (map id (logs second_fed_db)).
Proof.
  split; [exact second_fed_db_reachable |].
  exact (proj1 (proj2 (reachable_keys_unique second_fed_db second_fed_db_reachable))).
Defined.

(* ------------------------------------------------------------------ *)
(** ** [set_schedule]: the schedule sent to a device *)
(* ------------------------------------------------------------------ *)

Lemma span_append (p : ascii -> bool) (h rest : string) :
  all_chars p h = true ->
  match rest with
  | String c _ => p c = false
  | EmptyString => True
  end ->
  span p (String.append h rest) = (h, rest).
Proof.
  intros Hh Hrest. induction h as [| c h IH]; cbn [String.append span].
  - destruct rest as [| c r]; [reflexivity |]. cbn [span]. now rewrite Hrest.
  - cbn [all_chars] in Hh. apply andb_true_iff in Hh. destruct Hh as [Hc Hh].
    now rewrite Hc, (IH Hh).
Qed.

Lemma lstrip_append (ws rest : string) :
  all_chars is_space ws = true ->
  match rest with
  | String c _ => is_space c = false
  | EmptyString => True
  end ->
  lstrip (String.append ws rest) = rest.
Proof.
  intros Hws Hrest. induction ws as [| c ws IH]; cbn [String.append lstrip].
  - destruct rest as [| c r]; [reflexivity |]. cbn [lstrip]. now rewrite Hrest.
  - cbn [all_chars] in Hws. apply andb_true_iff in Hws. destruct Hws as [Hc Hws].
    now rewrite Hc, (IH Hws).
Qed.

Lemma is_space_not_decimal (c : ascii) :
  is_space c = true -> is_decimal c = false.
Proof.
  destruct c as [[] [] [] [] [] [] [] []]; vm_compute; intros H;
    first [discriminate H | reflexivity].
Qed.

(** What the pattern [(\d+):(\d+)\s*(AM|PM)] accepts, and its groups. *)
Lemma match_time_accepts (h m ws period rest : string) :
  decimal_text h = true -> decimal_text m = true ->
  all_chars is_space ws = true -> period = "AM" \/ period = "PM" ->
  match_time (time_text h m ws period rest) = Some (h, m, period).
Proof.
  intros Hh Hm Hws Hp. unfold match_time, time_text.
  destruct h as [| ch h']; [discriminate |].
  destruct m as [| cm m']; [discriminate |].
  unfold decimal_text in Hh, Hm.
  rewrite (span_append is_decimal (String ch h') _ Hh) by reflexivity.
  cbn [String.append].
  change (String cm (String.append m' ?x)) with (String.append (String cm m') x).
  assert (Hnext :
    match String.append ws (String.append period rest) with
    | String c _ => is_decimal c = false
    | EmptyString => True
    end).
  { destruct ws as [| c ws]; cbn [String.append].
    - destruct Hp; subst period; reflexivity.
    - cbn [all_chars] in Hws. apply andb_true_iff in Hws.
      now apply is_space_not_decimal. }
  rewrite (span_append is_decimal (String cm m') _ Hm Hnext).
  rewrite (lstrip_append ws) by
    (try assumption; destruct Hp; subst period; reflexivity).
  destruct Hp; subst period; reflexivity.
Qed.

(** The 24-hour value of a time on the clock face. *)
Lemma to_24_hour_clock_face (hour12 : Z) (period : string) :
  period = "AM" \/ period = "PM" -> 1 <= hour12 <= 12 ->
  0 <= to_24_hour hour12 period <= 23
  /\ to_24_hour hour12 period mod 12 = hour12 mod 12
  /\ (to_24_hour hour12 period < 12 <-> period = "AM").
Proof.
  intros Hp Hh. unfold to_24_hour.
  destruct Hp; subst period; cbn [String.eqb Ascii.eqb Bool.eqb andb];
    destruct (hour12 =? 12) eqn:E; cbn [negb];
    [apply Z.eqb_eq in E | apply Z.eqb_neq in E
     | apply Z.eqb_eq in E | apply Z.eqb_neq in E].
  - subst hour12. repeat split; try lia; reflexivity.
  - repeat split; try lia.
  - subst hour12. repeat split; try lia; try reflexivity; try discriminate.
  - split; [lia |]. split.
    + replace (hour12 + 12) with (hour12 + 1 * 12) by lia.
      apply Z.mod_add. lia.
    + split; [lia | discriminate].
Qed.

Lemma find_deactivated (fid : Z) (c : clock) (fs : list feeder) :
  find (fun f => feeder_id f =? fid)
    (update_where (fun g => feeder_id g =? fid) (deactivate c) fs)
  = option_map (deactivate c) (find (fun f => feeder_id f =? fid) fs).
Proof.
  induction fs as [| f fs IH]; cbn; [reflexivity |].
  destruct (feeder_id f =? fid) eqn:E; cbn; rewrite E; [reflexivity | exact IH].
Qed.

(** The handler up to its device call, for a request it reads and a
    module it finds. *)
Lemma set_schedule_reads (d : db) (fid : Z) (h m ws period rest : string)
    (feeder : feeder) :
  digits h -> digits m -> all_chars is_space ws = true ->
  period = "AM" \/ period = "PM" ->
  NoDup (map feeder_id (feeders d)) -> In feeder (feeders d) ->
  feeder_id feeder = fid ->
  match_time (time_text h m ws period rest) = Some (h, m, period)
  /\ int h = Some (decimal_value 0 h) /\ int m = Some (decimal_value 0 m)
  /\ find (fun f => feeder_id f =? fid) (feeders d) = Some feeder.
Proof.
  intros [Hh _] [Hm _] Hws Hp Hnd Hin Hid. subst fid.
  split; [now apply match_time_accepts |].
  split; [now apply int_decimal_text |].
  split; [now apply int_decimal_text |].
  now apply find_by_id_present.
Qed.

Ltac read_schedule H Hfid :=
  destruct H as (Hmatch & Hinth & Hintm & Hfind);
  unfold set_schedule, schedule_request;
  cbn [time json_feeder_id grams days or_default];
  rewrite Hmatch, Hinth, Hintm, Hfid, Hfind; cbn [negb].

(** X11: [set_schedule] turns a time on the clock face into a 24-hour
    time.  For a text "h:m AM" or "h:m PM" with h from 1 to 12 (any white
    space before the period, anything after it) and a module of the
    registry, the handler makes exactly one call, to the host and port of
    that module, whatever the device then answers; the hour it sends is
    between 0 and 23, equals h modulo 12, and is below 12 exactly for AM
    (so 12 AM is 0 and 12 PM is 12); the minute and the amount are those of
    the request. *)
Theorem set_schedule_converts_clock_time :
  forall (d : db) (schedules : list schedule) (seq fid : Z)
         (amount : option Z) (on_days : list Z)
         (h m ws period rest : string) (reply : http_reply) (feeder : feeder),
    digits h -> digits m -> all_chars is_space ws = true ->
    period = "AM" \/ period = "PM" ->
    1 <= decimal_value 0 h <= 12 ->
    sqlite_integer fid = true ->
    NoDup (map feeder_id (feeders d)) -> In feeder (feeders d) ->
    feeder_id feeder = fid ->
    exists call,
      schedule_calls
        (set_schedule d schedules seq
           (schedule_request fid amount (time_text h m ws period rest) on_days)
           reply) = [call]
      /\ call_host call = esp32_ip feeder /\ call_port call = esp32_port feeder
      /\ call_minute call = decimal_value 0 m
      /\ call_amount call = amount
      /\ 0 <= call_hour call <= 23
      /\ call_hour call mod 12 = decimal_value 0 h mod 12
      /\ (call_hour call < 12 <-> period = "AM").
Proof.
  intros d schedules seq fid amount on_days h m ws period rest reply feeder
    Hh Hm Hws Hp Hrange Hfid Hnd Hin Hid.
  pose proof (set_schedule_reads d fid h m ws period rest feeder
                Hh Hm Hws Hp Hnd Hin Hid) as H.
  read_schedule H Hfid.
  destruct (to_24_hour_clock_face _ _ Hp Hrange) as (R & M & P).
  eexists. split.
  - destruct reply as [code |];
      [destruct (code =? 200);
       [destruct amount as [g |]; [destruct (_ && _) |] |] |];
      cbn [schedule_calls]; reflexivity.
  - cbn [call_host call_port call_minute call_amount call_hour].
    split; [reflexivity |]. split; [reflexivity |]. split; [reflexivity |].
    split; [reflexivity |]. split; [exact R |]. split; [exact M | exact P].
Qed.

(** The theorem at "12:30 AM" for the registered module, whose device
    cannot be reached. *)
Lemma set_schedule_converts_clock_time_witness :
  exists call,
    schedule_calls
      (set_schedule one_feeder_db [] 0
         (schedule_request 1 (Some 50) (time_text "12" "30" " " "AM" "") [1; 3])
         RequestException) = [call]
    /\ call_host call = "192.168.1.10" /\ call_port call = 80
    /\ call_minute call = 30
    /\ call_amount call = Some 50
    /\ 0 <= call_hour call <= 23
    /\ call_hour call mod 12 = 12 mod 12
    /\ (call_hour call < 12 <-> "AM" = "AM").
Proof.
  apply (set_schedule_converts_clock_time one_feeder_db [] 0 1 (Some 50) [1; 3]
           "12" "30" " " "AM" "" RequestException module_1).
  - split; [reflexivity | cbn; lia].
  - split; [reflexivity | cbn; lia].
  - reflexivity.
  - now left.
  - replace (decimal_value 0 "12") with 12 by reflexivity. lia.
  - reflexivity.
  - cbn. constructor; [intros [] | constructor].
  - now left.
  - reflexivity.
Defined.

(** X12: [set_schedule] checks no range.  Whatever numbers the text has
    for hour and minute (within the 64 bits of an SQLite INTEGER), the call
    goes out: with PM the hour sent is twelve
    more than written (unless 12 is written), with AM it is as written
    (0 for 12), and the minute is as written.  When the device answers 200
    and the request has an amount, the answer is 200 and a row with that
    hour and minute is stored under a key above every stored key. *)
Theorem set_schedule_checks_no_range :
  forall (d : db) (schedules : list schedule) (seq fid amount : Z)
         (on_days : list Z) (h m ws period rest : string) (feeder : feeder),
    digits h -> digits m -> all_chars is_space ws = true ->
    period = "AM" \/ period = "PM" ->
    sqlite_integer fid = true ->
    sqlite_integer (decimal_value 0 h + 12) = true ->
    sqlite_integer (decimal_value 0 m) = true ->
    sqlite_integer amount = true ->
    NoDup (map feeder_id (feeders d)) -> In feeder (feeders d) ->
    feeder_id feeder = fid ->
    exists sent entry,
      sent = (if String.eqb period "PM"
              then (if decimal_value 0 h =? 12 then 12 else decimal_value 0 h + 12)
              else (if decimal_value 0 h =? 12 then 0 else decimal_value 0 h))
      /\ set_schedule d schedules seq
           (schedule_request fid (Some amount) (time_text h m ws period rest)
              on_days)
           (Response 200)
         = mk_schedule_outcome 200 NoError (schedules ++ [entry])
             (schedule_id entry)
             [mk_schedule_call (esp32_ip feeder) (esp32_port feeder) 0 sent
                (decimal_value 0 m) (Some amount) 1 5]
      /\ schedule_feeder_id entry = fid
      /\ hour entry = sent /\ minute entry = decimal_value 0 m
      /\ amount_g entry = amount /\ is_enabled entry = true
      /\ seq < schedule_id entry
      /\ Forall (fun s => schedule_id s < schedule_id entry) schedules.
Proof.
  intros d schedules seq fid amount on_days h m ws period rest feeder
    Hh Hm Hws Hp Hfid Hhour Hminute Hamount Hnd Hin Hid.
  pose proof (set_schedule_reads d fid h m ws period rest feeder
                Hh Hm Hws Hp Hnd Hin Hid) as H.
  read_schedule H Hfid.
  assert (Hnonneg : 0 <= decimal_value 0 h)
    by (apply decimal_value_nonneg; [lia |];
        destruct Hh as [Hh _]; destruct h; [discriminate | exact Hh]).
  assert (Hsent : to_24_hour (decimal_value 0 h) period
                  = (if String.eqb period "PM"
                     then (if decimal_value 0 h =? 12 then 12
                           else decimal_value 0 h + 12)
                     else (if decimal_value 0 h =? 12 then 0
                           else decimal_value 0 h))).
  { unfold to_24_hour.
    destruct Hp; subst period; cbn [String.eqb Ascii.eqb Bool.eqb andb];
      destruct (decimal_value 0 h =? 12) eqn:E; cbn [negb]; try reflexivity.
    now apply Z.eqb_eq in E. }
  assert (Hbound : sqlite_integer (to_24_hour (decimal_value 0 h) period) = true).
  { rewrite Hsent. unfold sqlite_integer in *.
    apply andb_true_iff in Hhour. destruct Hhour as [_ Hhi].
    apply Z.leb_le in Hhi. apply andb_true_iff.
    destruct (String.eqb period "PM"), (decimal_value 0 h =? 12);
      split; try apply Z.leb_le; lia. }
  cbn [Z.eqb Pos.eqb]. rewrite Hbound, Hminute, Hamount. cbn [andb].
  rewrite <- Hsent.
  exists (to_24_hour (decimal_value 0 h) period).
  exists (mk_schedule (autoincrement seq (map schedule_id schedules)) fid
            (String.append "Schedule "
               (String.append (str (to_24_hour (decimal_value 0 h) period))
                  (String.append ":" (format_02d (decimal_value 0 m)))))
            (to_24_hour (decimal_value 0 h) period) (decimal_value 0 m) amount
            (String.concat "," (map str on_days)) true).
  split; [reflexivity |]. split; [reflexivity |].
  cbn [schedule_feeder_id hour minute amount_g is_enabled schedule_id].
  repeat (split; [reflexivity |]).
  unfold autoincrement.
  assert (Hmax : forall ids : list Z,
             match MAX ids with
             | Some mx => Forall (fun i => i <= mx) ids
             | None => ids = []
             end).
  { induction ids as [| i ids IH]; cbn; [reflexivity |].
    destruct (MAX ids) as [mx |].
    - constructor; [lia |]. eapply Forall_impl; [| exact IH]. cbn. intros; lia.
    - subst ids. constructor; [lia | constructor]. }
  specialize (Hmax (map schedule_id schedules)).
  destruct (MAX (map schedule_id schedules)) as [mx |].
  - split; [lia |]. rewrite Forall_forall in Hmax. apply Forall_forall.
    intros s Hs. specialize (Hmax (schedule_id s) (in_map schedule_id _ _ Hs)).
    cbn beta in Hmax. lia.
  - split; [lia |]. destruct schedules; [constructor | discriminate].
Qed.

(** The theorem at "99:75 PM": hour 111 and minute 75 are sent and stored. *)
Lemma set_schedule_checks_no_range_witness :
  exists sent entry,
    sent = 111
    /\ set_schedule one_feeder_db [] 0
         (schedule_request 1 (Some 50) (time_text "99" "75" " " "PM" "") [])
         (Response 200)
       = mk_schedule_outcome 200 NoError ([] ++ [entry]) (schedule_id entry)
           [mk_schedule_call "192.168.1.10" 80 0 sent 75 (Some 50) 1 5]
    /\ schedule_feeder_id entry = 1
    /\ hour entry = sent /\ minute entry = 75
    /\ amount_g entry = 50 /\ is_enabled entry = true
    /\ 0 < schedule_id entry
    /\ Forall (fun s => schedule_id s < schedule_id entry) [].
Proof.
  apply (set_schedule_checks_no_range one_feeder_db [] 0 1 50 []
           "99" "75" " " "PM" "" module_1).
  - split; [reflexivity | cbn; lia].
  - split; [reflexivity | cbn; lia].
  - reflexivity.
  - now right.
  - reflexivity.
  - reflexivity.
  - reflexivity.
  - reflexivity.
  - cbn. constructor; [intros [] | constructor].
  - now left.
  - reflexivity.
Defined.

(** X13: what [set_schedule] can answer and leave behind.  The status is
    one of 200, 400, 404, 500 and 503.  A row is stored only with status
    200, which takes a device that answered 200 and a request with an
    amount; with any other status the table and its counter are as before.
    With 400 and 404 no device was called, with 503 one was; and a call, if
    any, is the only one, to the host and port of the row of [feeders] with
    the requested id (1 when the request names none), for slot 0, enabled,
    with a 5-second timeout. *)
Theorem set_schedule_stores_only_on_success :
  forall (d : db) (schedules : list schedule) (seq : Z) (data : schedule_json)
         (reply : http_reply),
    In (schedule_status (set_schedule d schedules seq data reply))
      [200; 400; 404; 500; 503]
    /\ (schedule_status (set_schedule d schedules seq data reply) = 200 ->
          reply = Response 200 /\ grams data <> None
          /\ exists entry,
               schedules_after (set_schedule d schedules seq data reply)
               = schedules ++ [entry])
    /\ (schedule_status (set_schedule d schedules seq data reply) <> 200 ->
          schedules_after (set_schedule d schedules seq data reply) = schedules
          /\ schedules_seq_after (set_schedule d schedules seq data reply) = seq)
    /\ (schedule_status (set_schedule d schedules seq data reply) = 400
        \/ schedule_status (set_schedule d schedules seq data reply) = 404 ->
          schedule_calls (set_schedule d schedules seq data reply) = [])
    /\ (schedule_status (set_schedule d schedules seq data reply) = 503 ->
          schedule_calls (set_schedule d schedules seq data reply) <> [])
    /\ (forall call,
          In call (schedule_calls (set_schedule d schedules seq data reply)) ->
          schedule_calls (set_schedule d schedules seq data reply) = [call]
          /\ call_index call = 0 /\ call_enabled call = 1
          /\ call_timeout call = 5
          /\ exists feeder,
               In feeder (feeders d)
               /\ feeder_id feeder = or_default 1 (json_feeder_id data)
               /\ call_host call = esp32_ip feeder
               /\ call_port call = esp32_port feeder).
Proof.
  intros d schedules seq data reply. unfold set_schedule.
  assert (Hcall : forall feeder hr mn (call : schedule_call),
             find (fun f => feeder_id f =? or_default 1 (json_feeder_id data))
               (feeders d) = Some feeder ->
             In call [mk_schedule_call (esp32_ip feeder) (esp32_port feeder) 0
                        hr mn (grams data) 1 5] ->
             [mk_schedule_call (esp32_ip feeder) (esp32_port feeder) 0
                hr mn (grams data) 1 5] = [call]
             /\ call_index call = 0 /\ call_enabled call = 1
             /\ call_timeout call = 5
             /\ exists feeder,
                  In feeder (feeders d)
                  /\ feeder_id feeder = or_default 1 (json_feeder_id data)
                  /\ call_host call = esp32_ip feeder
                  /\ call_port call = esp32_port feeder).
  { intros feeder hr mn call Hfind [<- | []].
    apply find_some in Hfind. destruct Hfind as [Hin Hid].
    apply Z.eqb_eq in Hid.
    repeat (split; [reflexivity |]). exists feeder. now repeat split. }
  destruct (time data) as [time_str |].
  2: { cbn. repeat split; try tauto; try discriminate; try lia;
         intros H; try contradiction; destruct H; discriminate. }
  destruct (match_time time_str) as [[[h m] period] |].
  2: { cbn. repeat split; try tauto; try discriminate; try lia;
         intros H; try contradiction; destruct H; discriminate. }
  destruct (int h) as [hour12 |].
  2: { cbn. repeat split; try tauto; try discriminate; try lia;
         intros H; try contradiction; destruct H; discriminate. }
  destruct (int m) as [mn |].
  2: { cbn. repeat split; try tauto; try discriminate; try lia;
         intros H; try contradiction; destruct H; discriminate. }
  destruct (negb (sqlite_integer (or_default 1 (json_feeder_id data)))).
  { cbn. repeat split; try tauto; try discriminate; try lia;
      intros H; try contradiction; destruct H; discriminate. }
  destruct (find _ (feeders d)) as [feeder |] eqn:Hfind.
  2: { cbn. repeat split; try tauto; try discriminate; try lia;
         intros H; try contradiction; destruct H; discriminate. }
  specialize (Hcall feeder (to_24_hour hour12 period) mn).
  destruct reply as [code |].
  - destruct (code =? 200) eqn:Hcode.
    + apply Z.eqb_eq in Hcode. subst code.
      destruct (grams data) as [amount |] eqn:Hgrams.
      * destruct (_ && _).
        -- cbn [schedule_status schedules_after schedules_seq_after schedule_calls].
           split; [cbn; tauto |]. split.
           { intros _. split; [reflexivity |]. split; [discriminate |].
             eexists. reflexivity. }
           split; [intros H; now contradiction H |].
           split; [intros [H | H]; discriminate H |].
           split; [discriminate |]. intros call Hc. now apply Hcall.
        -- cbn [schedule_status schedules_after schedules_seq_after schedule_calls].
           split; [cbn; tauto |]. split; [discriminate |].
           split; [now split |].
           split; [intros [H | H]; discriminate H |].
           split; [discriminate |]. intros call Hc. now apply Hcall.
      * cbn [schedule_status schedules_after schedules_seq_after schedule_calls].
        split; [cbn; tauto |]. split; [discriminate |].
        split; [now split |].
        split; [intros [H | H]; discriminate H |].
        split; [discriminate |]. intros call Hc. now apply Hcall.
    + cbn [schedule_status schedules_after schedules_seq_after schedule_calls].
      split; [cbn; tauto |]. split; [discriminate |].
      split; [now split |].
      split; [intros [H | H]; discriminate H |].
      split; [discriminate |]. intros call Hc. now apply Hcall.
  - cbn [schedule_status schedules_after schedules_seq_after schedule_calls].
    split; [cbn; tauto |]. split; [discriminate |].
    split; [now split |].
    split; [intros [H | H]; discriminate H |].
    split; [discriminate |]. intros call Hc. now apply Hcall.
Qed.

(** X14: [set_schedule] looks a module up without asking whether it is
    active.  After [delete_feeder] of a module, no row with its id is
    active, yet a schedule for that id is still sent to the host and port of
    the module, and the answer is not 404. *)
Theorem set_schedule_reaches_deleted_feeder :
  forall (d : db) (schedules : list schedule) (seq fid : Z)
         (amount : option Z) (on_days : list Z)
         (h m ws period rest : string) (reply : http_reply) (feeder : feeder)
         (c : clock),
    digits h -> digits m -> all_chars is_space ws = true ->
    period = "AM" \/ period = "PM" ->
    sqlite_integer fid = true ->
    NoDup (map feeder_id (feeders d)) -> In feeder (feeders d) ->
    feeder_id feeder = fid ->
    (forall g, In g (feeders (state (delete_feeder d fid c))) ->
               feeder_id g = fid -> is_active g = false)
    /\ schedule_status
         (set_schedule (state (delete_feeder d fid c)) schedules seq
            (schedule_request fid amount (time_text h m ws period rest) on_days)
            reply) <> 404
    /\ exists call,
         schedule_calls
           (set_schedule (state (delete_feeder d fid c)) schedules seq
              (schedule_request fid amount (time_text h m ws period rest) on_days)
              reply) = [call]
         /\ call_host call = esp32_ip feeder
         /\ call_port call = esp32_port feeder.
Proof.
  intros d schedules seq fid amount on_days h m ws period rest reply feeder c
    Hh Hm Hws Hp Hfid Hnd Hin Hid.
  split.
  { intros g Hg Hgid. destruct (is_active g) eqn:Hact; [| reflexivity].
    destruct (deleted_not_active d fid c g Hg Hact) as [Hne _].
    contradiction. }
  destruct (set_schedule_reads d fid h m ws period rest feeder
              Hh Hm Hws Hp Hnd Hin Hid) as (Hmatch & Hinth & Hintm & Hfind).
  assert (Hfind' :
    find (fun f => feeder_id f =? fid) (feeders (state (delete_feeder d fid c)))
    = Some (deactivate c feeder))
    by (now rewrite delete_feeder_rows, find_deactivated, Hfind).
  unfold set_schedule, schedule_request.
  cbn [time json_feeder_id grams days or_default].
  rewrite Hmatch, Hinth, Hintm, Hfid, Hfind'. cbn [negb].
  destruct reply as [code |];
    [destruct (code =? 200);
     [destruct amount as [g |]; [destruct (_ && _) |] |] |];
    cbn [schedule_status schedule_calls];
    (split; [discriminate |]); eexists; (split; [reflexivity |]);
    split; reflexivity.
Qed.

(** The theorem at the registered module, deleted a second after noon. *)
Lemma set_schedule_reaches_deleted_feeder_witness :
  (forall g, In g (feeders (state (delete_feeder one_feeder_db 1 second_after_noon))) ->
             feeder_id g = 1 -> is_active g = false)
  /\ schedule_status
       (set_schedule (state (delete_feeder one_feeder_db 1 second_after_noon)) [] 0
          (schedule_request 1 (Some 50) (time_text "7" "05" " " "PM" "") [])
          (Response 200)) <> 404
  /\ exists call,
       schedule_calls
         (set_schedule (state (delete_feeder one_feeder_db 1 second_after_noon)) [] 0
            (schedule_request 1 (Some 50) (time_text "7" "05" " " "PM" "") [])
            (Response 200)) = [call]
       /\ call_host call = "192.168.1.10"
       /\ call_port call = 80.
Proof.
  apply (set_schedule_reaches_deleted_feeder one_feeder_db [] 0 1 (Some 50) []
           "7" "05" " " "PM" "" (Response 200) module_1 second_after_noon).
  - split; [reflexivity | cbn; lia].
  - split; [reflexivity | cbn; lia].
  - reflexivity.
  - now right.
  - reflexivity.
  - cbn. constructor; [intros [] | constructor].
  - now left.
  - reflexivity.
Defined.

(** X15: a request without an amount.  The column [amount_g] of
    [feeding_schedules] is NOT NULL, and the INSERT runs inside the [try]
    whose handler answers 503.  So for a request with no [grams] the
    schedule is still sent to the device, without an amount; when the
    device accepts it with 200, nothing is stored and the answer is 503
    with the text "Could not connect to ESP32". *)
Theorem set_schedule_without_amount :
  forall (d : db) (schedules : list schedule) (seq fid : Z) (on_days : list Z)
         (h m ws period rest : string) (feeder : feeder),
    digits h -> digits m -> all_chars is_space ws = true ->
    period = "AM" \/ period = "PM" ->
    sqlite_integer fid = true ->
    NoDup (map feeder_id (feeders d)) -> In feeder (feeders d) ->
    feeder_id feeder = fid ->
    set_schedule d schedules seq
      (schedule_request fid None (time_text h m ws period rest) on_days)
      (Response 200)
    = mk_schedule_outcome 503 (MessageOf "Could not connect to ESP32: ")
        schedules seq
        [mk_schedule_call (esp32_ip feeder) (esp32_port feeder) 0
           (to_24_hour (decimal_value 0 h) period) (decimal_value 0 m) None 1 5].
Proof.
  intros d schedules seq fid on_days h m ws period rest feeder
    Hh Hm Hws Hp Hfid Hnd Hin Hid.
  pose proof (set_schedule_reads d fid h m ws period rest feeder
                Hh Hm Hws Hp Hnd Hin Hid) as H.
  read_schedule H Hfid. reflexivity.
Qed.

(** The theorem at "8:00 AM" for the registered module. *)
Lemma set_schedule_without_amount_witness :
  set_schedule one_feeder_db [] 0
    (schedule_request 1 None (time_text "8" "00" " " "AM" "") [])
    (Response 200)
  = mk_schedule_outcome 503 (MessageOf "Could not connect to ESP32: ") [] 0
      [mk_schedule_call "192.168.1.10" 80 0
         (to_24_hour (decimal_value 0 "8") "AM") (decimal_value 0 "00") None 1 5].
Proof.
  apply (set_schedule_without_amount one_feeder_db [] 0 1 []
           "8" "00" " " "AM" "" module_1).
  - split; [reflexivity | cbn; lia].
  - split; [reflexivity | cbn; lia].
  - reflexivity.
  - now left.
  - reflexivity.
  - cbn. constructor; [intros [] | constructor].
  - now left.
  - reflexivity.
Defined.

(* ------------------------------------------------------------------ *)
(** ** The dispense amount kept in [dispense_amount.txt] *)
(* ------------------------------------------------------------------ *)


(* ------------------------------------------------------------------ *)
(** ** [home] and [get_feeding_logs]: reading the log *)
(* ------------------------------------------------------------------ *)

Lemma MAX_upper (ids : list Z) :
  match MAX ids with
  | Some mx => Forall (fun i => i <= mx) ids
  | None => ids = []
  end.
Proof.
  induction ids as [| i ids IH]; cbn; [reflexivity |].
  destruct (MAX ids) as [mx |].
  - constructor; [lia |]. eapply Forall_impl; [| exact IH]. cbn. intros; lia.
  - subst ids. constructor; [lia | constructor].
Qed.

Lemma autoincrement_above (seq : Z) (ids : list Z) :
  Forall (fun i => i < autoincrement seq ids) ids.
Proof.
  unfold autoincrement. pose proof (MAX_upper ids) as H.
  destruct (MAX ids) as [mx |].
  - eapply Forall_impl; [| exact H]. cbn. intros; lia.
  - subst ids. constructor.
Qed.

Lemma MAX_snoc_above (ids : list Z) (x : Z) :
  Forall (fun i => i < x) ids -> MAX (ids ++ [x]) = Some x.
Proof.
  induction 1 as [| i ids Hi _ IH]; cbn; [reflexivity |].
  rewrite IH. f_equal. lia.
Qed.

Lemma find_by_key_above (x : Z) (rows : list log) :
  Forall (fun i => i < x) (map id rows) ->
  find (fun l => id l =? x) rows = None.
Proof.
  induction rows as [| r rows IH]; cbn; intros H; [reflexivity |].
  inv H. replace (id r =? x) with false by (symmetry; apply Z.eqb_neq; lia).
  now apply IH.
Qed.

(** X17: [home] shows the row inserted last.  Right after [log_data] it
    shows the weight and the time of that event, whatever the table held
    and whatever the kind of the event; right after [delete_all_logs] it
    shows no data. *)
Theorem home_shows_last_logged :
  forall (d : db) (form : log_form) (c : clock),
    home (state (log_data d form c)) = Latest (form_weight form) (now c)
    /\ home (state (delete_all_logs d)) = NoData.
Proof.
  intros d form c. split; [| reflexivity].
  pose proof (autoincrement_above (logs_seq d) (map id (logs d))) as Habove.
  assert (Hhome : forall d',
             logs d' = logs d
                       ++ [mk_log (autoincrement (logs_seq d) (map id (logs d))) 1
                             (now c) (or_default "ESP32" (form_source form))
                             (form_weight form) (or_default 0 (form_amount form))
                             (or_default "UNKNOWN" (form_event form)) None
                             (Some (or_default "Manual" (form_feed_type form)))
                             (Some (or_default "" (form_feeding_id form)))] ->
             home d' = Latest (form_weight form) (now c)).
  { intros d' E. unfold home. rewrite E, map_app. cbn [map id].
    rewrite (MAX_snoc_above _ _ Habove).
    rewrite find_app_hit;
      [reflexivity | now apply find_by_key_above | apply Z.eqb_refl]. }
  apply Hhome. unfold log_data.
  now destruct (countable (or_default "UNKNOWN" (form_event form))).
Qed.

Lemma insert_by_timestamp_desc_perm (l : log) (rows : list log) :
  Permutation (insert_by_timestamp_desc l rows) (l :: rows).
Proof.
  induction rows as [| r rows IH]; simpl.
  - apply Permutation_refl.
  - destruct (timestamp r <=? timestamp l).
    + apply Permutation_refl.
    + eapply perm_trans; [apply perm_skip, IH | apply perm_swap].
Qed.

Lemma order_by_timestamp_desc_perm (rows : list log) :
  Permutation (order_by_timestamp_desc rows) rows.
Proof.
  induction rows as [| l rows IH]; simpl.
  - apply Permutation_refl.
  - eapply perm_trans; [apply insert_by_timestamp_desc_perm | now apply perm_skip].
Qed.

Lemma insert_by_timestamp_desc_sorted (l : log) (rows : list log) :
  StronglySorted (fun a b => timestamp b <= timestamp a) rows ->
  StronglySorted (fun a b => timestamp b <= timestamp a)
    (insert_by_timestamp_desc l rows).
Proof.
  induction 1 as [| r rows Hs IH Hr]; simpl.
  - constructor; constructor.
  - destruct (timestamp r <=? timestamp l) eqn:E.
    + apply Z.leb_le in E. constructor; [now constructor |].
      constructor; [exact E |].
      eapply Forall_impl; [| exact Hr]. cbn. intros; lia.
    + apply Z.leb_gt in E. constructor; [exact IH |].
      eapply Permutation_Forall;
        [apply Permutation_sym, insert_by_timestamp_desc_perm |].
      constructor; [lia | exact Hr].
Qed.

Lemma order_by_timestamp_desc_sorted (rows : list log) :
  StronglySorted (fun a b => timestamp b <= timestamp a)
    (order_by_timestamp_desc rows).
Proof.
  induction rows as [| l rows IH]; simpl.
  - constructor.
  - now apply insert_by_timestamp_desc_sorted.
Qed.

Lemma StronglySorted_app_order {A : Type} (R : A -> A -> Prop) (l1 l2 : list A) :
  StronglySorted R (l1 ++ l2) ->
  StronglySorted R l1 /\ forall a b, In a l1 -> In b l2 -> R a b.
Proof.
  induction l1 as [| x l1 IH]; simpl; intros Hs.
  - split; [constructor | intros a b []].
  - inv Hs. destruct (IH H1) as [Hs1 Hcross]. split.
    + constructor; [exact Hs1 |]. apply Forall_app in H2. tauto.
    + intros a b [<- | Ha] Hb.
      * rewrite Forall_forall in H2. apply H2, in_or_app. now right.
      * now apply Hcross.
Qed.

(** X18: [get_feeding_logs] answers with the newest rows.  The rows it
    lists are rows of [logs], at most 100 and all of them when the table
    has no more, newest first; and every row of the table that it leaves
    out is no newer than any row it lists. *)
Theorem get_feeding_logs_newest_first :
  forall d : db,
    List.length (get_feeding_logs d) = Nat.min 100 (List.length (logs d))
    /\ StronglySorted (fun a b => timestamp b <= timestamp a) (get_feeding_logs d)
    /\ exists omitted,
         Permutation (logs d) (get_feeding_logs d ++ omitted)
         /\ forall listed o, In listed (get_feeding_logs d) -> In o omitted ->
                             timestamp o <= timestamp listed.
Proof.
  intros d. unfold get_feeding_logs.
  pose proof (order_by_timestamp_desc_sorted (logs d)) as Hs.
  pose proof (order_by_timestamp_desc_perm (logs d)) as Hp.
  rewrite <- (firstn_skipn 100 (order_by_timestamp_desc (logs d))) in Hs.
  apply StronglySorted_app_order in Hs. destruct Hs as [Hs Hcross].
  split.
  - rewrite length_firstn. now rewrite (Permutation_length Hp).
  - split; [exact Hs |].
    exists (skipn 100 (order_by_timestamp_desc (logs d))). split.
    + rewrite firstn_skipn. now apply Permutation_sym.
    + intros listed o Hl Ho. now apply Hcross.
Qed.

(** X19: a log row holds one image reference, that of the last upload.
    Two uploads for the same feeding (the same [X-Feeding-ID], or none both
    times), both stored, leave the table as the second one alone would,
    whatever their capture types: the path of the first capture is
    overwritten. *)
Theorem upload_photo_last_wins :
  forall (d : db) (x_feeding_id first_capture second_capture : option string)
         (first_stamp second_stamp : string),
    state (upload_photo
             (state (upload_photo d x_feeding_id first_capture first_stamp true))
             x_feeding_id second_capture second_stamp true)
    = state (upload_photo d x_feeding_id second_capture second_stamp true).
Proof.
  intros d x_feeding_id first_capture second_capture first_stamp second_stamp.
  assert (Htwice : forall (p : log -> bool) path path' rows,
             (forall l, p (set_image_path path l) = p l) ->
             update_where p (set_image_path path')
               (update_where p (set_image_path path) rows)
             = update_where p (set_image_path path') rows).
  { intros p path path' rows Hp. unfold update_where. rewrite map_map.
    apply map_ext. intros l. destruct (p l) eqn:E.
    - now rewrite Hp, E.
    - now rewrite E. }
  assert (Hids : forall (p : log -> bool) path rows,
             map id (update_where p (set_image_path path) rows) = map id rows).
  { intros p path rows. unfold update_where. rewrite map_map.
    apply map_ext. intros l. now destruct (p l). }
  unfold upload_photo. cbn [negb state].
  destruct (truthy (Some (or_default "" x_feeding_id)));
    cbn [logs with_logs logs_seq layout feeders feeders_seq daily_stats];
    unfold with_logs;
    cbn [logs with_logs logs_seq layout feeders feeders_seq daily_stats];
    f_equal.
  - now apply Htwice.
  - rewrite Hids. now apply Htwice.
Qed.

(* ------------------------------------------------------------------ *)
(** ** The helpers of [ip_management.py] and the addresses loaded at start *)
(* ------------------------------------------------------------------ *)

Lemma find_update_where_id (fid : Z) (g : feeder -> feeder) (fs : list feeder) :
  (forall f, feeder_id (g f) = feeder_id f) ->
  find (fun f => feeder_id f =? fid) (update_where (fun f => feeder_id f =? fid) g fs)
  = option_map g (find (fun f => feeder_id f =? fid) fs).
Proof.
  intros Hg. induction fs as [| f fs IH]; cbn; [reflexivity |].
  destruct (feeder_id f =? fid) eqn:E; cbn.
  - now rewrite Hg, E.
  - rewrite E. exact IH.
Qed.

Lemma two_active_same_host (fs : list feeder) (a b : feeder) :
  In a fs -> In b fs -> is_active a = true -> is_active b = true ->
  esp32_ip a = esp32_ip b -> feeder_id a <> feeder_id b ->
  ~ NoDup (map esp32_ip (filter is_active fs)).
Proof.
  intros Ha Hb Aa Ab Hhost Hid Hnd.
  assert (E : a = b).
  { apply (NoDup_map_same_key esp32_ip (filter is_active fs)); try assumption;
      apply filter_In; now split. }
  subst b. now apply Hid.
Qed.

(** X20: [add_new_feeder] of [ip_management.py] checks nothing.  Whatever
    the name and the address text, it appends an active module with that
    address, port 80 and a key above every key of the table, and touches no
    other table.  When an active module already has the address, two active
    modules share it afterwards: the rule that [add_feeder] of [app.py]
    enforces does not hold for this helper. *)
Theorem add_new_feeder_checks_nothing :
  forall (d : db) (name host : string) (cam : option string) (place : string)
         (c : clock),
    (exists f,
        feeders (snd (add_new_feeder d name host cam place c)) = feeders d ++ [f]
        /\ feeder_id f = fst (add_new_feeder d name host cam place c)
        /\ Forall (fun g => feeder_id g < feeder_id f) (feeders d)
        /\ feeder_name f = name /\ esp32_ip f = host /\ esp32_port f = 80
        /\ is_active f = true /\ is_online f = false)
    /\ logs (snd (add_new_feeder d name host cam place c)) = logs d
    /\ daily_stats (snd (add_new_feeder d name host cam place c)) = daily_stats d
    /\ ((exists g, In g (feeders d) /\ is_active g = true /\ esp32_ip g = host) ->
        ~ active_hosts_distinct (snd (add_new_feeder d name host cam place c))).
Proof.
  intros d name host cam place c. unfold add_new_feeder. cbn [fst snd].
  pose proof (autoincrement_above (feeders_seq d) (map feeder_id (feeders d)))
    as Habove.
  split; [| split; [reflexivity | split; [reflexivity |]]].
  - eexists. split; [reflexivity |]. cbn [feeder_id feeder_name esp32_ip
      esp32_port is_active is_online].
    split; [reflexivity |]. split; [| repeat split].
    rewrite Forall_forall in Habove. apply Forall_forall. intros g Hg.
    apply Habove. now apply in_map.
  - intros (g & Hg & Hact & Hhost).
    unfold active_hosts_distinct, active_hosts. cbn [feeders with_feeders].
    eapply two_active_same_host with (a := g);
      [apply in_or_app; left; exact Hg
      | apply in_or_app; right; left; reflexivity
      | exact Hact | reflexivity | exact Hhost |].
    cbn [feeder_id]. rewrite Forall_forall in Habove.
    specialize (Habove (feeder_id g) (in_map feeder_id _ _ Hg)).
    cbn beta in Habove. lia.
Qed.

(** X21: [update_feeder_ip] followed by [get_feeder_ips].  After the
    address of an existing module is set to a text that is not empty,
    [get_feeder_ips] gives that text, the port the module had and the URL
    made of the two, and the camera address given, or the one the module
    had when none is given; modules with another id are as they were.  The
    text is not checked: when both the module and another module with that
    address are active, two active modules share the address afterwards. *)
Theorem update_feeder_ip_round_trip :
  forall (d : db) (fid : Z) (host : string) (cam : option string) (c : clock)
         (f : feeder),
    host <> EmptyString ->
    NoDup (map feeder_id (feeders d)) -> In f (feeders d) ->
    feeder_id f = fid ->
    (exists ips,
        get_feeder_ips (update_feeder_ip d fid (Some host) cam c) fid = Some ips
        /\ ips_esp32_ip ips = host /\ ips_esp32_port ips = esp32_port f
        /\ esp32_url ips = url_of (Some host) (esp32_port f)
        /\ ips_esp_cam_ip ips = (if truthy cam then cam else esp_cam_ip f))
    /\ (forall g, In g (feeders d) -> feeder_id g <> fid ->
                  In g (feeders (update_feeder_ip d fid (Some host) cam c)))
    /\ (is_active f = true ->
        (exists g, In g (feeders d) /\ feeder_id g <> fid
                   /\ is_active g = true /\ esp32_ip g = host) ->
        ~ active_hosts_distinct (update_feeder_ip d fid (Some host) cam c)).
Proof.
  intros d fid host cam c f Hhost Hnd Hin Hid. subst fid.
  pose proof (find_by_id_present f (feeders d) Hnd Hin) as Hfind.
  unfold update_feeder_ip. rewrite (truthy_text host Hhost).
  cbn [or_default feeders feeders_seq with_feeders].
  assert (Hother : forall (set : feeder -> feeder) rows g,
             In g rows -> feeder_id g <> feeder_id f ->
             In g (update_where (fun r => feeder_id r =? feeder_id f) set rows)).
  { intros set rows g Hg Hne. apply update_where_In. exists g.
    split; [exact Hg |].
    replace (feeder_id g =? feeder_id f) with false
      by (symmetry; now apply Z.eqb_neq).
    reflexivity. }
  assert (Hself : forall (set : feeder -> feeder) rows r,
             In r rows -> feeder_id r = feeder_id f ->
             In (set r) (update_where (fun r => feeder_id r =? feeder_id f) set rows)).
  { intros set rows r Hr Hsame. apply update_where_In. exists r.
    split; [exact Hr |]. now rewrite Hsame, Z.eqb_refl. }
  destruct (truthy cam) eqn:Hcam.
  - destruct (truthy_cases cam) as [Hfalse | (t & -> & Ht)]; [congruence |].
    cbn [or_default feeders feeders_seq with_feeders].
    split; [| split].
    + unfold get_feeder_ips. cbn [feeders with_feeders].
      rewrite !find_update_where_id, Hfind by reflexivity.
      cbn [option_map]. eexists. split; [reflexivity |]. now repeat split.
    + intros g Hg Hne. cbn [feeders with_feeders].
      apply Hother; [| exact Hne]. now apply Hother.
    + intros Hact (g & Hg & Hne & Hgact & Hghost).
      unfold active_hosts_distinct, active_hosts. cbn [feeders with_feeders].
      eapply two_active_same_host with (a := g);
        [apply Hother; [apply Hother |]; eassumption
        | apply Hself; [apply Hself; [exact Hin | reflexivity] | reflexivity]
        | exact Hgact | exact Hact | exact Hghost | exact Hne].
  - split; [| split].
    + unfold get_feeder_ips. cbn [feeders with_feeders].
      rewrite find_update_where_id, Hfind by reflexivity.
      cbn [option_map]. eexists. split; [reflexivity |]. now repeat split.
    + intros g Hg Hne. cbn [feeders with_feeders]. now apply Hother.
    + intros Hact (g & Hg & Hne & Hgact & Hghost).
      unfold active_hosts_distinct, active_hosts. cbn [feeders with_feeders].
      eapply two_active_same_host with (a := g);
        [apply Hother; eassumption
        | apply Hself; [exact Hin | reflexivity]
        | exact Hgact | exact Hact | exact Hghost | exact Hne].
Qed.

(** The theorem at the registered module, moved to another address. *)
Lemma update_feeder_ip_round_trip_witness :
  exists ips,
    get_feeder_ips (update_feeder_ip one_feeder_db 1 (Some "10.0.0.7") None noon) 1
    = Some ips
    /\ ips_esp32_ip ips = "10.0.0.7" /\ ips_esp32_port ips = 80
    /\ esp32_url ips = url_of (Some "10.0.0.7") 80
    /\ ips_esp_cam_ip ips = None.
Proof.
  apply (update_feeder_ip_round_trip one_feeder_db 1 "10.0.0.7" None noon module_1).
  - discriminate.
  - cbn. constructor; [intros [] | constructor].
  - now left.
  - reflexivity.
Defined.

Lemma split_head (sep c : ascii) (s p : string) (ps : list string) :
  split sep s = String c p :: ps -> exists rest, s = String c rest.
Proof.
  destruct s as [| c0 s]; cbn [split]; [discriminate |].
  destruct (Ascii.eqb c0 sep); [discriminate |].
  destruct (split sep s); intros E; inv E; eauto.
Qed.

Lemma invalid_ip_head (host : string) :
  invalid_ip host = Ok false ->
  exists c rest, host = String c rest /\ isdigit_char c = true.
Proof.
  unfold invalid_ip. destruct (negb _); [discriminate |].
  destruct (split "." host) as [| part parts] eqn:E.
  - now destruct (split_nonempty "." host).
  - cbn [all_octets]. destruct (isdigit part) eqn:Hd; [| discriminate].
    intros _. destruct part as [| c p]; [discriminate |].
    destruct (split_head _ _ _ _ _ E) as [rest ->].
    exists c, rest. split; [reflexivity |].
    unfold isdigit in Hd. cbn [all_chars] in Hd.
    now apply andb_true_iff in Hd.
Qed.

(** X22: the address that [app.py] loads at start carries no scheme.  When
    feeder 1 is in the table with a host that passes the check of
    [add_feeder], and the server URL can be read, [ESP32_IP] is the bare
    host: every URL that [trigger_feeding] and [get_esp32_status] build by
    appending a path to it starts with a digit, so with neither "http://"
    nor "https://".  Only the fallback value, taken when the load fails,
    starts with "http://". *)
Theorem module_addresses_without_scheme :
  forall (d : db) (rpi_server_url path : string) (f : feeder),
    NoDup (map feeder_id (feeders d)) -> In f (feeders d) -> feeder_id f = 1 ->
    invalid_ip (esp32_ip f) = Ok false ->
    fst (fst (module_addresses d (Some rpi_server_url))) = esp32_ip f
    /\ (exists ch rest,
           device_url (fst (fst (module_addresses d (Some rpi_server_url)))) path
           = String ch rest
           /\ isdigit_char ch = true)
    /\ String.prefix "http://"
         (device_url (fst (fst (module_addresses d (Some rpi_server_url)))) path)
       = false
    /\ String.prefix "https://"
         (device_url (fst (fst (module_addresses d (Some rpi_server_url)))) path)
       = false
    /\ String.prefix "http://"
         (device_url (fst (fst (module_addresses d None))) path)
       = true.
Proof.
  intros d rpi_server_url path f Hnd Hin Hid Hvalid.
  assert (Hfind : find (fun g => feeder_id g =? 1) (feeders d) = Some f)
    by (rewrite <- Hid; now apply find_by_id_present).
  assert (Hfallback :
    String.prefix "http://" (device_url (fst (fst (module_addresses d None))) path)
    = true).
  { unfold module_addresses. now destruct (get_feeder_ips d 1). }
  unfold module_addresses, get_feeder_ips in *. rewrite Hfind in *.
  cbn [fst ips_esp32_ip] in *.
  destruct (invalid_ip_head _ Hvalid) as (ch & rest & E & Hch).
  rewrite E. unfold device_url. cbn [String.append].
  split; [reflexivity |]. split; [eauto |].
  split; [| split; [| exact Hfallback]];
    cbn [String.prefix];
    destruct (ascii_dec "h" ch) as [<- | Hne]; try discriminate Hch;
    reflexivity.
Qed.

(** The theorem at the registered module. *)
Lemma module_addresses_without_scheme_witness :
  fst (fst (module_addresses one_feeder_db (Some "http://192.168.1.2:8080")))
  = "192.168.1.10"
  /\ String.prefix "http://"
       (device_url (fst (fst (module_addresses one_feeder_db
                                (Some "http://192.168.1.2:8080"))))
          "/trigger_dispensing")
     = false.
Proof.
  destruct (module_addresses_without_scheme one_feeder_db
              "http://192.168.1.2:8080" "/trigger_dispensing" module_1)
    as (H1 & _ & H2 & _).
  - cbn. constructor; [intros [] | constructor].
  - now left.
  - reflexivity.
  - reflexivity.
  - split; [exact H1 | exact H2].
Defined.
